(** * Diffusion Pipe Helper: the interactive training script

    A shallow embedding of [interactive_start_training.py].  The script is
    orchestration glue: it prompts the user, inspects the file system, spawns
    a fetch process that it polls under a three hour ceiling, and finally runs
    the training command.  Every interaction with the outside (console, file
    system, subprocesses, clock, keyboard interrupt) goes through one
    primitive, [syscall], over an explicit world; the functions of the script
    are written in a state-and-exception monad over that world, in the order
    of the source. *)

From Stdlib Require Import ZArith List String Ascii Bool Lia DecimalString.
From stdpp Require Import base gmap strings.
Import ListNotations.
Local Open Scope string_scope.
Local Open Scope Z_scope.
Local Open Scope list_scope.

(** ** Python values and exceptions *)

(** [SystemExit] and [KeyboardInterrupt] derive from [BaseException] only;
    everything else the script can meet ([OSError], [KeyError], [EOFError])
    derives from [Exception] and is represented by its class name and
    [str(e)]. *)
Inductive exn : Type :=
| SystemExit (code : Z)
| KeyboardInterrupt
| PyException (cls msg : string).

(** How a run ends: with a value, with an exception, or not at all.
    [Hangs]: a call the run made never returns ([subprocess.run] on a
    command that does not end).  [OutOfFuel]: the fuel that bounds the
    model's loop is used up. *)
Inductive Result (A : Type) : Type :=
| Ok (a : A)
| Exc (e : exn)
| OutOfFuel
| Hangs.
Arguments Ok {A} a.
Arguments Exc {A} e.
Arguments OutOfFuel {A}.
Arguments Hangs {A}.

(** ** The world *)

Inductive FileKind : Type := File | Dir.

(** The one fetch process in flight ([process] in [download_model]). *)
Record Proc : Type := {
  spawned_at : Z;
  returncode : option Z;
  killed : bool
}.

Record OS : Type := {
  fs : string -> option FileKind;      (* what a path names for the process,
                                          a relative one taken from its
                                          current directory; None: nothing *)
  listing : string -> list string;     (* os.listdir of a directory *)
  environ : gmap string string;        (* os.environ *)
  installed : string -> bool;          (* executables found on PATH *)
  stdin : list string;                 (* the lines the user will type, as
                                          typed, then the end of the input *)
  fetch_exit : option (Z * Z);         (* the fetch exits after d seconds with
                                          code rc; None: it never exits *)
  run_exit : list string -> option Z;  (* exit code of a synchronous command;
                                          None: it never returns *)
  now : Z;                             (* seconds *)
  proc : option Proc;
  cwd : string                         (* the directories changed to, joined *)
}.

Definition set_fs (f : string -> option FileKind) (o : OS) : OS :=
  {| fs := f; listing := listing o; environ := environ o;
     installed := installed o; stdin := stdin o; fetch_exit := fetch_exit o;
     run_exit := run_exit o; now := now o; proc := proc o; cwd := cwd o |}.

Definition set_environ (e : gmap string string) (o : OS) : OS :=
  {| fs := fs o; listing := listing o; environ := e;
     installed := installed o; stdin := stdin o; fetch_exit := fetch_exit o;
     run_exit := run_exit o; now := now o; proc := proc o; cwd := cwd o |}.

Definition set_stdin (l : list string) (o : OS) : OS :=
  {| fs := fs o; listing := listing o; environ := environ o;
     installed := installed o; stdin := l; fetch_exit := fetch_exit o;
     run_exit := run_exit o; now := now o; proc := proc o; cwd := cwd o |}.

Definition set_now (t : Z) (o : OS) : OS :=
  {| fs := fs o; listing := listing o; environ := environ o;
     installed := installed o; stdin := stdin o; fetch_exit := fetch_exit o;
     run_exit := run_exit o; now := t; proc := proc o; cwd := cwd o |}.

Definition set_proc (p : option Proc) (o : OS) : OS :=
  {| fs := fs o; listing := listing o; environ := environ o;
     installed := installed o; stdin := stdin o; fetch_exit := fetch_exit o;
     run_exit := run_exit o; now := now o; proc := p; cwd := cwd o |}.

Definition set_cwd (d : string) (o : OS) : OS :=
  {| fs := fs o; listing := listing o; environ := environ o;
     installed := installed o; stdin := stdin o; fetch_exit := fetch_exit o;
     run_exit := run_exit o; now := now o; proc := proc o; cwd := d |}.

Definition set_listing (l : string -> list string) (o : OS) : OS :=
  {| fs := fs o; listing := l; environ := environ o;
     installed := installed o; stdin := stdin o; fetch_exit := fetch_exit o;
     run_exit := run_exit o; now := now o; proc := proc o; cwd := cwd o |}.

(** What an observer of the process sees, one event per primitive. *)
Inductive event : Type :=
| EInterrupt                                   (* SIGINT delivered *)
| EClear
| EPrint (s : string)
| EPanel (s : string)
| ETable (title : string) (rows : list (list string))
| EPrompt (prompt : string) (answer : option string)
| EConfirm (prompt : string) (answer : option bool)
| EExists (path : string) (found : bool)
| EListdir (path : string) (ok : bool)
| EMakedirs (path : string) (ok : bool)
| EOpen (path : string) (ok : bool)
| EClose (path : string)
| EPopen (cmd : list string) (ok : bool)
| EPoll (status : option Z)
| ESleep (seconds : Z)
| EProgressStart
| EProgressUpdate
| EProgressStop
| EKill
| ERun (cmd : list string) (env : option (gmap string string)) (rc : option Z)
| EChdir (path : string) (ok : bool)
| ESetenv (key value : string)
| ETraceback.

(** [interrupt = Some n]: the user presses Ctrl-C when [n] more primitives
    have completed; the signal is delivered once. *)
Record World : Type := {
  os : OS;
  interrupt : option nat;
  trace : list event
}.

(** ** The monad *)

Definition M (A : Type) : Type := World -> Result A * World.

Definition ret {A} (a : A) : M A := fun w => (Ok a, w).

Definition raise {A} (e : exn) : M A := fun w => (Exc e, w).

Definition out_of_fuel {A} : M A := fun w => (OutOfFuel, w).

Definition bind {A B} (m : M A) (f : A -> M B) : M B := fun w =>
  match m w with
  | (Ok a, w') => f a w'
  | (Exc e, w') => (Exc e, w')
  | (OutOfFuel, w') => (OutOfFuel, w')
  | (Hangs, w') => (Hangs, w')
  end.

Notation "x <- c1 ;; c2" := (bind c1 (fun x => c2))
  (at level 100, c1 at next level, right associativity).
Notation "c1 ;; c2" := (bind c1 (fun _ => c2))
  (at level 100, right associativity).

(** Reading the state of the process ([os.environ.get], an attribute of the
    process object): no system call, no event. *)
Definition read {A} (f : OS -> A) : M A := fun w => (Ok (f (os w)), w).

(** [sys.exit(n)] raises [SystemExit]. *)
Definition sys_exit {A} (n : Z) : M A := raise (SystemExit n).

(** One primitive: unless the pending interrupt is delivered first, [op]
    acts on the operating system state and is recorded in the trace. *)
Definition perform {A} (op : OS -> event * Result A * OS) (i : option nat)
    (w : World) : Result A * World :=
  let '(e, r, o) := op (os w) in
  (r, {| os := o; interrupt := i; trace := trace w ++ [e] |}).

Definition syscall {A} (op : OS -> event * Result A * OS) : M A := fun w =>
  match interrupt w with
  | Some O =>
      (Exc KeyboardInterrupt,
       {| os := os w; interrupt := None; trace := trace w ++ [EInterrupt] |})
  | Some (S n) => perform op (Some n) w
  | None => perform op None w
  end.

(** Leaving a [with] block: the exit handler runs on every way out, a
    return or an exception.  A block whose body hangs is not left. *)
Definition with_cleanup {A} (m : M A) (e : event) : M A := fun w =>
  let '(r, w') := m w in
  match r with
  | Hangs => (Hangs, w')
  | _ => (r, {| os := os w'; interrupt := interrupt w'; trace := trace w' ++ [e] |})
  end.

(** try / except KeyboardInterrupt / except Exception. *)
Definition try_except {A} (m : M A) (on_interrupt : M A)
    (on_exception : string -> M A) : M A := fun w =>
  match m w with
  | (Exc KeyboardInterrupt, w') => on_interrupt w'
  | (Exc (PyException _ msg), w') => on_exception msg w'
  | other => other
  end.

(** ** Strings and paths *)

Definition nl : string := String (ascii_of_nat 10) "".

Definition str_of_nat (n : nat) : string :=
  NilZero.string_of_uint (Nat.to_uint n).

Definition str_of_Z (z : Z) : string :=
  NilZero.string_of_int (Z.to_int z).

(** [str.lower] on the ASCII letters.  No character outside ASCII lowers to
    one of the letters of the six extensions matched below with the dot in
    front, so for [endswith] on them this is [str.lower]. *)
Definition lower_ascii (c : ascii) : ascii :=
  if (Ascii.leb "A" c && Ascii.leb c "Z")%bool
  then ascii_of_nat (nat_of_ascii c + 32)
  else c.

Fixpoint lower (s : string) : string :=
  match s with
  | EmptyString => EmptyString
  | String c r => String (lower_ascii c) (lower r)
  end.

Fixpoint endswith (s suffix : string) : bool :=
  (s =? suffix)%string ||
  match s with
  | EmptyString => false
  | String _ r => endswith r suffix
  end.

(** [s.endswith(tuple)] *)
Definition endswith_any (s : string) (suffixes : list string) : bool :=
  existsb (endswith s) suffixes.

Definition startswith (s pre : string) : bool := String.prefix pre s.

(** [posixpath.join] of two components. *)
Definition os_path_join (a b : string) : string :=
  if startswith b "/" then b
  else if ((a =? "")%string || endswith a "/")%bool then a +:+ b
  else a +:+ "/" +:+ b.

(** [p[:p.rfind('/') + 1]], when there is a slash. *)
Fixpoint upto_last_slash (s : string) : option string :=
  match s with
  | EmptyString => None
  | String c r =>
      match upto_last_slash r with
      | Some h => Some (String c h)
      | None => if Ascii.eqb c "/" then Some "/" else None
      end
  end.

(** [s.rstrip('/')] *)
Fixpoint rstrip_slash (s : string) : string :=
  match s with
  | EmptyString => EmptyString
  | String c r =>
      match rstrip_slash r with
      | EmptyString => if Ascii.eqb c "/" then EmptyString else String c EmptyString
      | r' => String c r'
      end
  end.

(** [posixpath.dirname] *)
Definition os_path_dirname (p : string) : string :=
  match upto_last_slash p with
  | None => ""
  | Some head =>
      match rstrip_slash head with
      | EmptyString => head
      | stripped => stripped
      end
  end.

(** The prefixes of a path that end just before a slash. *)
Fixpoint slash_prefixes (s : string) : list string :=
  match s with
  | EmptyString => []
  | String c r =>
      let ps := map (String c) (slash_prefixes r) in
      if Ascii.eqb c "/" then EmptyString :: ps else ps
  end.

(** The directories [os.makedirs p] walks through, the leaf last. *)
Definition ancestors (p : string) : list string :=
  List.filter (fun q => negb (q =? "")%string) (slash_prefixes p) ++ [p].

Definition is_file (k : option FileKind) : bool :=
  match k with Some File => true | _ => false end.

Definition is_dir (k : option FileKind) : bool :=
  match k with Some Dir => true | _ => false end.

Definition is_some {A} (o : option A) : bool :=
  match o with Some _ => true | None => false end.

Definition mem (s : string) (l : list string) : bool :=
  existsb (String.eqb s) l.

(** The characters of a text held as its UTF-8 bytes: each byte that does
    not continue a character starts one. *)
Definition continues (c : ascii) : bool :=
  ((128 <=? nat_of_ascii c)%nat && (nat_of_ascii c <=? 191)%nat)%bool.

Definition continued (s : string) : bool :=
  match s with
  | String d _ => continues d
  | EmptyString => false
  end.

Fixpoint chars (s : string) : list string :=
  match s with
  | EmptyString => []
  | String c r =>
      match chars r with
      | ch :: cs =>
          if continued r then String c ch :: cs
          else String c EmptyString :: ch :: cs
      | [] => [String c EmptyString]
      end
  end.

Definition bytes (l : list nat) : string :=
  string_of_list_ascii (map ascii_of_nat l).

(** The characters [str.isspace] holds of: U+0009 to U+000D, U+001C to
    U+0020, U+0085, U+00A0, U+1680, U+2000 to U+200A, U+2028, U+2029,
    U+202F, U+205F and U+3000. *)
Definition blanks : list string :=
  map bytes
    ([[9]; [10]; [11]; [12]; [13]; [28]; [29]; [30]; [31]; [32];
     [194; 133]; [194; 160]; [225; 154; 128];
     [226; 128; 128]; [226; 128; 129]; [226; 128; 130]; [226; 128; 131];
     [226; 128; 132]; [226; 128; 133]; [226; 128; 134]; [226; 128; 135];
     [226; 128; 136]; [226; 128; 137]; [226; 128; 138];
     [226; 128; 168]; [226; 128; 169]; [226; 128; 175];
     [226; 129; 159]; [227; 128; 128]]%nat : list (list nat)).

Definition isspace (ch : string) : bool :=
  existsb (String.eqb ch) blanks.

Fixpoint drop_blanks (cs : list string) : list string :=
  match cs with
  | ch :: rest => if isspace ch then drop_blanks rest else cs
  | [] => []
  end.

(** [str.strip()] *)
Definition strip (s : string) : string :=
  String.concat "" (rev (drop_blanks (rev (drop_blanks (chars s))))).

(** Truth value of an optional string: [None] and [''] are false. *)
Definition truthy (o : option string) : option string :=
  match o with
  | Some EmptyString => None
  | other => other
  end.

(** ** The primitives the script calls *)

Module Prim.

(** *** rich: console, prompts, progress *)

Definition console_print (s : string) : M unit :=
  syscall (fun o => (EPrint s, Ok tt, o)).

Definition console_panel (s : string) : M unit :=
  syscall (fun o => (EPanel s, Ok tt, o)).

Definition console_table (title : string) (rows : list (list string)) : M unit :=
  syscall (fun o => (ETable title rows, Ok tt, o)).

Definition console_clear : M unit :=
  syscall (fun o => (EClear, Ok tt, o)).

Definition eof_error : exn := PyException "EOFError" "EOF when reading a line".

(** [getpass] at the end of the input raises [EOFError] with no message. *)
Definition eof_silent : exn := PyException "EOFError" "".

(** [Prompt.ask] with [choices] and a [default]: a line with nothing on it
    takes the default; any other line is stripped, and is the answer if it
    is one of the choices; a line that is not is refused and the user is
    asked again. *)
Fixpoint read_choice (choices : list string) (default : string)
    (lines : list string) : option string * list string :=
  match lines with
  | [] => (None, [])
  | l :: rest =>
      if (l =? "")%string then (Some default, rest)
      else if mem (strip l) choices then (Some (strip l), rest)
      else read_choice choices default rest
  end.

Definition Prompt_ask (prompt : string) (choices : list string)
    (default : string) : M string :=
  syscall (fun o =>
    match read_choice choices default (stdin o) with
    | (Some a, rest) => (EPrompt prompt (Some a), Ok a, set_stdin rest o)
    | (None, rest) => (EPrompt prompt None, Exc eof_error, set_stdin rest o)
    end).

(** [Prompt.ask(..., password=True)], no choices and no default: the line
    the user typed, read by [getpass], stripped; possibly empty. *)
Definition Prompt_ask_password (prompt : string) : M string :=
  syscall (fun o =>
    match stdin o with
    | l :: rest =>
        (EPrompt prompt (Some (strip l)), Ok (strip l), set_stdin rest o)
    | [] => (EPrompt prompt None, Exc eof_silent, o)
    end).

(** [Confirm.ask]: a line with nothing on it takes the default; any other
    line is stripped and lowered, and must then be y or n; anything else is
    asked again. *)
Fixpoint read_confirm (default : bool) (lines : list string)
    : option bool * list string :=
  match lines with
  | [] => (None, [])
  | l :: rest =>
      if (l =? "")%string then (Some default, rest)
      else if (lower (strip l) =? "y")%string then (Some true, rest)
      else if (lower (strip l) =? "n")%string then (Some false, rest)
      else read_confirm default rest
  end.

Definition Confirm_ask (prompt : string) (default : bool) : M bool :=
  syscall (fun o =>
    match read_confirm default (stdin o) with
    | (Some a, rest) => (EConfirm prompt (Some a), Ok a, set_stdin rest o)
    | (None, rest) => (EConfirm prompt None, Exc eof_error, set_stdin rest o)
    end).

Definition progress_start : M unit :=
  syscall (fun o => (EProgressStart, Ok tt, o)).

Definition progress_update : M unit :=
  syscall (fun o => (EProgressUpdate, Ok tt, o)).

(** [with Progress(...) as progress: body] *)
Definition with_progress {A} (body : M A) : M A :=
  progress_start ;; with_cleanup body EProgressStop.

(** *** os, os.path *)

Definition os_environ_get (key : string) : M (option string) :=
  read (fun o => environ o !! key).

Definition os_environ_set (key value : string) : M unit :=
  syscall (fun o =>
    (ESetenv key value, Ok tt, set_environ (<[key := value]> (environ o)) o)).

Definition os_environ_copy : M (gmap string string) := read environ.

Definition os_path_exists (p : string) : M bool :=
  syscall (fun o => (EExists p (is_some (fs o p)), Ok (is_some (fs o p)), o)).

Definition os_error (cls reason p : string) : exn :=
  PyException cls (reason +:+ ": '" +:+ p +:+ "'").

Definition os_listdir (p : string) : M (list string) :=
  syscall (fun o =>
    match fs o p with
    | Some Dir => (EListdir p true, Ok (listing o p), o)
    | Some File =>
        (EListdir p false,
         Exc (os_error "NotADirectoryError" "[Errno 20] Not a directory" p), o)
    | None =>
        (EListdir p false,
         Exc (os_error "FileNotFoundError" "[Errno 2] No such file or directory" p), o)
    end).

(** No file stands where a directory is wanted. *)
Definition makedirs_ok (f : string -> option FileKind) (p : string) : bool :=
  forallb (fun q => negb (is_file (f q))) (ancestors p).

(** [os.makedirs(p, exist_ok=True)]: the missing directories on the way are
    created, the leaf last. *)
Definition os_makedirs (p : string) : M unit :=
  syscall (fun o =>
    if makedirs_ok (fs o) p
    then (EMakedirs p true, Ok tt,
          set_fs (fun q => if mem q (ancestors p) then Some Dir else fs o q) o)
    else (EMakedirs p false,
          Exc (os_error (if is_file (fs o p) then "FileExistsError"
                         else "NotADirectoryError")
                        "[Errno 17] File exists" p), o)).

(** What the process sees once it has changed to the directory [p]: a
    relative path now names what it named under [p] before. *)
Definition enter (p : string) (o : OS) : OS :=
  set_cwd (os_path_join (cwd o) p)
    (set_listing (fun q => listing o (os_path_join p q))
       (set_fs (fun q => fs o (os_path_join p q)) o)).

Definition os_chdir (p : string) : M unit :=
  syscall (fun o =>
    match fs o p with
    | Some Dir => (EChdir p true, Ok tt, enter p o)
    | Some File =>
        (EChdir p false,
         Exc (os_error "NotADirectoryError" "[Errno 20] Not a directory" p), o)
    | None =>
        (EChdir p false,
         Exc (os_error "FileNotFoundError" "[Errno 2] No such file or directory" p), o)
    end).

(** [open(p, 'w')]: the directory of [p] has to be there; the file is
    created or truncated. *)
Definition open_w (p : string) : M unit :=
  syscall (fun o =>
    match fs o (os_path_dirname p), fs o p with
    | Some Dir, Some Dir =>
        (EOpen p false,
         Exc (os_error "IsADirectoryError" "[Errno 21] Is a directory" p), o)
    | Some Dir, _ =>
        (EOpen p true, Ok tt,
         set_fs (fun q => if (q =? p)%string then Some File else fs o q) o)
    | Some File, _ =>
        (EOpen p false,
         Exc (os_error "NotADirectoryError" "[Errno 20] Not a directory" p), o)
    | None, _ =>
        (EOpen p false,
         Exc (os_error "FileNotFoundError" "[Errno 2] No such file or directory" p), o)
    end).

(** [with open(p, 'w') as f: body] *)
Definition with_open_w {A} (p : string) (body : M A) : M A :=
  open_w p ;; with_cleanup body (EClose p).

(** *** subprocess, time, traceback *)

Definition not_found (prog : string) : exn :=
  os_error "FileNotFoundError" "[Errno 2] No such file or directory" prog.

(** [subprocess.Popen(cmd, stdout=f, stderr=subprocess.STDOUT)] *)
Definition subprocess_Popen (cmd : list string) : M unit :=
  syscall (fun o =>
    match cmd with
    | prog :: _ =>
        if installed o prog
        then (EPopen cmd true, Ok tt,
              set_proc (Some {| spawned_at := now o; returncode := None;
                                killed := false |}) o)
        else (EPopen cmd false, Exc (not_found prog), o)
    | [] => (EPopen cmd false,
             Exc (PyException "IndexError" "list index out of range"), o)
    end).

(** What [poll] finds: the exit code once the process has run its time. *)
Definition exit_status_at (o : OS) (p : Proc) : option Z :=
  match returncode p with
  | Some rc => Some rc
  | None =>
      match fetch_exit o with
      | Some (d, rc) => if spawned_at p + d <=? now o then Some rc else None
      | None => None
      end
  end.

Definition no_process : exn :=
  PyException "NameError" "name 'process' is not defined".

(** [process.poll()] *)
Definition process_poll : M (option Z) :=
  syscall (fun o =>
    match proc o with
    | Some p =>
        let st := exit_status_at o p in
        (EPoll st, Ok st,
         set_proc (Some {| spawned_at := spawned_at p; returncode := st;
                           killed := killed p |}) o)
    | None => (EPoll None, Exc no_process, o)
    end).

(** [process.returncode] *)
Definition process_returncode : M (option Z) :=
  read (fun o => match proc o with Some p => returncode p | None => None end).

(** [process.kill()] *)
Definition process_kill : M unit :=
  syscall (fun o =>
    match proc o with
    | Some p =>
        (EKill, Ok tt,
         set_proc (Some {| spawned_at := spawned_at p;
                           returncode := returncode p; killed := true |}) o)
    | None => (EKill, Exc no_process, o)
    end).

Definition time_sleep (seconds : Z) : M unit :=
  syscall (fun o => (ESleep seconds, Ok tt, set_now (now o + seconds) o)).

(** [subprocess.run(cmd)] and [subprocess.run(cmd, env=env)]: waits for the
    command and returns its exit code, which nothing checks.  There is no
    timeout: a command that does not end is waited for without end. *)
Definition subprocess_run (cmd : list string)
    (env : option (gmap string string)) : M Z :=
  syscall (fun o =>
    match cmd with
    | prog :: _ =>
        if installed o prog
        then match run_exit o cmd with
             | Some rc => (ERun cmd env (Some rc), Ok rc, o)
             | None => (ERun cmd env None, Hangs, o)
             end
        else (ERun cmd env None, Exc (not_found prog), o)
    | [] => (ERun cmd env None,
             Exc (PyException "IndexError" "list index out of range"), o)
    end).

Definition traceback_print_exc : M unit :=
  syscall (fun o => (ETraceback, Ok tt, o)).

End Prim.
Import Prim.

(** ** The script *)

(** An entry of [MODELS].  A key that an entry does not have, and a key
    bound to Python's [None], are both [None] here: the script reads the
    optional ones with [model.get] or tests their truth value. *)
Record Model : Type := {
  name : string;
  type : string;
  hf_repo : string;
  hf_files : option (list string);
  local_dir : string;
  toml : string;
  training_script : option string;
  requires_token : bool;
  model_file : option string;
  special_download : option bool
}.

(** [timeout = 10800  # 3 hours], the ceiling in [download_model]. *)
Definition timeout : Z := 10800.

Definition key_error (k : string) : exn := PyException "KeyError" ("'" +:+ k +:+ "'").

(** [d[k]] on a dictionary with string keys. *)
Definition getitem {V} (d : gmap string V) (k : string) : M V := fun w =>
  match d !! k with
  | Some v => (Ok v, w)
  | None => (Exc (key_error k), w)
  end.

(** [for x in l: body x] *)
Fixpoint for_each {A} (l : list A) (body : A -> M unit) : M unit :=
  match l with
  | [] => ret tt
  | x :: rest => body x ;; for_each rest body
  end.

(** [str] of an optional exit code. *)
Definition str_of_returncode (rc : option Z) : string :=
  match rc with
  | Some z => str_of_Z z
  | None => "None"
  end.

Section Script.

(** [NETWORK_VOLUME = os.environ.get('NETWORK_VOLUME', '/workspace')], read
    once when the module is loaded. *)
Variable NETWORK_VOLUME : string.

Definition WORKING_DIR : string := NETWORK_VOLUME +:+ "/diffusion-pipe-working-folder".

Definition MODELS_items : list (string * Model) := [
  ("flux",
   {| name := "Flux"; type := "Image";
      hf_repo := "black-forest-labs/FLUX.1-dev"; hf_files := None;
      local_dir := NETWORK_VOLUME +:+ "/models/flux";
      toml := "flux.toml";
      training_script := Some "start_flux_training.sh";
      requires_token := true;
      model_file := Some "flux1-dev.safetensors";
      special_download := None |});
  ("sdxl",
   {| name := "SDXL"; type := "Image";
      hf_repo := "timoshishi/sdXL_v10VAEFix";
      hf_files := Some ["sdXL_v10VAEFix.safetensors"];
      local_dir := NETWORK_VOLUME +:+ "/models";
      toml := "sdxl.toml";
      training_script := Some "start_sdxl_training.sh";
      requires_token := false;
      model_file := Some "sdXL_v10VAEFix.safetensors";
      special_download := None |});
  ("wan13",
   {| name := "Wan 1.3B"; type := "Video";
      hf_repo := "Wan-AI/Wan2.1-T2V-1.3B"; hf_files := None;
      local_dir := NETWORK_VOLUME +:+ "/models/Wan/Wan2.1-T2V-1.3B";
      toml := "wan13_video.toml";
      training_script := Some "start_wan_t2v_13b_training.sh";
      requires_token := false;
      model_file := Some "diffusion_pytorch_model.safetensors";
      special_download := None |});
  ("wan14b_t2v",
   {| name := "Wan 14B Text-To-Video"; type := "Video";
      hf_repo := "Wan-AI/Wan2.1-T2V-14B"; hf_files := None;
      local_dir := NETWORK_VOLUME +:+ "/models/Wan/Wan2.1-T2V-14B";
      toml := "wan14b_t2v.toml";
      training_script := Some "start_wan_t2v_14b_training.sh";
      requires_token := false;
      model_file := Some "diffusion_pytorch_model.safetensors";
      special_download := None |});
  ("wan14b_i2v",
   {| name := "Wan 14B Image-To-Video"; type := "Video";
      hf_repo := "Wan-AI/Wan2.1-I2V-14B-480P"; hf_files := None;
      local_dir := NETWORK_VOLUME +:+ "/models/Wan/Wan2.1-I2V-14B-480P";
      toml := "wan14b_i2v.toml";
      training_script := Some "start_wan_i2v_480p_training.sh";
      requires_token := false;
      model_file := Some "diffusion_pytorch_model.safetensors";
      special_download := None |});
  ("qwen",
   {| name := "Qwen Image"; type := "Image";
      hf_repo := "Qwen/Qwen-Image"; hf_files := None;
      local_dir := NETWORK_VOLUME +:+ "/models/Qwen-Image";
      toml := "qwen_toml.toml";
      training_script := None;
      requires_token := false;
      model_file := Some "model.safetensors";
      special_download := None |});
  ("z_image_turbo",
   {| name := "Z Image Turbo"; type := "Image";
      hf_repo := "Comfy-Org/z_image_turbo"; hf_files := None;
      local_dir := NETWORK_VOLUME +:+ "/models/z_image";
      toml := "z_image_toml.toml";
      training_script := None;
      requires_token := false;
      model_file := None;
      special_download := Some true |})
].

Definition MODELS : gmap string Model := list_to_map MODELS_items.

Definition show_welcome : M unit :=
  console_clear ;;
  console_panel
    ("[bold cyan]Diffusion Pipe Helper - Interactive Training[/bold cyan]" +:+ nl +:+
     "[dim]A Python version with Rich UI[/dim]") ;;
  console_print "".

Definition model_map : gmap string string :=
  list_to_map [("1", "flux"); ("2", "sdxl"); ("3", "wan13");
               ("4", "wan14b_t2v"); ("5", "wan14b_i2v"); ("6", "qwen");
               ("7", "z_image_turbo")].

Definition show_menu : M string :=
  console_table "Select Model to Train"
    [["1"; "Flux"; "Image"];
     ["2"; "SDXL"; "Image"];
     ["3"; "Wan 1.3B"; "Video"];
     ["4"; "Wan 14B Text-To-Video"; "Video"];
     ["5"; "Wan 14B Image-To-Video"; "Video"];
     ["6"; "Qwen Image"; "Image"];
     ["7"; "Z Image Turbo"; "Image"]] ;;
  console_print "" ;;
  choice <- Prompt_ask "Enter your choice" ["1"; "2"; "3"; "4"; "5"; "6"; "7"] "1" ;;
  getitem model_map choice.

Definition get_api_token (model_key : string) : M (option string) :=
  model <- getitem MODELS model_key ;;
  if negb (requires_token model) then ret None
  else
    let ask_user : M (option string) :=
      console_print "" ;;
      console_print "[yellow]Hugging Face token required for this model[/yellow]" ;;
      console_print "[dim]Get your token from: https://huggingface.co/settings/tokens[/dim]" ;;
      console_print "" ;;
      token <- Prompt_ask_password "Enter your Hugging Face token" ;;
      (if (token =? "")%string
       then console_print "[red]Token cannot be empty. Exiting.[/red]" ;;
            sys_exit 1
       else ret tt) ;;
      os_environ_set "HUGGING_FACE_TOKEN" token ;;
      console_print "[green]Token set successfully[/green]" ;;
      ret (Some token) in
    token <- os_environ_get "HUGGING_FACE_TOKEN" ;;
    match truthy token with
    | Some t =>
        if negb (t =? "token_here")%string
        then console_print "[green]Hugging Face token already set[/green]" ;;
             ret (Some t)
        else ask_user
    | None => ask_user
    end.

Definition mode_map : gmap string string :=
  list_to_map [("1", "images"); ("2", "videos"); ("3", "both"); ("4", "skip")].

Definition get_caption_mode : M string :=
  console_print "" ;;
  console_panel
    ("[bold]Dataset Captioning[/bold]" +:+ nl +:+ nl +:+
     "Do you want to auto-caption your dataset?") ;;
  console_print "" ;;
  console_table ""
    [["1"; "Caption images only"];
     ["2"; "Caption videos only"];
     ["3"; "Caption both images and videos"];
     ["4"; "Skip captioning"]] ;;
  console_print "" ;;
  choice <- Prompt_ask "Enter your choice" ["1"; "2"; "3"; "4"] "4" ;;
  getitem mode_map choice.

Definition image_dir : string := NETWORK_VOLUME +:+ "/image_dataset_here".
Definition video_dir : string := NETWORK_VOLUME +:+ "/video_dataset_here".

Definition image_suffixes : list string := [".jpg"; ".jpeg"; ".png"].
Definition video_suffixes : list string := [".mp4"; ".avi"; ".mov"].

(** [[f for f in files if f.lower().endswith(suffixes)]] *)
Definition matching (suffixes files : list string) : list string :=
  List.filter (fun f => endswith_any (lower f) suffixes) files.

Definition validate_dataset (caption_mode : string) : M bool :=
  console_print "" ;;
  console_panel "[bold cyan]Dataset Validation[/bold cyan]" ;;
  console_print "" ;;
  let issues : list string := [] in
  (* Check image dataset *)
  issues <-
    (if mem caption_mode ["images"; "both"] then
       found <- os_path_exists image_dir ;;
       if negb found then
         ret (issues ++ ["Image dataset folder not found: " +:+ image_dir])
       else
         files <- os_listdir image_dir ;;
         let image_files := matching image_suffixes files in
         if (length image_files =? 0)%nat then
           ret (issues ++ ["No images found in: " +:+ image_dir])
         else
           console_print ("[green]✓ Found " +:+ str_of_nat (length image_files)
                          +:+ " images[/green]") ;;
           ret issues
     else ret issues) ;;
  (* Check video dataset *)
  issues <-
    (if mem caption_mode ["videos"; "both"] then
       found <- os_path_exists video_dir ;;
       if negb found then
         ret (issues ++ ["Video dataset folder not found: " +:+ video_dir])
       else
         files <- os_listdir video_dir ;;
         let video_files := matching video_suffixes files in
         if (length video_files =? 0)%nat then
           ret (issues ++ ["No videos found in: " +:+ video_dir])
         else
           console_print ("[green]✓ Found " +:+ str_of_nat (length video_files)
                          +:+ " videos[/green]") ;;
           ret issues
     else ret issues) ;;
  (match issues with
   | [] => ret tt
   | _ :: _ =>
       console_print "" ;;
       for_each issues (fun issue =>
         console_print ("[yellow]⚠ " +:+ issue +:+ "[/yellow]")) ;;
       console_print "" ;;
       continue <- Confirm_ask "Continue anyway?" false ;;
       if negb continue then sys_exit 0 else ret tt
   end) ;;
  console_print "" ;;
  ret true.

Definition log_file : string := NETWORK_VOLUME +:+ "/logs/model_download.log".

(** The [while process.poll() is None] loop of [download_model].  [Some b]:
    the function returned [b] from inside the loop; [None]: the loop ended
    because [poll] found an exit code.  Every round adds 3 to [elapsed] and
    the round that reaches [timeout] returns, so the loop runs at most
    [timeout / 3] rounds; [fuel] bounds them. *)
Fixpoint poll_loop (fuel : nat) (elapsed : Z) : M (option bool) :=
  match fuel with
  | O => out_of_fuel
  | S fuel' =>
      status <- process_poll ;;
      match status with
      | Some _ => ret None
      | None =>
          time_sleep 3 ;;
          let elapsed := elapsed + 3 in
          progress_update ;;
          if elapsed >=? timeout then
            console_print "[red]Download timed out after 3 hours![/red]" ;;
            process_kill ;;
            ret (Some false)
          else poll_loop fuel' elapsed
      end
  end.

Definition download_command (model : Model) (token : option string) : list string :=
  let cmd := ["huggingface-cli"; "download"; hf_repo model; "--local-dir"; local_dir model] in
  let cmd :=
    match hf_files model with
    | Some (f :: fs) => (cmd ++ f :: fs)
    | _ => cmd
    end in
  match truthy token with
  | Some t => (cmd ++ ["--token"; t])
  | None => cmd
  end.

Definition download_model_fuel (fuel : nat) (model_key : string)
    (token : option string) : M bool :=
  model <- getitem MODELS model_key ;;
  console_print "" ;;
  console_panel
    ("[bold cyan]Downloading " +:+ name model +:+ "[/bold cyan]" +:+ nl +:+
     "[dim]From: " +:+ hf_repo model +:+ "[/dim]" +:+ nl +:+
     "[dim]To: " +:+ local_dir model +:+ "[/dim]") ;;
  console_print "" ;;
  (* Create directory *)
  os_makedirs (local_dir model) ;;
  (* Check if already downloaded *)
  skipped <-
    match truthy (model_file model) with
    | Some file =>
        let model_path := os_path_join (local_dir model) file in
        found <- os_path_exists model_path ;;
        if found then
          console_print ("[yellow]Model already exists at: " +:+ model_path +:+ "[/yellow]") ;;
          skip <- Confirm_ask "Skip download?" true ;;
          if skip then
            console_print "[green]✓ Using existing model[/green]" ;;
            ret true
          else ret false
        else ret false
    | None => ret false
    end ;;
  if skipped then ret true
  else
    (* Build download command *)
    let cmd := download_command model token in
    (* Start download in background *)
    console_print "[cyan]Starting download in background...[/cyan]" ;;
    console_print ("[dim]To monitor: tail -f " +:+ log_file +:+ "[/dim]") ;;
    console_print "" ;;
    with_open_w log_file (subprocess_Popen cmd) ;;
    (* Wait for download with timeout *)
    returned <- with_progress (poll_loop fuel 0) ;;
    match returned with
    | Some b => ret b
    | None =>
        rc <- process_returncode ;;
        match rc with
        | Some 0 =>
            console_print "[green]✓ Download complete![/green]" ;;
            ret true
        | _ =>
            console_print ("[red]Download failed with exit code "
                           +:+ str_of_returncode rc +:+ "[/red]") ;;
            console_print ("[yellow]Check log: " +:+ log_file +:+ "[/yellow]") ;;
            ret false
        end
    end.

(** The loop cannot run more rounds than there are seconds in [timeout]. *)
Definition download_model : string -> option string -> M bool :=
  download_model_fuel (Z.to_nat timeout).

Definition pip_transformers : list string :=
  ["pip"; "install"; "transformers"; "-U"; "-q"].
Definition pip_peft : list string :=
  ["pip"; "install"; "--upgrade"; "peft>=0.17.0"; "-q"].

Definition script_command (script_path : string) : list string :=
  ["bash"; script_path].
Definition inline_command (model : Model) : list string :=
  ["deepspeed"; "--num_gpus=1"; "train.py"; "--deepspeed"; "--config";
   "examples/" +:+ toml model].

Definition launch_training (model_key : string) : M unit :=
  model <- getitem MODELS model_key ;;
  console_print "" ;;
  console_panel
    ("[bold green]Starting Training: " +:+ name model +:+ "[/bold green]" +:+ nl +:+
     "[dim]Configuration: " +:+ toml model +:+ "[/dim]") ;;
  console_print "" ;;
  (* Change to diffusion_pipe directory *)
  let diffusion_pipe_dir := WORKING_DIR +:+ "/diffusion_pipe" in
  found <- os_path_exists diffusion_pipe_dir ;;
  (if negb found then
     console_print ("[red]Error: " +:+ diffusion_pipe_dir +:+ " not found![/red]") ;;
     console_print "[yellow]Run setup.sh first![/yellow]" ;;
     sys_exit 1
   else ret tt) ;;
  os_chdir diffusion_pipe_dir ;;
  (* Upgrade dependencies *)
  console_print "[cyan]Upgrading dependencies...[/cyan]" ;;
  subprocess_run pip_transformers None ;;
  subprocess_run pip_peft None ;;
  console_print "[green]✓ Dependencies updated[/green]" ;;
  console_print "" ;;
  (* Special warnings for certain models *)
  (if mem model_key ["qwen"; "z_image_turbo"] then
     console_panel
       ("[yellow]⚠ IMPORTANT: Model initialization can take several minutes.[/yellow]" +:+ nl +:+
        "[yellow]⚠ The script may appear to hang - this is NORMAL.[/yellow]" +:+ nl +:+
        "[yellow]⚠ As long as it doesn't exit with error, let it run.[/yellow]") ;;
     console_print "" ;;
     console_print "[cyan]Waiting 10 seconds...[/cyan]" ;;
     time_sleep 10 ;;
     console_print ""
   else ret tt) ;;
  console_print "[bold green]Training is starting...[/bold green]" ;;
  console_print "" ;;
  (* Prepare environment *)
  env <- os_environ_copy ;;
  let env := <["NCCL_P2P_DISABLE" := "1"]> env in
  let env := <["NCCL_IB_DISABLE" := "1"]> env in
  (* Check if model has separate training script *)
  match truthy (training_script model) with
  | Some script =>
      (* Call separate bash script *)
      let script_path := WORKING_DIR +:+ "/training_scripts/" +:+ script in
      found <- os_path_exists script_path ;;
      if found then
        subprocess_run (script_command script_path) (Some env) ;;
        ret tt
      else
        console_print ("[red]Training script not found: " +:+ script_path +:+ "[/red]") ;;
        sys_exit 1
  | None =>
      (* Run training inline *)
      subprocess_run (inline_command model) (Some env) ;;
      ret tt
  end ;;
  console_print "" ;;
  console_print "[bold green]✓ Training completed![/bold green]".

(** The body of the [try] in [main]. *)
Definition main_body : M unit :=
  show_welcome ;;
  model_key <- show_menu ;;
  model <- getitem MODELS model_key ;;
  console_print "" ;;
  console_print ("[green]✓ Selected: " +:+ name model +:+ "[/green]") ;;
  token <- get_api_token model_key ;;
  caption_mode <- get_caption_mode ;;
  validate_dataset caption_mode ;;
  console_panel
    ("[bold]Configuration Summary[/bold]" +:+ nl +:+ nl +:+
     "Model: " +:+ name model +:+ nl +:+
     "Type: " +:+ type model +:+ nl +:+
     "Caption Mode: " +:+ caption_mode +:+ nl +:+
     "Config: " +:+ toml model) ;;
  console_print "" ;;
  start <- Confirm_ask "Start training with this configuration?" true ;;
  (if negb start then
     console_print "[yellow]Cancelled by user[/yellow]" ;;
     sys_exit 0
   else ret tt) ;;
  ok <- download_model model_key token ;;
  (if negb ok then
     console_print "[red]Download failed, cannot continue[/red]" ;;
     sys_exit 1
   else ret tt) ;;
  launch_training model_key.

Definition on_keyboard_interrupt : M unit :=
  console_print "" ;;
  console_print "[yellow]Cancelled by user[/yellow]" ;;
  sys_exit 0.

Definition on_exception (msg : string) : M unit :=
  console_print "" ;;
  console_print ("[red]Error: " +:+ msg +:+ "[/red]") ;;
  traceback_print_exc ;;
  sys_exit 1.

Definition main : M unit :=
  try_except main_body on_keyboard_interrupt on_exception.

End Script.

(** [if __name__ == '__main__': main()], after the module constants; rich
    is installed, so the import at the top succeeds. *)
Definition script : M unit :=
  network_volume <- read (fun o => default "/workspace" (environ o !! "NETWORK_VOLUME")) ;;
  main network_volume.

(** The exit status of the interpreter: 0 when [main] returns, the code of
    a [SystemExit], 1 after an exception nothing caught, 130 after a
    [KeyboardInterrupt] nothing caught. *)
Definition exit_code {A} (r : Result A) : option Z :=
  match r with
  | Ok _ => Some 0
  | Exc (SystemExit c) => Some c
  | Exc KeyboardInterrupt => Some 130
  | Exc (PyException _ _) => Some 1
  | OutOfFuel => None
  | Hangs => None
  end.

(** ** Observing a run *)

Definition result {A} (m : M A) (w : World) : Result A := fst (m w).
Definition final {A} (m : M A) (w : World) : World := snd (m w).

(** What the run of [m] adds to the trace. *)
Definition events {A} (m : M A) (w : World) : list event :=
  skipn (length (trace w)) (trace (final m w)).

(** A world in which no interrupt is pending. *)
Definition quiet (o : OS) (tr : list event) : World :=
  {| os := o; interrupt := None; trace := tr |}.

Definition is_popen (e : event) : bool :=
  match e with EPopen _ _ => true | _ => false end.

(** The training command is the one run with an environment of its own. *)
Definition is_training (e : event) : bool :=
  match e with ERun _ (Some _) _ => true | _ => false end.

(** The commands run synchronously, in order. *)
Definition commands_run (evs : list event) : list (list string) :=
  flat_map (fun e => match e with ERun cmd _ _ => [cmd] | _ => [] end) evs.


(** One round of the polling loop in which the fetch is still running. *)
Definition round : list event := [EPoll None; ESleep 3; EProgressUpdate].

Fixpoint rounds (n : nat) : list event :=
  match n with
  | O => []
  | S n' => round ++ rounds n'
  end.

(** The confirmation gates: declining one cancels the session. *)
Definition gates : list string :=
  ["Continue anyway?"; "Start training with this configuration?"].

Definition is_gate_decline (e : event) : bool :=
  match e with
  | EConfirm prompt (Some false) => mem prompt gates
  | _ => false
  end.


(** ** Reasoning about runs *)

Lemma events_of {A} (m : M A) w r w' evs :
  m w = (r, w') -> trace w' = trace w ++ evs ->
  result m w = r /\ final m w = w' /\ events m w = evs.
Proof.
  intros Hm Ht. unfold events, result, final. rewrite Hm. cbn [fst snd].
  repeat split. rewrite Ht. apply drop_app_length.
Qed.

Lemma bind_ok {A B} (m : M A) (f : A -> M B) w a w' :
  m w = (Ok a, w') -> bind m f w = f a w'.
Proof. intros H. unfold bind. now rewrite H. Qed.

Lemma bind_hangs {A B} (m : M A) (f : A -> M B) w w' :
  m w = (Hangs, w') -> bind m f w = (Hangs, w').
Proof. intros H. unfold bind. now rewrite H. Qed.

Lemma bind_exc {A B} (m : M A) (f : A -> M B) w e w' :
  m w = (Exc e, w') -> bind m f w = (Exc e, w').
Proof. intros H. unfold bind. now rewrite H. Qed.

Lemma bind_assoc {A B C} (m : M A) (f : A -> M B) (g : B -> M C) w :
  bind (bind m f) g w = bind m (fun a => bind (f a) g) w.
Proof. unfold bind. destruct (m w) as [[a | e | |] w1]; reflexivity. Qed.

Lemma getitem_ok {V} (d : gmap string V) k v w :
  d !! k = Some v -> getitem d k w = (Ok v, w).
Proof. intros H. unfold getitem. now rewrite H. Qed.

(** *** Invariants of every run *)

(** Once an event in [T] has happened the run ends, with an exception in
    [S].  With [S] empty: no event of the run is in [T]. *)
Definition triggers {A} (T : event -> bool) (S : exn -> Prop) (m : M A) : Prop :=
  forall w, exists evs,
    trace (final m w) = trace w ++ evs /\
    (existsb T evs = true -> exists e, result m w = Exc e /\ S e).

(** An interrupt is delivered once, and [KeyboardInterrupt] comes from
    nowhere else. *)
Definition calm {A} (m : M A) : Prop :=
  forall w,
    (interrupt w = None ->
     interrupt (final m w) = None /\ result m w <> Exc KeyboardInterrupt) /\
    (result m w = Exc KeyboardInterrupt -> interrupt (final m w) = None).

Section Triggers.

Context (T : event -> bool) (S : exn -> Prop).

Lemma triggers_ret {A} (a : A) : triggers T S (ret a).
Proof. intros w. exists []. cbn. rewrite app_nil_r. split; [reflexivity | discriminate]. Qed.

Lemma triggers_raise {A} e : triggers T S (@raise A e).
Proof. intros w. exists []. cbn. rewrite app_nil_r. split; [reflexivity | discriminate]. Qed.

Lemma triggers_sys_exit {A} n : triggers T S (@sys_exit A n).
Proof. apply triggers_raise. Qed.

Lemma triggers_out_of_fuel {A} : triggers T S (@out_of_fuel A).
Proof. intros w. exists []. cbn. rewrite app_nil_r. split; [reflexivity | discriminate]. Qed.

Lemma triggers_read {A} (f : OS -> A) : triggers T S (read f).
Proof. intros w. exists []. cbn. rewrite app_nil_r. split; [reflexivity | discriminate]. Qed.

Lemma triggers_getitem {V} (d : gmap string V) k : triggers T S (getitem d k).
Proof.
  intros w. exists []. unfold final, result, getitem.
  destruct (d !! k); cbn; rewrite app_nil_r; (split; [reflexivity | discriminate]).
Qed.

Lemma triggers_bind {A B} (m : M A) (f : A -> M B) :
  triggers T S m -> (forall a, triggers T S (f a)) -> triggers T S (bind m f).
Proof.
  intros Hm Hf w. destruct (Hm w) as (e1 & Ht1 & Hr1).
  unfold final, result, bind in *.
  destruct (m w) as [[a | x | |] w1] eqn:E; cbn in *.
  - destruct (Hf a w1) as (e2 & Ht2 & Hr2). unfold final, result in *.
    exists (e1 ++ e2). rewrite Ht2, Ht1, app_assoc. split; [reflexivity |].
    rewrite existsb_app. intros H. apply orb_true_iff in H as [H | H].
    + destruct (Hr1 H) as (x & Hx & _). discriminate.
    + exact (Hr2 H).
  - exists e1. split; [assumption |]. intros H.
    destruct (Hr1 H) as (e & He & HS). exists e. split; [congruence | assumption].
  - exists e1. split; [assumption |]. intros H.
    destruct (Hr1 H) as (e & He & _). discriminate.
  - exists e1. split; [assumption |]. intros H.
    destruct (Hr1 H) as (e & He & _). discriminate.
Qed.

Lemma triggers_syscall {A} (op : OS -> event * Result A * OS) :
  (forall o, T (fst (fst (op o))) = true ->
             exists e, snd (fst (op o)) = Exc e /\ S e) ->
  (T EInterrupt = true -> S KeyboardInterrupt) ->
  triggers T S (syscall op).
Proof.
  intros Hop Hint w. unfold final, result, syscall, perform.
  specialize (Hop (os w)).
  destruct (interrupt w) as [[| n] |]; cbn.
  - exists [EInterrupt]. split; [reflexivity |]. cbn. rewrite orb_false_r.
    intros H. eauto.
  - destruct (op (os w)) as [[e r] o]. cbn in *. exists [e].
    split; [reflexivity |]. cbn. rewrite orb_false_r. auto.
  - destruct (op (os w)) as [[e r] o]. cbn in *. exists [e].
    split; [reflexivity |]. cbn. rewrite orb_false_r. auto.
Qed.

Lemma triggers_with_cleanup {A} (m : M A) e :
  T e = false -> triggers T S m -> triggers T S (with_cleanup m e).
Proof.
  intros He Hm w. destruct (Hm w) as (e1 & Ht1 & Hr1).
  unfold final, result, with_cleanup in *.
  destruct (m w) as [r w1]. cbn in *.
  destruct r; cbn; [exists (e1 ++ [e]) .. | exists e1; split; assumption];
    (rewrite Ht1, app_assoc; split; [reflexivity |]);
    rewrite existsb_app; cbn; rewrite He, !orb_false_r; auto.
Qed.

Lemma triggers_for_each {A} (l : list A) (body : A -> M unit) :
  (forall x, triggers T S (body x)) -> triggers T S (for_each l body).
Proof.
  intros H. induction l as [| x l IH]; cbn.
  - apply triggers_ret.
  - apply triggers_bind; auto.
Qed.

End Triggers.

Lemma calm_ret {A} (a : A) : calm (ret a).
Proof. intros w. cbn. split; [split; [assumption | discriminate] | discriminate]. Qed.

Lemma calm_raise {A} e : e <> KeyboardInterrupt -> calm (@raise A e).
Proof.
  intros He w. cbn. split; [split; [assumption | congruence] | congruence].
Qed.

Lemma calm_sys_exit {A} n : calm (@sys_exit A n).
Proof. apply calm_raise. discriminate. Qed.

Lemma calm_out_of_fuel {A} : calm (@out_of_fuel A).
Proof. intros w. cbn. split; [split; [assumption | discriminate] | discriminate]. Qed.

Lemma calm_read {A} (f : OS -> A) : calm (read f).
Proof. intros w. cbn. split; [split; [assumption | discriminate] | discriminate]. Qed.

Lemma calm_getitem {V} (d : gmap string V) k : calm (getitem d k).
Proof.
  intros w. unfold final, result, getitem.
  destruct (d !! k); cbn; (split; [split; [assumption | discriminate] | discriminate]).
Qed.

Lemma calm_bind {A B} (m : M A) (f : A -> M B) :
  calm m -> (forall a, calm (f a)) -> calm (bind m f).
Proof.
  intros Hm Hf w. destruct (Hm w) as [Hq Hk].
  unfold final, result, bind in *.
  destruct (m w) as [[a | x | |] w1] eqn:E; cbn in *.
  - destruct (Hf a w1) as [Hq2 Hk2]. unfold final, result in *.
    split; [| assumption]. intros Hw. apply Hq2. now apply Hq.
  - split.
    + intros Hw. destruct (Hq Hw) as [Hi Hx]. split; [assumption | congruence].
    + intros Hx. apply Hk. congruence.
  - split.
    + intros Hw. destruct (Hq Hw) as [Hi _]. split; [assumption | discriminate].
    + discriminate.
  - split.
    + intros Hw. destruct (Hq Hw) as [Hi _]. split; [assumption | discriminate].
    + discriminate.
Qed.

Lemma calm_syscall {A} (op : OS -> event * Result A * OS) :
  (forall o, snd (fst (op o)) <> Exc KeyboardInterrupt) -> calm (syscall op).
Proof.
  intros Hop w. unfold final, result, syscall, perform.
  specialize (Hop (os w)).
  destruct (interrupt w) as [[| n] |]; cbn.
  - split; [discriminate | reflexivity].
  - destruct (op (os w)) as [[e r] o]. cbn in *. split; [discriminate | contradiction].
  - destruct (op (os w)) as [[e r] o]. cbn in *.
    split; [intros _; split; [reflexivity | assumption] | contradiction].
Qed.

Lemma calm_with_cleanup {A} (m : M A) e : calm m -> calm (with_cleanup m e).
Proof.
  intros Hm w. destruct (Hm w) as [Hq Hk].
  unfold final, result, with_cleanup in *.
  destruct (m w) as [r w1]. cbn in *. destruct r; cbn; split; assumption.
Qed.

Lemma calm_for_each {A} (l : list A) (body : A -> M unit) :
  (forall x, calm (body x)) -> calm (for_each l body).
Proof.
  intros H. induction l as [| x l IH]; cbn.
  - apply calm_ret.
  - apply calm_bind; auto.
Qed.

(** The run ends: it does not stop for want of fuel. *)
Definition fueled {A} (m : M A) : Prop := forall w, result m w <> OutOfFuel.

Lemma fueled_ret {A} (a : A) : fueled (ret a).
Proof. intros w. discriminate. Qed.

Lemma fueled_raise {A} e : fueled (@raise A e).
Proof. intros w. discriminate. Qed.

Lemma fueled_read {A} (f : OS -> A) : fueled (read f).
Proof. intros w. discriminate. Qed.

Lemma fueled_getitem {V} (d : gmap string V) k : fueled (getitem d k).
Proof. intros w. unfold result, getitem. destruct (d !! k); discriminate. Qed.

Lemma fueled_bind {A B} (m : M A) (f : A -> M B) :
  fueled m -> (forall a, fueled (f a)) -> fueled (bind m f).
Proof.
  intros Hm Hf w. specialize (Hm w). unfold result, bind in *.
  destruct (m w) as [[a | x | |] w1]; cbn in *.
  - apply Hf.
  - discriminate.
  - congruence.
  - congruence.
Qed.

Lemma fueled_syscall {A} (op : OS -> event * Result A * OS) :
  (forall o, snd (fst (op o)) <> OutOfFuel) -> fueled (syscall op).
Proof.
  intros Hop w. unfold result, syscall, perform. specialize (Hop (os w)).
  destruct (interrupt w) as [[| n] |]; cbn; try discriminate;
    destruct (op (os w)) as [[e r] o]; assumption.
Qed.

Lemma fueled_with_cleanup {A} (m : M A) e : fueled m -> fueled (with_cleanup m e).
Proof.
  intros Hm w. specialize (Hm w). unfold result, with_cleanup in *.
  destruct (m w) as [r w1]. destruct r; assumption.
Qed.

Lemma fueled_for_each {A} (l : list A) (body : A -> M unit) :
  (forall x, fueled (body x)) -> fueled (for_each l body).
Proof.
  intros H. induction l as [| x l IH]; cbn.
  - apply fueled_ret.
  - apply fueled_bind; auto.
Qed.

(** No call of the run is waited for without end. *)
Definition unblocked {A} (m : M A) : Prop := forall w, result m w <> Hangs.

Lemma unblocked_ret {A} (a : A) : unblocked (ret a).
Proof. intros w. discriminate. Qed.

Lemma unblocked_raise {A} e : unblocked (@raise A e).
Proof. intros w. discriminate. Qed.

Lemma unblocked_out_of_fuel {A} : unblocked (@out_of_fuel A).
Proof. intros w. discriminate. Qed.

Lemma unblocked_read {A} (f : OS -> A) : unblocked (read f).
Proof. intros w. discriminate. Qed.

Lemma unblocked_getitem {V} (d : gmap string V) k : unblocked (getitem d k).
Proof. intros w. unfold result, getitem. destruct (d !! k); discriminate. Qed.

Lemma unblocked_bind {A B} (m : M A) (f : A -> M B) :
  unblocked m -> (forall a, unblocked (f a)) -> unblocked (bind m f).
Proof.
  intros Hm Hf w. specialize (Hm w). unfold result, bind in *.
  destruct (m w) as [[a | x | |] w1]; cbn in *.
  - apply Hf.
  - discriminate.
  - discriminate.
  - congruence.
Qed.

Lemma unblocked_syscall {A} (op : OS -> event * Result A * OS) :
  (forall o, snd (fst (op o)) <> Hangs) -> unblocked (syscall op).
Proof.
  intros Hop w. unfold result, syscall, perform. specialize (Hop (os w)).
  destruct (interrupt w) as [[| n] |]; cbn; try discriminate;
    destruct (op (os w)) as [[e r] o]; assumption.
Qed.

Lemma unblocked_with_cleanup {A} (m : M A) e :
  unblocked m -> unblocked (with_cleanup m e).
Proof.
  intros Hm w. specialize (Hm w). unfold result, with_cleanup in *.
  destruct (m w) as [r w1]. destruct r; assumption.
Qed.

Lemma unblocked_for_each {A} (l : list A) (body : A -> M unit) :
  (forall x, unblocked (body x)) -> unblocked (for_each l body).
Proof.
  intros H. induction l as [| x l IH]; cbn.
  - apply unblocked_ret.
  - apply unblocked_bind; auto.
Qed.

(** The run always ends with an exception in [S]. *)
Definition dies {A} (S : exn -> Prop) (m : M A) : Prop :=
  forall w, exists evs,
    trace (final m w) = trace w ++ evs /\ exists e, result m w = Exc e /\ S e.

(** Declining a gate cancels the session. *)
Definition cancelled (e : exn) : Prop := e = SystemExit 0 \/ e = KeyboardInterrupt.

Lemma dies_sys_exit_0 {A} : dies cancelled (@sys_exit A 0).
Proof.
  intros w. exists []. cbn. rewrite app_nil_r. split; [reflexivity |].
  exists (SystemExit 0). split; [reflexivity | now left].
Qed.

Lemma dies_print_sys_exit_0 {A} s : dies cancelled (console_print s ;; @sys_exit A 0).
Proof.
  intros w. unfold final, result, bind, console_print, syscall, perform.
  destruct (interrupt w) as [[| n] |]; cbn; eexists; (split; [reflexivity |]);
    eexists; (split; [reflexivity |]); unfold cancelled; auto.
Qed.

Lemma dies_bind {A B} S (m : M A) (f : A -> M B) : dies S m -> dies S (bind m f).
Proof.
  intros Hm w. destruct (Hm w) as (evs & He & e & Hr & HS).
  unfold final, result, bind in *. destruct (m w) as [r w1]. cbn in *. subst r.
  exists evs. split; [assumption |]. exists e. split; [reflexivity | assumption].
Qed.

Lemma triggers_gate {A} prompt default (f : bool -> M A) :
  triggers is_gate_decline cancelled (f true) ->
  dies cancelled (f false) ->
  triggers is_gate_decline cancelled (bind (Confirm_ask prompt default) f).
Proof.
  intros Ht Hf w. unfold final, result, bind, Confirm_ask, syscall, perform.
  destruct (interrupt w) as [[| n] |]; cbn.
  - exists [EInterrupt]. split; [reflexivity | discriminate].
  - destruct (read_confirm default (stdin (os w))) as [[[|] |] rest]; cbn.
    + match goal with |- context [f true ?w1] => destruct (Ht w1) as (evs & He & Hr) end.
      unfold final, result in *. exists (EConfirm prompt (Some true) :: evs).
      rewrite He. cbn [trace]. rewrite <- app_assoc. split; [reflexivity | exact Hr].
    + match goal with |- context [f false ?w1] => destruct (Hf w1) as (evs & He & Hr) end.
      unfold final, result in *. exists (EConfirm prompt (Some false) :: evs).
      rewrite He. cbn [trace]. rewrite <- app_assoc. split; [reflexivity | intros _; exact Hr].
    + exists [EConfirm prompt None]. split; [reflexivity | discriminate].
  - destruct (read_confirm default (stdin (os w))) as [[[|] |] rest]; cbn.
    + match goal with |- context [f true ?w1] => destruct (Ht w1) as (evs & He & Hr) end.
      unfold final, result in *. exists (EConfirm prompt (Some true) :: evs).
      rewrite He. cbn [trace]. rewrite <- app_assoc. split; [reflexivity | exact Hr].
    + match goal with |- context [f false ?w1] => destruct (Hf w1) as (evs & He & Hr) end.
      unfold final, result in *. exists (EConfirm prompt (Some false) :: evs).
      rewrite He. cbn [trace]. rewrite <- app_assoc. split; [reflexivity | intros _; exact Hr].
    + exists [EConfirm prompt None]. split; [reflexivity | discriminate].
Qed.

(** A property of the operating system state that the run keeps. *)
Definition keeps {A} (P : OS -> Prop) (m : M A) : Prop :=
  forall w, P (os w) -> P (os (final m w)).

Lemma keeps_ret {A} P (a : A) : keeps P (ret a).
Proof. intros w H. exact H. Qed.

Lemma keeps_raise {A} P e : keeps P (@raise A e).
Proof. intros w H. exact H. Qed.

Lemma keeps_out_of_fuel {A} P : keeps P (@out_of_fuel A).
Proof. intros w H. exact H. Qed.

Lemma keeps_read {A} P (f : OS -> A) : keeps P (read f).
Proof. intros w H. exact H. Qed.

Lemma keeps_bind {A B} P (m : M A) (f : A -> M B) :
  keeps P m -> (forall a, keeps P (f a)) -> keeps P (bind m f).
Proof.
  intros Hm Hf w H. specialize (Hm w H). unfold final, bind in *.
  destruct (m w) as [[a | e | |] w1]; cbn [snd] in *; try assumption.
  now apply Hf.
Qed.

Lemma keeps_getitem {V} P (d : gmap string V) k : keeps P (getitem d k).
Proof. intros w H. unfold final, getitem. destruct (d !! k); exact H. Qed.

(** [v] is what [d[k]] returned. *)
Definition entry_of {V} (d : gmap string V) (k : string) (v : V) : Prop :=
  d !! k = Some v.

(** Under [d[k]] the rest runs with an entry of [d]. *)
Lemma keeps_getitem_bind {V B} P (d : gmap string V) k (f : V -> M B) :
  (forall v, entry_of d k v -> keeps P (f v)) -> keeps P (bind (getitem d k) f).
Proof.
  intros Hf w H. unfold final, bind, getitem.
  destruct (d !! k) as [v |] eqn:Hv; cbn [snd]; [| assumption].
  now apply (Hf v Hv).
Qed.

Global Opaque entry_of.

Lemma keeps_syscall {A} P (op : OS -> event * Result A * OS) :
  (forall o, P o -> P (snd (op o))) -> keeps P (syscall op).
Proof.
  intros Hop w H. unfold final, syscall, perform. specialize (Hop (os w) H).
  destruct (interrupt w) as [[| n] |]; cbn [snd os]; try assumption;
    destruct (op (os w)) as [[e r] o]; assumption.
Qed.

Lemma keeps_with_cleanup {A} P (m : M A) e : keeps P m -> keeps P (with_cleanup m e).
Proof.
  intros Hm w H. specialize (Hm w H). unfold final, with_cleanup in *.
  destruct (m w) as [r w1]. destruct r; assumption.
Qed.

Lemma keeps_for_each {A} P (l : list A) (body : A -> M unit) :
  (forall x, keeps P (body x)) -> keeps P (for_each l body).
Proof.
  intros H. induction l as [| x l IH]; cbn.
  - apply keeps_ret.
  - apply keeps_bind; auto.
Qed.

Lemma keeps_try_except {A} P (m h1 : M A) (h2 : string -> M A) :
  keeps P m -> keeps P h1 -> (forall msg, keeps P (h2 msg)) ->
  keeps P (try_except m h1 h2).
Proof.
  intros Hm H1 H2 w H. specialize (Hm w H). unfold final, try_except in *.
  destruct (m w) as [[a | [c | | cls msg] | |] w1]; cbn [snd] in *; try assumption.
  - now apply H1.
  - now apply H2.
Qed.







(** Walking through a function of the script, primitive by primitive. *)
Ltac leaf :=
  cbn; intro; cbn; repeat (case_match; cbn); intros; repeat case_match;
  first [ assumption | discriminate | contradiction
        | eexists; split; [reflexivity |]; cbn; auto; fail
        | congruence ].

Ltac open_prims :=
  unfold with_progress, with_open_w, progress_start, progress_update,
    console_print, console_panel, console_table, console_clear,
    Prompt_ask, Prompt_ask_password, os_environ_get, os_environ_set,
    os_environ_copy, os_path_exists, os_listdir, os_makedirs, os_chdir, open_w,
    subprocess_Popen, process_poll, process_returncode, process_kill,
    time_sleep, subprocess_run, traceback_print_exc.

Ltac walk_step :=
  lazymatch goal with
  | |- triggers _ _ (bind (Confirm_ask _ _) _) =>
      first [ apply triggers_bind; [unfold Confirm_ask; apply triggers_syscall; leaf |]
            | apply triggers_gate;
              [| cbn [negb];
                 first [ apply dies_sys_exit_0 | apply dies_print_sys_exit_0
                       | apply dies_bind; apply dies_print_sys_exit_0 ] ] ]
  | |- triggers _ _ (Confirm_ask _ _) => unfold Confirm_ask
  | |- triggers _ _ (bind _ _) => apply triggers_bind
  | |- triggers _ _ (ret _) => apply triggers_ret
  | |- triggers _ _ (sys_exit _) => apply triggers_sys_exit
  | |- triggers _ _ (raise _) => apply triggers_raise
  | |- triggers _ _ out_of_fuel => apply triggers_out_of_fuel
  | |- triggers _ _ (read _) => apply triggers_read
  | |- triggers _ _ (getitem _ _) => apply triggers_getitem
  | |- triggers _ _ (syscall _) => apply triggers_syscall; leaf
  | |- triggers _ _ (with_cleanup _ _) => apply triggers_with_cleanup; [reflexivity |]
  | |- triggers _ _ (for_each _ _) => apply triggers_for_each
  | |- triggers _ _ (match ?x with _ => _ end) => destruct x
  | |- calm (Confirm_ask _ _) => unfold Confirm_ask
  | |- calm (bind _ _) => apply calm_bind
  | |- calm (ret _) => apply calm_ret
  | |- calm (sys_exit _) => apply calm_sys_exit
  | |- calm (raise _) => apply calm_raise; discriminate
  | |- calm out_of_fuel => apply calm_out_of_fuel
  | |- calm (read _) => apply calm_read
  | |- calm (getitem _ _) => apply calm_getitem
  | |- calm (syscall _) => apply calm_syscall; leaf
  | |- calm (with_cleanup _ _) => apply calm_with_cleanup
  | |- calm (for_each _ _) => apply calm_for_each
  | |- calm (match ?x with _ => _ end) => destruct x
  | |- fueled (Confirm_ask _ _) => unfold Confirm_ask
  | |- fueled (bind _ _) => apply fueled_bind
  | |- fueled (ret _) => apply fueled_ret
  | |- fueled (sys_exit _) => apply fueled_raise
  | |- fueled (raise _) => apply fueled_raise
  | |- fueled (read _) => apply fueled_read
  | |- fueled (getitem _ _) => apply fueled_getitem
  | |- fueled (syscall _) => apply fueled_syscall; leaf
  | |- fueled (with_cleanup _ _) => apply fueled_with_cleanup
  | |- fueled (for_each _ _) => apply fueled_for_each
  | |- fueled (match ?x with _ => _ end) => destruct x eqn:?
  | |- unblocked (Confirm_ask _ _) => unfold Confirm_ask
  | |- unblocked (bind _ _) => apply unblocked_bind
  | |- unblocked (ret _) => apply unblocked_ret
  | |- unblocked (sys_exit _) => apply unblocked_raise
  | |- unblocked (raise _) => apply unblocked_raise
  | |- unblocked out_of_fuel => apply unblocked_out_of_fuel
  | |- unblocked (read _) => apply unblocked_read
  | |- unblocked (getitem _ _) => apply unblocked_getitem
  | |- unblocked (syscall _) => apply unblocked_syscall; leaf
  | |- unblocked (with_cleanup _ _) => apply unblocked_with_cleanup
  | |- unblocked (for_each _ _) => apply unblocked_for_each
  | |- unblocked (match ?x with _ => _ end) => destruct x eqn:?
  | |- keeps _ (Confirm_ask _ _) => unfold Confirm_ask
  | |- keeps _ (bind (getitem _ _) _) => apply keeps_getitem_bind; intros ? ?
  | |- keeps _ (getitem _ _) => apply keeps_getitem
  | |- keeps _ (bind _ _) => apply keeps_bind
  | |- keeps _ (ret _) => apply keeps_ret
  | |- keeps _ (sys_exit _) => apply keeps_raise
  | |- keeps _ (raise _) => apply keeps_raise
  | |- keeps _ out_of_fuel => apply keeps_out_of_fuel
  | |- keeps _ (read _) => apply keeps_read
  | |- keeps _ (syscall _) => apply keeps_syscall; leaf
  | |- keeps _ (with_cleanup _ _) => apply keeps_with_cleanup
  | |- keeps _ (for_each _ _) => apply keeps_for_each
  | |- keeps _ (match ?x with _ => _ end) => destruct x
  end.

Ltac walk := open_prims; repeat (cbn beta iota zeta; intros; walk_step).






Lemma poll_loop_gate fuel : forall elapsed,
  triggers is_gate_decline cancelled (poll_loop fuel elapsed).
Proof.
  induction fuel as [| fuel IH]; intros elapsed; cbn [poll_loop]; walk.
  apply IH.
Qed.

Ltac open_script :=
  unfold main_body, show_welcome, show_menu, get_api_token, get_caption_mode,
    validate_dataset, download_model, download_model_fuel, launch_training.



Lemma main_body_gate nv : triggers is_gate_decline cancelled (main_body nv).
Proof. open_script; walk; apply poll_loop_gate. Qed.

(** *** Runs in a quiet world *)

Lemma Confirm_ask_quiet prompt default o tr a rest :
  read_confirm default (stdin o) = (Some a, rest) ->
  Confirm_ask prompt default (quiet o tr) =
  (Ok a, quiet (set_stdin rest o) (tr ++ [EConfirm prompt (Some a)])).
Proof. intros H. unfold Confirm_ask, syscall, perform, quiet. cbn. now rewrite H. Qed.

Lemma Prompt_ask_quiet prompt choices default o tr a rest :
  read_choice choices default (stdin o) = (Some a, rest) ->
  Prompt_ask prompt choices default (quiet o tr) =
  (Ok a, quiet (set_stdin rest o) (tr ++ [EPrompt prompt (Some a)])).
Proof. intros H. unfold Prompt_ask, syscall, perform, quiet. cbn. now rewrite H. Qed.

Lemma Prompt_ask_password_quiet prompt o tr l rest :
  stdin o = l :: rest ->
  Prompt_ask_password prompt (quiet o tr) =
  (Ok (strip l),
   quiet (set_stdin rest o) (tr ++ [EPrompt prompt (Some (strip l))])).
Proof. intros H. unfold Prompt_ask_password, syscall, perform, quiet. cbn. now rewrite H. Qed.

Definition after_makedirs (p : string) (o : OS) : OS :=
  set_fs (fun q => if mem q (ancestors p) then Some Dir else fs o q) o.

Lemma os_makedirs_quiet p o tr :
  makedirs_ok (fs o) p = true ->
  os_makedirs p (quiet o tr) =
  (Ok tt, quiet (after_makedirs p o) (tr ++ [EMakedirs p true])).
Proof. intros H. unfold os_makedirs, syscall, perform, quiet. cbn. now rewrite H. Qed.


Lemma os_chdir_quiet p o tr :
  fs o p = Some Dir ->
  os_chdir p (quiet o tr) = (Ok tt, quiet (enter p o) (tr ++ [EChdir p true])).
Proof. intros H. unfold os_chdir, syscall, perform, quiet. cbn. now rewrite H. Qed.

Definition after_open (p : string) (o : OS) : OS :=
  set_fs (fun q => if (q =? p)%string then Some File else fs o q) o.

Lemma open_w_quiet p o tr :
  fs o (os_path_dirname p) = Some Dir -> is_dir (fs o p) = false ->
  open_w p (quiet o tr) = (Ok tt, quiet (after_open p o) (tr ++ [EOpen p true])).
Proof.
  intros H1 H2. unfold open_w, syscall, perform, quiet. cbn. rewrite H1.
  destruct (fs o p) as [[|] |]; try reflexivity. discriminate.
Qed.


Definition spawned (o : OS) : OS :=
  set_proc (Some {| spawned_at := now o; returncode := None; killed := false |}) o.

Lemma subprocess_Popen_quiet prog args o tr :
  installed o prog = true ->
  subprocess_Popen (prog :: args) (quiet o tr) =
  (Ok tt, quiet (spawned o) (tr ++ [EPopen (prog :: args) true])).
Proof. intros H. unfold subprocess_Popen, syscall, perform, quiet. cbn. now rewrite H. Qed.

Lemma subprocess_run_quiet prog args env o tr rc :
  installed o prog = true ->
  run_exit o (prog :: args) = Some rc ->
  subprocess_run (prog :: args) env (quiet o tr) =
  (Ok rc, quiet o (tr ++ [ERun (prog :: args) env (Some rc)])).
Proof.
  intros H Hrc. unfold subprocess_run, syscall, perform, quiet. cbn.
  now rewrite H, Hrc.
Qed.

Lemma subprocess_run_hangs prog args env o tr :
  installed o prog = true ->
  run_exit o (prog :: args) = None ->
  subprocess_run (prog :: args) env (quiet o tr) =
  (Hangs, quiet o (tr ++ [ERun (prog :: args) env None])).
Proof.
  intros H Hrc. unfold subprocess_run, syscall, perform, quiet. cbn.
  now rewrite H, Hrc.
Qed.

(** *** The polling loop *)

(** The fetch has not exited by time [t]. *)
Definition running_until (o : OS) (p : Proc) (t : Z) : Prop :=
  match fetch_exit o with
  | Some (d, _) => t < spawned_at p + d
  | None => True
  end.

Definition timed_out : list event :=
  [EPrint "[red]Download timed out after 3 hours![/red]"; EKill].

(** A fetch that is still running [3 * n] seconds from now, when [n] more
    rounds leave [elapsed] under the ceiling and the next one reaches it, is
    killed in round [n + 1]. *)
Lemma poll_loop_timeout n : forall fuel elapsed o tr p,
  proc o = Some p -> returncode p = None ->
  running_until o p (now o + 3 * Z.of_nat n) ->
  elapsed + 3 * Z.of_nat n < timeout <= elapsed + 3 * Z.of_nat (S n) ->
  (n < fuel)%nat ->
  exists o',
    poll_loop fuel elapsed (quiet o tr) =
    (Ok (Some false), quiet o' (tr ++ rounds (S n) ++ timed_out)) /\
    fs o' = fs o /\
    (exists p', proc o' = Some p' /\ killed p' = true).
Proof.
  induction n as [| n IH]; intros fuel elapsed o tr p Hp Hrc Hrun Hel Hfuel;
    (destruct fuel as [| fuel]; [lia |]).
  - cbn [poll_loop]. unfold bind, process_poll, time_sleep, progress_update,
      console_print, process_kill, syscall, perform, quiet. cbn.
    rewrite Hp. cbn. unfold exit_status_at. rewrite Hrc.
    unfold running_until in Hrun.
    assert (Hst : match fetch_exit o with
                  | Some (d, rc) => if spawned_at p + d <=? now o then Some rc else None
                  | None => None
                  end = None).
    { destruct (fetch_exit o) as [[d rc] |]; [| reflexivity].
      destruct (Z.leb_spec (spawned_at p + d) (now o)); [lia | reflexivity]. }
    rewrite Hst. cbn.
    destruct (Z.geb_spec (elapsed + 3) timeout) as [_ | Hlt]; [| lia].
    cbn. eexists. split.
    { unfold rounds, round, timed_out. rewrite <- !app_assoc. reflexivity. }
    split; [reflexivity | eexists; split; reflexivity].
  - cbn [poll_loop]. unfold bind, process_poll, time_sleep, progress_update,
      syscall, perform, quiet. cbn.
    rewrite Hp. cbn. unfold exit_status_at. rewrite Hrc.
    unfold running_until in Hrun.
    assert (Hst : match fetch_exit o with
                  | Some (d, rc) => if spawned_at p + d <=? now o then Some rc else None
                  | None => None
                  end = None).
    { destruct (fetch_exit o) as [[d rc] |]; [| reflexivity].
      destruct (Z.leb_spec (spawned_at p + d) (now o)); [lia | reflexivity]. }
    rewrite Hst. cbn.
    destruct (Z.geb_spec (elapsed + 3) timeout) as [Hge | _]; [lia |].
    match goal with
    | |- context [poll_loop fuel (elapsed + 3) {| os := ?o1; interrupt := None; trace := ?t1 |}] =>
        destruct (IH fuel (elapsed + 3) o1 t1
                    {| spawned_at := spawned_at p; returncode := None; killed := killed p |})
          as (o' & Hrun' & Hfs & Hk)
    end.
    + reflexivity.
    + reflexivity.
    + unfold running_until. cbn. destruct (fetch_exit o) as [[d rc] |]; [lia | exact I].
    + lia.
    + lia.
    + unfold quiet in Hrun'. rewrite Hrun'. exists o'. split; [| split; assumption].
      unfold quiet. do 2 f_equal.
      change (rounds (S (S n))) with (round ++ rounds (S n)).
      unfold round. rewrite <- !app_assoc. reflexivity.
Qed.

(** A fetch that exits within [3 * k] seconds from now, when [k] more rounds
    leave [elapsed] under the ceiling, is seen by [poll] after at most [k]
    rounds. *)
Lemma poll_loop_exit k : forall fuel elapsed o tr p d rc,
  proc o = Some p -> returncode p = None -> fetch_exit o = Some (d, rc) ->
  spawned_at p + d <= now o + 3 * Z.of_nat k ->
  elapsed + 3 * Z.of_nat k < timeout ->
  (k < fuel)%nat ->
  exists j o',
    (j <= k)%nat /\
    poll_loop fuel elapsed (quiet o tr) =
    (Ok None, quiet o' (tr ++ rounds j ++ [EPoll (Some rc)])) /\
    fs o' = fs o /\
    (exists p', proc o' = Some p' /\ returncode p' = Some rc).
Proof.
  induction k as [| k IH]; intros fuel elapsed o tr p d rc Hp Hrc Hfe Hd Hel Hfuel;
    (destruct fuel as [| fuel]; [lia |]);
    cbn [poll_loop]; unfold bind, process_poll, time_sleep, progress_update,
      syscall, perform, quiet; cbn;
    rewrite Hp; cbn; unfold exit_status_at; rewrite Hrc, Hfe;
    destruct (Z.leb_spec (spawned_at p + d) (now o)) as [Hle | Hgt]; cbn.
  - exists 0%nat. eexists. split; [lia |]. split; [reflexivity |].
    split; [reflexivity | eexists; split; reflexivity].
  - lia.
  - exists 0%nat. eexists. split; [lia |]. split; [reflexivity |].
    split; [reflexivity | eexists; split; reflexivity].
  - destruct (Z.geb_spec (elapsed + 3) timeout) as [Hge | _]; [lia |].
    match goal with
    | |- context [poll_loop fuel (elapsed + 3) {| os := ?o1; interrupt := None; trace := ?t1 |}] =>
        destruct (IH fuel (elapsed + 3) o1 t1
                    {| spawned_at := spawned_at p; returncode := None; killed := killed p |}
                    d rc)
          as (j & o' & Hj & Hrun' & Hfs & Hk)
    end; try reflexivity; try assumption; cbn; try lia.
    unfold quiet in Hrun'. rewrite Hrun'. exists (S j), o'. split; [lia |].
    split; [| split; assumption].
    unfold quiet. do 2 f_equal.
    change (rounds (S j)) with (round ++ rounds j).
    unfold round. rewrite <- !app_assoc. reflexivity.
Qed.

(** The loop never runs out of fuel: every round that does not return adds
    3 to [elapsed]. *)
Lemma poll_loop_fueled fuel : forall elapsed,
  timeout - elapsed <= 3 * Z.of_nat fuel -> elapsed < timeout ->
  fueled (poll_loop fuel elapsed).
Proof.
  induction fuel as [| fuel IH]; intros elapsed Hfuel Hel; [lia |].
  cbn [poll_loop]. walk.
  match goal with H : (_ >=? _) = false |- _ => rewrite Z.geb_leb in H; apply Z.leb_gt in H end.
  apply IH; lia.
Qed.


(** *** Paths *)


Lemma append_cons c (a b : string) : String c a +:+ b = String c (a +:+ b).
Proof. reflexivity. Qed.

Lemma length_append (a b : string) :
  String.length (a +:+ b) = (String.length a + String.length b)%nat.
Proof.
  induction a as [| c a IH]; [reflexivity |].
  rewrite append_cons. cbn [String.length Nat.add]. now rewrite IH.
Qed.

Lemma slash_prefixes_append a b q :
  In q (slash_prefixes (a +:+ b)) ->
  (String.length q < String.length a)%nat \/
  exists q', q = a +:+ q' /\ In q' (slash_prefixes b).
Proof.
  revert q. induction a as [| c a IH]; intros q Hq.
  - right. exists q. auto.
  - rewrite append_cons in Hq. cbn in *.
    assert (Hmap : In q (map (String c) (slash_prefixes (a +:+ b))) ->
                   (String.length q < S (String.length a))%nat \/
                   exists q', q = String c (a +:+ q') /\ In q' (slash_prefixes b)).
    { intros H. apply in_map_iff in H as (q0 & <- & H0).
      destruct (IH q0 H0) as [Hlt | (q' & -> & Hq')].
      - left. cbn. lia.
      - right. exists q'. auto. }
    destruct (Ascii.eqb c "/"); [destruct Hq as [<- | Hq] |]; auto.
    left. cbn. lia.
Qed.

Lemma mem_false x l : ~ In x l -> mem x l = false.
Proof.
  intros H. unfold mem. apply not_true_is_false. intros Hex.
  apply existsb_exists in Hex as (y & Hy & Heq). apply String.eqb_eq in Heq.
  now subst.
Qed.

Lemma mem_true x l : mem x l = true -> In x l.
Proof.
  unfold mem. intros Hex. apply existsb_exists in Hex as (y & Hy & Heq).
  apply String.eqb_eq in Heq. now subst.
Qed.

(** Below a common root, two branches do not create each other. *)
Lemma not_ancestor a x s :
  x <> s -> ~ In x (slash_prefixes s) ->
  mem (a +:+ x) (ancestors (a +:+ s)) = false.
Proof.
  intros Hne Hnot. apply mem_false. unfold ancestors. intros Hin.
  apply in_app_or in Hin as [Hin | [Heq | []]].
  - apply filter_In in Hin as [Hin _].
    apply slash_prefixes_append in Hin as [Hlt | (q' & Heq & Hq')].
    + rewrite length_append in Hlt. lia.
    + apply String.app_inj in Heq. now subst.
  - symmetry in Heq. apply String.app_inj in Heq. now subst.
Qed.

Lemma ancestors_length q p :
  In q (ancestors p) -> (String.length q <= String.length p)%nat.
Proof.
  unfold ancestors. intros Hin. apply in_app_or in Hin as [Hin | [<- | []]]; [| lia].
  apply filter_In in Hin as [Hin _]. clear -Hin. revert q Hin.
  induction p as [| c p IH]; intros q Hin; cbn in *; [contradiction |].
  assert (Hmap : In q (map (String c) (slash_prefixes p)) ->
                 (String.length q <= S (String.length p))%nat).
  { intros H. apply in_map_iff in H as (q0 & <- & H0). cbn.
    specialize (IH q0 H0). lia. }
  destruct (Ascii.eqb c "/"); [destruct Hin as [<- | Hin] |]; auto.
  cbn. lia.
Qed.

Lemma upto_last_slash_append a b h :
  upto_last_slash b = Some h -> upto_last_slash (a +:+ b) = Some (a +:+ h).
Proof.
  intros H. induction a as [| c a IH]; [assumption |].
  rewrite !append_cons. cbn. now rewrite IH.
Qed.

Lemma rstrip_slash_append a b c r :
  rstrip_slash b = String c r -> rstrip_slash (a +:+ b) = a +:+ String c r.
Proof.
  intros H. induction a as [| c' a IH]; [assumption |].
  rewrite !append_cons. cbn. rewrite IH. destruct a; reflexivity.
Qed.

Lemma os_path_dirname_log_file nv :
  os_path_dirname (log_file nv) = nv +:+ "/logs".
Proof.
  unfold os_path_dirname, log_file.
  rewrite (upto_last_slash_append nv "/logs/model_download.log" "/logs/") by reflexivity.
  rewrite (rstrip_slash_append nv "/logs/" "/" "logs") by reflexivity.
  destruct nv; reflexivity.
Qed.

Lemma os_path_join_longer a b :
  startswith b "/" = false -> b <> "" ->
  (String.length a < String.length (os_path_join a b))%nat.
Proof.
  intros Hrel Hb. unfold os_path_join. rewrite Hrel.
  destruct b as [| c b]; [contradiction |].
  destruct ((a =? "")%string || endswith a "/"); rewrite !length_append; cbn; lia.
Qed.

(** Creating directories removes nothing, and changes nothing that is
    longer than the leaf. *)
Lemma after_makedirs_keeps p o q :
  is_some (fs o q) = true -> is_some (fs (after_makedirs p o) q) = true.
Proof. intros H. cbn. destruct (mem q (ancestors p)); [reflexivity | assumption]. Qed.

Lemma after_makedirs_other p o q :
  mem q (ancestors p) = false -> fs (after_makedirs p o) q = fs o q.
Proof. intros H. cbn. now rewrite H. Qed.

Lemma after_makedirs_longer p o q :
  (String.length p < String.length q)%nat -> fs (after_makedirs p o) q = fs o q.
Proof.
  intros H. apply after_makedirs_other. apply mem_false. intros Hin.
  apply ancestors_length in Hin. lia.
Qed.


(** *** The registry *)

Lemma MODELS_inv nv key model :
  MODELS nv !! key = Some model -> In (key, model) (MODELS_items nv).
Proof.
  intros H. apply list_elem_of_In. unfold MODELS in H.
  now apply elem_of_list_to_map_2 in H.
Qed.

(** What every entry of the registry satisfies. *)
Record registered (nv : string) (model : Model) : Prop := {
  reg_file_relative : forall file,
    truthy (model_file model) = Some file ->
    startswith file "/" = false /\ file <> "";
  reg_logs_apart : mem (nv +:+ "/logs") (ancestors (local_dir model)) = false;
  reg_log_file_apart : mem (log_file nv) (ancestors (local_dir model)) = false
}.

Lemma MODELS_registered nv key model :
  MODELS nv !! key = Some model -> registered nv model.
Proof.
  intros H. apply MODELS_inv in H. cbn in H.
  repeat (destruct H as [H | H]; [injection H as <- <- |]); try contradiction;
    (split;
     [ cbn; intros file Hf;
       first [ discriminate
             | injection Hf as <-; split; [reflexivity | discriminate] ]
     | cbn [local_dir]; apply not_ancestor; [discriminate | cbn; intuition discriminate]
     | cbn [local_dir]; unfold log_file; apply not_ancestor;
       [discriminate | cbn; intuition discriminate] ]).
Qed.

(** *** [download_model], part by part *)

(** The block under [# Check if already downloaded]: whether the function
    returns [True] there. *)
Definition skip_check (model : Model) : M bool :=
  match truthy (model_file model) with
  | Some file =>
      let model_path := os_path_join (local_dir model) file in
      found <- os_path_exists model_path ;;
      if found then
        console_print ("[yellow]Model already exists at: " +:+ model_path +:+ "[/yellow]") ;;
        skip <- Confirm_ask "Skip download?" true ;;
        if skip then
          console_print "[green]✓ Using existing model[/green]" ;;
          ret true
        else ret false
      else ret false
  | None => ret false
  end.

(** What follows the polling loop. *)
Definition after_loop (nv : string) (returned : option bool) : M bool :=
  match returned with
  | Some b => ret b
  | None =>
      rc <- process_returncode ;;
      match rc with
      | Some 0 =>
          console_print "[green]✓ Download complete![/green]" ;;
          ret true
      | _ =>
          console_print ("[red]Download failed with exit code "
                         +:+ str_of_returncode rc +:+ "[/red]") ;;
          console_print ("[yellow]Check log: " +:+ log_file nv +:+ "[/yellow]") ;;
          ret false
      end
  end.

(** From [# Build download command] on. *)
Definition fetch (nv : string) (fuel : nat) (model : Model)
    (token : option string) : M bool :=
  console_print "[cyan]Starting download in background...[/cyan]" ;;
  console_print ("[dim]To monitor: tail -f " +:+ log_file nv +:+ "[/dim]") ;;
  console_print "" ;;
  with_open_w (log_file nv) (subprocess_Popen (download_command model token)) ;;
  returned <- with_progress (poll_loop fuel 0) ;;
  after_loop nv returned.

Definition download_banner (model : Model) : list event :=
  [EPrint "";
   EPanel ("[bold cyan]Downloading " +:+ name model +:+ "[/bold cyan]" +:+ nl +:+
           "[dim]From: " +:+ hf_repo model +:+ "[/dim]" +:+ nl +:+
           "[dim]To: " +:+ local_dir model +:+ "[/dim]");
   EPrint "";
   EMakedirs (local_dir model) true].

Lemma download_model_fuel_eq nv fuel key token :
  download_model_fuel nv fuel key token =
  (model <- getitem (MODELS nv) key ;;
   console_print "" ;;
   console_panel
     ("[bold cyan]Downloading " +:+ name model +:+ "[/bold cyan]" +:+ nl +:+
      "[dim]From: " +:+ hf_repo model +:+ "[/dim]" +:+ nl +:+
      "[dim]To: " +:+ local_dir model +:+ "[/dim]") ;;
   console_print "" ;;
   os_makedirs (local_dir model) ;;
   skipped <- skip_check model ;;
   if skipped then ret true else fetch nv fuel model token).
Proof. reflexivity. Qed.

Lemma download_prelude nv fuel key model token o tr :
  MODELS nv !! key = Some model ->
  makedirs_ok (fs o) (local_dir model) = true ->
  download_model_fuel nv fuel key token (quiet o tr) =
  (skipped <- skip_check model ;;
   if skipped then ret true else fetch nv fuel model token)
    (quiet (after_makedirs (local_dir model) o) (tr ++ download_banner model)).
Proof.
  intros Hm Hmk. rewrite download_model_fuel_eq.
  rewrite (bind_ok _ _ _ _ _ (getitem_ok _ _ _ _ Hm)).
  unfold bind at 1, console_print at 1. cbn [syscall perform quiet interrupt os trace].
  unfold bind at 1, console_panel at 1. cbn [syscall perform quiet interrupt os trace].
  unfold bind at 1, console_print at 1. cbn [syscall perform quiet interrupt os trace].
  erewrite bind_ok by (apply os_makedirs_quiet; exact Hmk).
  unfold quiet, download_banner. rewrite <- !app_assoc. reflexivity.
Qed.

(** The download goes ahead: nothing to skip, or the user declines. *)
Definition proceeds (model : Model) (o : OS) : Prop :=
  match truthy (model_file model) with
  | None => True
  | Some file =>
      is_some (fs o (os_path_join (local_dir model) file)) = false \/
      exists rest, read_confirm true (stdin o) = (Some false, rest)
  end.

Lemma skip_check_proceeds nv model o tr :
  registered nv model -> proceeds model o ->
  exists evs rest,
    skip_check model (quiet (after_makedirs (local_dir model) o) tr) =
    (Ok false, quiet (set_stdin rest (after_makedirs (local_dir model) o)) (tr ++ evs)) /\
    existsb is_popen evs = false.
Proof.
  intros Hreg Hgo. unfold proceeds, skip_check in *.
  destruct (truthy (model_file model)) as [file |] eqn:Hfile.
  - destruct (reg_file_relative _ _ Hreg file Hfile) as [Hrel Hne].
    pose proof (os_path_join_longer (local_dir model) file Hrel Hne) as Hlen.
    unfold bind at 1, os_path_exists at 1. cbn [syscall perform quiet interrupt os trace].
    rewrite (after_makedirs_longer _ o _ Hlen).
    destruct (is_some (fs o (os_path_join (local_dir model) file))) eqn:Hex.
    + destruct Hgo as [Hgo | (rest & Hrest)]; [discriminate |].
      unfold bind at 1, console_print at 1. cbn [syscall perform quiet interrupt os trace].
      erewrite bind_ok by (apply (Confirm_ask_quiet _ _ (after_makedirs _ o)); exact Hrest).
      cbn [ret]. eexists _, rest. split.
      * unfold quiet. rewrite <- !app_assoc. reflexivity.
      * reflexivity.
    + cbn [ret]. eexists _, (stdin o). split; [reflexivity | reflexivity].
  - exists [], (stdin o). cbn [ret]. rewrite app_nil_r. split; reflexivity.
Qed.

Definition fetch_banner (nv : string) : list event :=
  [EPrint "[cyan]Starting download in background...[/cyan]";
   EPrint ("[dim]To monitor: tail -f " +:+ log_file nv +:+ "[/dim]");
   EPrint ""].

Lemma download_command_head model token :
  exists args, download_command model token = "huggingface-cli" :: args.
Proof.
  unfold download_command.
  destruct (hf_files model) as [[| f fs] |], (truthy token); eexists; reflexivity.
Qed.

(** The events of a spawn that succeeds. *)
Definition spawn_events (nv : string) (model : Model) (token : option string)
    : list event :=
  [EOpen (log_file nv) true; EPopen (download_command model token) true;
   EClose (log_file nv)].

Lemma fetch_to_loop nv fuel model token o tr :
  fs o (nv +:+ "/logs") = Some Dir ->
  is_dir (fs o (log_file nv)) = false ->
  installed o "huggingface-cli" = true ->
  fetch nv fuel model token (quiet o tr) =
  (returned <- with_progress (poll_loop fuel 0) ;; after_loop nv returned)
    (quiet (spawned (after_open (log_file nv) o))
           (tr ++ fetch_banner nv ++ spawn_events nv model token)).
Proof.
  intros Hlogs Hlog Hcli. unfold fetch.
  unfold bind at 1, console_print at 1. cbn [syscall perform quiet interrupt os trace].
  unfold bind at 1, console_print at 1. cbn [syscall perform quiet interrupt os trace].
  unfold bind at 1, console_print at 1. cbn [syscall perform quiet interrupt os trace].
  unfold with_open_w.
  destruct (download_command_head model token) as (args & Hcmd).
  pose proof (open_w_quiet (log_file nv) o) as Hopen.
  rewrite os_path_dirname_log_file in Hopen.
  unfold bind at 1. unfold bind at 1.
  unfold quiet in Hopen. rewrite (Hopen _ Hlogs Hlog).
  unfold with_cleanup.
  pose proof (subprocess_Popen_quiet "huggingface-cli" args (after_open (log_file nv) o)) as Hpopen.
  unfold quiet in Hpopen. rewrite Hcmd, Hpopen by exact Hcli.
  cbn [os interrupt trace]. unfold quiet, fetch_banner, spawn_events.
  rewrite Hcmd, <- !app_assoc. reflexivity.
Qed.


Lemma with_progress_quiet {A} (m : M A) o tr (a : A) o' tr' :
  m (quiet o (tr ++ [EProgressStart])) = (Ok a, quiet o' tr') ->
  with_progress m (quiet o tr) = (Ok a, quiet o' (tr' ++ [EProgressStop])).
Proof.
  intros H. unfold with_progress, bind, progress_start, with_cleanup.
  cbn [syscall perform quiet interrupt os trace]. unfold quiet in H. rewrite H.
  reflexivity.
Qed.

(** A download that goes ahead in a quiet world, with the logs directory in
    place and the hub client installed, reaches the polling loop with the
    fetch just spawned. *)
Lemma download_to_loop nv fuel key model token o tr :
  MODELS nv !! key = Some model ->
  makedirs_ok (fs o) (local_dir model) = true ->
  proceeds model o ->
  fs o (nv +:+ "/logs") = Some Dir ->
  is_dir (fs o (log_file nv)) = false ->
  installed o "huggingface-cli" = true ->
  exists pre o1,
    existsb is_popen pre = false /\
    fetch_exit o1 = fetch_exit o /\
    download_model_fuel nv fuel key token (quiet o tr) =
    (returned <- with_progress (poll_loop fuel 0) ;; after_loop nv returned)
      (quiet (spawned o1) (tr ++ pre ++ spawn_events nv model token)).
Proof.
  intros Hm Hmk Hgo Hlogs Hlog Hcli.
  pose proof (MODELS_registered _ _ _ Hm) as Hreg.
  rewrite (download_prelude _ _ _ _ _ _ _ Hm Hmk).
  destruct (skip_check_proceeds nv model o (tr ++ download_banner model) Hreg Hgo)
    as (evs & rest & Hsk & Hnp).
  rewrite (bind_ok _ _ _ _ _ Hsk). cbn match.
  rewrite fetch_to_loop.
  - exists (download_banner model ++ evs ++ fetch_banner nv). eexists.
    split; [| split; [| rewrite <- !app_assoc; reflexivity]].
    + rewrite !existsb_app, Hnp. reflexivity.
    + reflexivity.
  - cbn [fs set_stdin after_makedirs set_fs]. rewrite (reg_logs_apart _ _ Hreg). exact Hlogs.
  - cbn [fs set_stdin after_makedirs set_fs]. rewrite (reg_log_file_apart _ _ Hreg). exact Hlog.
  - exact Hcli.
Qed.

Lemma run_quiet {A} (m : M A) o tr r o' evs :
  m (quiet o tr) = (r, quiet o' (tr ++ evs)) ->
  result m (quiet o tr) = r /\
  events m (quiet o tr) = evs /\
  final m (quiet o tr) = quiet o' (tr ++ evs).
Proof.
  intros H. destruct (events_of m _ _ _ evs H eq_refl) as (Hr & Hf & He). auto.
Qed.

(** ** The download supervisor *)

(** In every world [download_model] comes to an end: the fuel of its loop
    is never used up. *)
Lemma download_model_fueled nv key token : fueled (download_model nv key token).
Proof.
  unfold download_model, download_model_fuel. walk.
  apply poll_loop_fueled; unfold timeout; lia.
Qed.

(** C1.  A download that goes ahead and whose fetch process never exits: the
    loop runs 3600 rounds of 3 seconds, which is the ceiling of 10800 seconds;
    then [download_model] prints the timeout, kills the process and returns
    [False].  One process is spawned in all: nothing is retried.  In every
    world, this one or not, the run of [download_model] ends. *)
Theorem download_model_timeout nv key model token w :
  MODELS nv !! key = Some model ->
  interrupt w = None ->
  makedirs_ok (fs (os w)) (local_dir model) = true ->
  proceeds model (os w) ->
  fs (os w) (nv +:+ "/logs") = Some Dir ->
  is_dir (fs (os w) (log_file nv)) = false ->
  installed (os w) "huggingface-cli" = true ->
  fetch_exit (os w) = None ->
  result (download_model nv key token) w = Ok false /\
  (exists pre,
     existsb is_popen pre = false /\
     events (download_model nv key token) w =
     pre ++ spawn_events nv model token ++ [EProgressStart] ++
     rounds 3600 ++ timed_out ++ [EProgressStop]) /\
  (exists p, proc (os (final (download_model nv key token) w)) = Some p /\
             killed p = true) /\
  3 * Z.of_nat 3600 = timeout /\
  (forall w', result (download_model nv key token) w' <> OutOfFuel).
Proof.
  intros Hm Hi Hmk Hgo Hlogs Hlog Hcli Hnever.
  destruct w as [o i tr]. cbn [os interrupt] in *. subst i.
  destruct (download_to_loop nv (Z.to_nat timeout) key model token o tr
              Hm Hmk Hgo Hlogs Hlog Hcli) as (pre & o1 & Hnp & Hfe & Hrun).
  destruct (poll_loop_timeout 3599 (Z.to_nat timeout) 0 (spawned o1)
              ((tr ++ pre ++ spawn_events nv model token) ++ [EProgressStart])
              {| spawned_at := now o1; returncode := None; killed := false |})
    as (o' & Hloop & _ & p & Hp & Hk).
  { reflexivity. }
  { reflexivity. }
  { unfold running_until. cbn [fetch_exit spawned set_proc]. rewrite Hfe, Hnever. exact I. }
  { unfold timeout. lia. }
  { unfold timeout. lia. }
  apply with_progress_quiet in Hloop.
  assert (Hall : download_model nv key token (quiet o tr) =
                 (Ok false,
                  quiet o' (tr ++ pre ++ spawn_events nv model token ++
                            [EProgressStart] ++ rounds 3600 ++ timed_out ++
                            [EProgressStop]))).
  { unfold download_model. rewrite Hrun, (bind_ok _ _ _ _ _ Hloop).
    cbn [after_loop ret]. unfold quiet. rewrite <- !app_assoc. reflexivity. }
  apply run_quiet in Hall as (Hr & He & Hf). unfold quiet in *.
  split; [exact Hr |]. split; [exists pre; split; [exact Hnp | exact He] |].
  split; [| split; [reflexivity | apply download_model_fueled]].
  rewrite Hf. cbn [os]. exists p. split; assumption.
Qed.

(** What [download_model] reports once [poll] has found the exit code. *)
Definition exit_report (nv : string) (rc : Z) : list event :=
  if rc =? 0 then [EPrint "[green]✓ Download complete![/green]"]
  else [EPrint ("[red]Download failed with exit code " +:+ str_of_Z rc +:+ "[/red]");
        EPrint ("[yellow]Check log: " +:+ log_file nv +:+ "[/yellow]")].

Lemma after_loop_exit nv o tr p rc :
  proc o = Some p -> returncode p = Some rc ->
  after_loop nv None (quiet o tr) =
  (Ok (rc =? 0), quiet o (tr ++ exit_report nv rc)).
Proof.
  intros Hp Hrc. unfold after_loop, bind, process_returncode, read, exit_report.
  cbn [quiet os]. rewrite Hp, Hrc.
  destruct rc; cbn [Z.eqb str_of_returncode]; unfold bind, console_print;
    cbn [syscall perform quiet interrupt os trace ret];
    unfold quiet; rewrite <- ?app_assoc; reflexivity.
Qed.

(** C2.  A download that goes ahead and whose fetch process exits by itself
    with code [rc], [d] seconds after it was spawned.  Whatever [d] is, a
    non-zero code gives [False] and [True] is returned for code zero only.
    When the exit falls before the last poll (at 10797 seconds) the result
    is exactly whether [rc] is zero, and a failure points at the log
    file. *)
Theorem download_model_exit nv key model token w d rc :
  MODELS nv !! key = Some model ->
  interrupt w = None ->
  makedirs_ok (fs (os w)) (local_dir model) = true ->
  proceeds model (os w) ->
  fs (os w) (nv +:+ "/logs") = Some Dir ->
  is_dir (fs (os w) (log_file nv)) = false ->
  installed (os w) "huggingface-cli" = true ->
  fetch_exit (os w) = Some (d, rc) ->
  (rc <> 0 -> result (download_model nv key token) w = Ok false) /\
  (result (download_model nv key token) w = Ok true -> rc = 0) /\
  (d <= 10797 ->
   result (download_model nv key token) w = Ok (rc =? 0) /\
   exists pre j,
     existsb is_popen pre = false /\
     events (download_model nv key token) w =
     pre ++ spawn_events nv model token ++ [EProgressStart] ++
     rounds j ++ [EPoll (Some rc); EProgressStop] ++ exit_report nv rc).
Proof.
  intros Hm Hi Hmk Hgo Hlogs Hlog Hcli Hexit.
  destruct w as [o i tr]. cbn [os interrupt] in *. subst i.
  destruct (download_to_loop nv (Z.to_nat timeout) key model token o tr
              Hm Hmk Hgo Hlogs Hlog Hcli) as (pre & o1 & Hnp & Hfe & Hrun).
  assert (Hearly : d <= 10797 ->
            result (download_model nv key token) (quiet o tr) = Ok (rc =? 0) /\
            exists pre j,
              existsb is_popen pre = false /\
              events (download_model nv key token) (quiet o tr) =
              pre ++ spawn_events nv model token ++ [EProgressStart] ++
              rounds j ++ [EPoll (Some rc); EProgressStop] ++ exit_report nv rc).
  { intros Hd.
    destruct (poll_loop_exit 3599 (Z.to_nat timeout) 0 (spawned o1)
                ((tr ++ pre ++ spawn_events nv model token) ++ [EProgressStart])
                {| spawned_at := now o1; returncode := None; killed := false |} d rc)
      as (j & o' & _ & Hloop & _ & p & Hp & Hrc).
    { reflexivity. }
    { reflexivity. }
    { cbn [fetch_exit spawned set_proc]. rewrite Hfe. exact Hexit. }
    { cbn [spawned_at now spawned set_proc]. lia. }
    { unfold timeout. lia. }
    { unfold timeout. lia. }
    apply with_progress_quiet in Hloop.
    assert (Hall : download_model nv key token (quiet o tr) =
                   (Ok (rc =? 0),
                    quiet o' (tr ++ pre ++ spawn_events nv model token ++
                              [EProgressStart] ++ rounds j ++
                              [EPoll (Some rc); EProgressStop] ++ exit_report nv rc))).
    { unfold download_model. rewrite Hrun, (bind_ok _ _ _ _ _ Hloop).
      rewrite (after_loop_exit nv o' _ p rc Hp Hrc).
      unfold quiet. rewrite <- !app_assoc. reflexivity. }
    apply run_quiet in Hall as (Hr & He & _).
    split; [exact Hr |]. exists pre, j. split; [exact Hnp | exact He]. }
  assert (Hlate : 10797 < d ->
            result (download_model nv key token) (quiet o tr) = Ok false).
  { intros Hd.
    destruct (poll_loop_timeout 3599 (Z.to_nat timeout) 0 (spawned o1)
                ((tr ++ pre ++ spawn_events nv model token) ++ [EProgressStart])
                {| spawned_at := now o1; returncode := None; killed := false |})
      as (o' & Hloop & _).
    { reflexivity. }
    { reflexivity. }
    { unfold running_until. cbn [fetch_exit spawned set_proc]. rewrite Hfe, Hexit.
      cbn [spawned_at now spawned set_proc]. lia. }
    { unfold timeout. lia. }
    { unfold timeout. lia. }
    apply with_progress_quiet in Hloop.
    unfold result, download_model. rewrite Hrun, (bind_ok _ _ _ _ _ Hloop).
    reflexivity. }
  unfold quiet in *.
  destruct (Z.le_gt_cases d 10797) as [Hd | Hd].
  - destruct (Hearly Hd) as [Hr Hev]. rewrite Hr.
    split; [| split; [| intros _; split; [reflexivity | exact Hev]]].
    + intros Hne. apply Z.eqb_neq in Hne. now rewrite Hne.
    + intros Heq. injection Heq as Heq. now apply Z.eqb_eq.
  - rewrite (Hlate Hd).
    split; [reflexivity | split; [discriminate | lia]].
Qed.

(** Every run only adds to the trace. *)
Definition no_event (e : event) : bool := false.
Definition nothing (e : exn) : Prop := False.
Definition extends {A} (m : M A) : Prop := triggers no_event nothing m.

Lemma poll_loop_extends fuel : forall elapsed, extends (poll_loop fuel elapsed).
Proof.
  unfold extends.
  induction fuel as [| fuel IH]; intros elapsed; cbn [poll_loop]; walk.
  apply IH.
Qed.

Lemma fetch_extends nv fuel model token : extends (fetch nv fuel model token).
Proof. unfold extends, fetch, after_loop. walk. apply poll_loop_extends. Qed.

Lemma Confirm_ask_eof prompt default o tr rest :
  read_confirm default (stdin o) = (None, rest) ->
  Confirm_ask prompt default (quiet o tr) =
  (Exc eof_error, quiet (set_stdin rest o) (tr ++ [EConfirm prompt None])).
Proof. intros H. unfold Confirm_ask, syscall, perform, quiet. cbn. now rewrite H. Qed.

Definition model_exists (model_path : string) : list event :=
  [EExists model_path true;
   EPrint ("[yellow]Model already exists at: " +:+ model_path +:+ "[/yellow]")].

(** C3.  The registry entry declares [model_file] and that file is there
    when [download_model] is called: the user is asked "Skip download?"; when
    the answer is yes, [download_model] returns [True] and its run spawns
    no process. *)
Theorem download_model_skip nv key model file token w :
  MODELS nv !! key = Some model ->
  interrupt w = None ->
  makedirs_ok (fs (os w)) (local_dir model) = true ->
  truthy (model_file model) = Some file ->
  is_some (fs (os w) (os_path_join (local_dir model) file)) = true ->
  (exists answer,
     In (EConfirm "Skip download?" answer) (events (download_model nv key token) w)) /\
  (forall rest,
     read_confirm true (stdin (os w)) = (Some true, rest) ->
     result (download_model nv key token) w = Ok true /\
     events (download_model nv key token) w =
     download_banner model ++
     model_exists (os_path_join (local_dir model) file) ++
     [EConfirm "Skip download?" (Some true);
      EPrint "[green]✓ Using existing model[/green]"] /\
     existsb is_popen (events (download_model nv key token) w) = false).
Proof.
  intros Hm Hi Hmk Hfile Hex.
  destruct w as [o i tr]. cbn [os interrupt] in *. subst i.
  unfold download_model.
  pose proof (download_prelude nv (Z.to_nat timeout) key model token o tr Hm Hmk) as Hpre.
  unfold quiet in Hpre.
  set (path := os_path_join (local_dir model) file) in *.
  set (o1 := after_makedirs (local_dir model) o) in *.
  assert (Hex1 : is_some (fs o1 path) = true) by now apply after_makedirs_keeps.
  assert (Hask : forall a rest,
            read_confirm true (stdin o) = (Some a, rest) ->
            skip_check model (quiet o1 (tr ++ download_banner model)) =
            (if a then console_print "[green]✓ Using existing model[/green]" ;; ret true
             else ret false)
              (quiet (set_stdin rest o1)
                 (tr ++ download_banner model ++ model_exists path ++
                  [EConfirm "Skip download?" (Some a)]))).
  { intros a rest Hrest. unfold skip_check. rewrite Hfile. fold path.
    unfold bind at 1, os_path_exists at 1. cbn [syscall perform quiet interrupt os trace].
    rewrite Hex1.
    unfold bind at 1, console_print at 1. cbn [syscall perform quiet interrupt os trace].
    erewrite bind_ok by (apply (Confirm_ask_quiet _ _ o1); exact Hrest).
    unfold quiet, model_exists. rewrite <- !app_assoc. reflexivity. }
  split.
  - destruct (read_confirm true (stdin o)) as [[[|] |] rest] eqn:Hrest.
    + exists (Some true).
      assert (Hall : download_model_fuel nv (Z.to_nat timeout) key token (quiet o tr) =
                (Ok true, quiet (set_stdin rest o1)
                   (tr ++ download_banner model ++ model_exists path ++
                    [EConfirm "Skip download?" (Some true);
                     EPrint "[green]✓ Using existing model[/green]"]))).
      { unfold quiet. rewrite Hpre. unfold bind at 1. unfold quiet in Hask.
        rewrite (Hask true rest eq_refl).
        unfold bind, console_print. cbn [syscall perform quiet interrupt os trace ret].
        unfold quiet. rewrite <- !app_assoc. reflexivity. }
      apply run_quiet in Hall as (_ & He & _). unfold quiet in He. rewrite He.
      rewrite !in_app_iff. right. right. left. reflexivity.
    + exists (Some false).
      assert (Hsk : skip_check model (quiet o1 (tr ++ download_banner model)) =
                (Ok false, quiet (set_stdin rest o1)
                   (tr ++ download_banner model ++ model_exists path ++
                    [EConfirm "Skip download?" (Some false)]))).
      { rewrite (Hask false rest eq_refl). reflexivity. }
      destruct (fetch_extends nv (Z.to_nat timeout) model token
                  (quiet (set_stdin rest o1)
                     (tr ++ download_banner model ++ model_exists path ++
                      [EConfirm "Skip download?" (Some false)])))
        as (evs & He & _).
      unfold events, final in *. rewrite Hpre.
      unfold quiet in Hsk. rewrite (bind_ok _ _ _ _ _ Hsk). cbn match.
      unfold quiet in He. rewrite He. cbn [trace].
      rewrite <- !app_assoc, drop_app_length, !in_app_iff.
      right. right. left. left. reflexivity.
    + exists None.
      assert (Hall : download_model_fuel nv (Z.to_nat timeout) key token (quiet o tr) =
                (Exc eof_error, quiet (set_stdin rest o1)
                   (tr ++ download_banner model ++ model_exists path ++
                    [EConfirm "Skip download?" None]))).
      { unfold quiet. rewrite Hpre. unfold bind at 1. unfold skip_check.
        rewrite Hfile. fold path.
        unfold bind at 1, os_path_exists at 1. cbn [syscall perform quiet interrupt os trace].
        rewrite Hex1.
        unfold bind at 1, console_print at 1. cbn [syscall perform quiet interrupt os trace].
        pose proof (Confirm_ask_eof "Skip download?" true o1) as Heof.
        unfold quiet in Heof. unfold bind at 1. rewrite (Heof _ rest Hrest).
        unfold quiet, model_exists. rewrite <- !app_assoc. reflexivity. }
      apply run_quiet in Hall as (_ & He & _). unfold quiet in He. rewrite He.
      rewrite !in_app_iff. right. right. left. reflexivity.
  - intros rest Hrest.
    assert (Hall : download_model_fuel nv (Z.to_nat timeout) key token (quiet o tr) =
              (Ok true, quiet (set_stdin rest o1)
                 (tr ++ download_banner model ++ model_exists path ++
                  [EConfirm "Skip download?" (Some true);
                   EPrint "[green]✓ Using existing model[/green]"]))).
    { unfold quiet. rewrite Hpre. unfold bind at 1. unfold quiet in Hask.
      rewrite (Hask true rest Hrest).
      unfold bind, console_print. cbn [syscall perform quiet interrupt os trace ret].
      unfold quiet. rewrite <- !app_assoc. reflexivity. }
    apply run_quiet in Hall as (Hr & He & _). unfold quiet in *.
    rewrite Hr, He. split; [reflexivity | split; [reflexivity |]].
    rewrite !existsb_app. reflexivity.
Qed.

(** *** Order of events *)

Lemma events_final {A} (m : M A) w evs :
  trace (final m w) = trace w ++ evs -> events m w = evs.
Proof. intros H. unfold events. rewrite H. apply drop_app_length. Qed.

Lemma extends_trace {A} (m : M A) w :
  extends m -> trace (final m w) = trace w ++ events m w.
Proof.
  intros Hm. destruct (Hm w) as (evs & He & _).
  now rewrite (events_final _ _ _ He).
Qed.

Lemma triggers_none {A} T (m : M A) w :
  triggers T nothing m -> existsb T (events m w) = false.
Proof.
  intros Hm. destruct (Hm w) as (evs & He & Hr).
  rewrite (events_final _ _ _ He). apply not_true_is_false. intros H.
  destruct (Hr H) as (e & _ & []).
Qed.

Lemma triggers_extends {A} T S (m : M A) : triggers T S m -> extends m.
Proof.
  intros Hm w. destruct (Hm w) as (evs & He & _). exists evs.
  split; [exact He |]. intros H. exfalso. clear -H.
  induction evs as [| e evs IH]; [discriminate | exact (IH H)].
Qed.

Lemma events_bind {A B} (m : M A) (f : A -> M B) w :
  extends m -> (forall a, extends (f a)) ->
  events (bind m f) w =
  events m w ++
  match result m w with
  | Ok a => events (f a) (final m w)
  | _ => []
  end.
Proof.
  intros Hm Hf. pose proof (extends_trace m w Hm) as Ht.
  apply events_final. unfold final, result, bind in *.
  destruct (m w) as [[a | e | |] w1]; cbn [fst snd] in *.
  - pose proof (extends_trace (f a) w1 (Hf a)) as Ht2. unfold final in Ht2.
    rewrite Ht2, Ht, app_assoc. reflexivity.
  - now rewrite app_nil_r.
  - now rewrite app_nil_r.
  - now rewrite app_nil_r.
Qed.

Lemma try_except_events {A} (m h1 : M A) (h2 : string -> M A) w :
  extends m -> extends h1 -> (forall msg, extends (h2 msg)) ->
  events (try_except m h1 h2) w =
  events m w ++
  match result m w with
  | Exc KeyboardInterrupt => events h1 (final m w)
  | Exc (PyException _ msg) => events (h2 msg) (final m w)
  | _ => []
  end.
Proof.
  intros Hm H1 H2. pose proof (extends_trace m w Hm) as Ht.
  apply events_final. unfold final, result, try_except in *.
  destruct (m w) as [[a | [c | | cls msg] | |] w1]; cbn [fst snd] in *;
    rewrite ?app_nil_r; try assumption.
  - pose proof (extends_trace h1 w1 H1) as Ht1. unfold final in Ht1.
    rewrite Ht1, Ht, app_assoc. reflexivity.
  - pose proof (extends_trace (h2 msg) w1 (H2 msg)) as Ht2. unfold final in Ht2.
    rewrite Ht2, Ht, app_assoc. reflexivity.
Qed.

(** In [evs], an event in [Q] comes after one in [P]. *)
Definition precedes (P Q : event -> bool) (evs : list event) : Prop :=
  forall pre e post, evs = pre ++ e :: post -> Q e = true -> existsb P pre = true.

Lemma split_after (Q : event -> bool) e1 : forall e2 pre e post,
  existsb Q e1 = false -> Q e = true ->
  e1 ++ e2 = pre ++ e :: post ->
  exists pre2, pre = e1 ++ pre2 /\ e2 = pre2 ++ e :: post.
Proof.
  induction e1 as [| x e1 IH]; intros e2 pre e post Hno HQ Heq.
  - exists pre. auto.
  - cbn [existsb] in Hno. apply orb_false_iff in Hno as [Hx Hno].
    destruct pre as [| y pre].
    + change (x :: e1 ++ e2 = e :: post) in Heq. injection Heq as -> _. congruence.
    + change (x :: e1 ++ e2 = y :: pre ++ e :: post) in Heq. injection Heq as -> Heq.
      destruct (IH _ _ _ _ Hno HQ Heq) as (pre2 & -> & ->). exists pre2. auto.
Qed.

(** [m] emits nothing in [Q]; the rest keeps the order. *)
Lemma precedes_bind_pass {A B} P Q (m : M A) (f : A -> M B) w :
  triggers Q nothing m -> (forall a, extends (f a)) ->
  (forall a w1, precedes P Q (events (f a) w1)) ->
  precedes P Q (events (bind m f) w).
Proof.
  intros Hm Hf Hg pre e post Heq HQ.
  rewrite (events_bind m f w (triggers_extends _ _ _ Hm) Hf) in Heq.
  apply (split_after Q) in Heq as (pre2 & -> & Heq);
    [| now apply triggers_none | exact HQ].
  rewrite existsb_app. apply orb_true_iff. right.
  destruct (result m w) as [a | x | |].
  - eapply Hg; eauto.
  - destruct pre2; discriminate.
  - destruct pre2; discriminate.
  - destruct pre2; discriminate.
Qed.





(** ** The training launcher *)

Ltac qsimpl :=
  cbn [bind ret read sys_exit raise syscall perform with_cleanup quiet
       os interrupt trace console_print console_panel console_table
       console_clear os_path_exists time_sleep progress_start progress_update
       os_environ_get os_environ_copy os_environ_set traceback_print_exc
       fst snd is_some negb].

Definition diffusion_pipe_dir (nv : string) : string :=
  WORKING_DIR nv +:+ "/diffusion_pipe".

Definition script_path (nv script : string) : string :=
  WORKING_DIR nv +:+ "/training_scripts/" +:+ script.

(** The command that trains [model]. *)
Definition training_command (nv : string) (model : Model) : list string :=
  match truthy (training_script model) with
  | Some script => script_command (script_path nv script)
  | None => inline_command model
  end.

(** The environment handed to the training command. *)
Definition training_env (o : OS) : gmap string string :=
  <["NCCL_IB_DISABLE" := "1"]> (<["NCCL_P2P_DISABLE" := "1"]> (environ o)).

Definition slow_start_warning (key : string) : list event :=
  if mem key ["qwen"; "z_image_turbo"] then
    [EPanel
       ("[yellow]⚠ IMPORTANT: Model initialization can take several minutes.[/yellow]" +:+ nl +:+
        "[yellow]⚠ The script may appear to hang - this is NORMAL.[/yellow]" +:+ nl +:+
        "[yellow]⚠ As long as it doesn't exit with error, let it run.[/yellow]");
     EPrint "";
     EPrint "[cyan]Waiting 10 seconds...[/cyan]";
     ESleep 10;
     EPrint ""]
  else [].

(** What [launch_training] does before it looks at [training_script], the
    two upgrades ending with the codes [rc1] and [rc2]. *)
Definition launch_prelude (nv key : string) (model : Model) (rc1 rc2 : Z)
    : list event :=
  [EPrint "";
   EPanel ("[bold green]Starting Training: " +:+ name model +:+ "[/bold green]" +:+ nl +:+
           "[dim]Configuration: " +:+ toml model +:+ "[/dim]");
   EPrint "";
   EExists (diffusion_pipe_dir nv) true;
   EChdir (diffusion_pipe_dir nv) true;
   EPrint "[cyan]Upgrading dependencies...[/cyan]";
   ERun pip_transformers None (Some rc1);
   ERun pip_peft None (Some rc2);
   EPrint "[green]✓ Dependencies updated[/green]";
   EPrint ""] ++
  slow_start_warning key ++
  [EPrint "[bold green]Training is starting...[/bold green]";
   EPrint ""].

(** The last block of [launch_training], from [# Check if model has
    separate training script] on. *)
Definition dispatch (nv : string) (model : Model) (env : gmap string string) : M unit :=
  match truthy (training_script model) with
  | Some script =>
      found <- os_path_exists (script_path nv script) ;;
      if found then
        subprocess_run (script_command (script_path nv script)) (Some env) ;;
        ret tt
      else
        console_print ("[red]Training script not found: " +:+ script_path nv script +:+ "[/red]") ;;
        sys_exit 1
  | None =>
      subprocess_run (inline_command model) (Some env) ;;
      ret tt
  end ;;
  console_print "" ;;
  console_print "[bold green]✓ Training completed![/bold green]".

(** The path the script is looked for at.  [launch_training] has changed to
    the diffusion_pipe directory by then, so a relative [script_path] is
    taken from there. *)
Definition script_seen (nv script : string) : string :=
  os_path_join (diffusion_pipe_dir nv) (script_path nv script).

Lemma startswith_app s t pre :
  startswith s pre = true -> startswith (s +:+ t) pre = true.
Proof.
  unfold startswith. revert s. induction pre as [| c pre IH]; intros s H.
  - cbn. now destruct (s +:+ t).
  - destruct s as [| d s]; [discriminate |].
    change (String d s +:+ t) with (String d (s +:+ t)). cbn in *.
    destruct (Ascii.ascii_dec c d); [| discriminate]. now apply IH.
Qed.

(** With [NETWORK_VOLUME] absolute, or empty, the script is looked for in the
    scripts directory. *)
Lemma script_seen_absolute nv script :
  nv = "" \/ startswith nv "/" = true ->
  script_seen nv script = script_path nv script.
Proof.
  intros H. unfold script_seen, os_path_join.
  assert (Hs : startswith (script_path nv script) "/" = true).
  { unfold script_path, WORKING_DIR. destruct H as [-> | H].
    - reflexivity.
    - now do 2 apply startswith_app. }
  now rewrite Hs.
Qed.

Lemma launch_to_dispatch nv key model o tr rc1 rc2 :
  MODELS nv !! key = Some model ->
  fs o (diffusion_pipe_dir nv) = Some Dir ->
  installed o "pip" = true ->
  run_exit o pip_transformers = Some rc1 ->
  run_exit o pip_peft = Some rc2 ->
  exists o1,
    launch_training nv key (quiet o tr) =
    dispatch nv model (training_env o)
      (quiet o1 (tr ++ launch_prelude nv key model rc1 rc2)) /\
    (forall q, fs o1 q = fs o (os_path_join (diffusion_pipe_dir nv) q)) /\
    installed o1 = installed o /\ run_exit o1 = run_exit o.
Proof.
  intros Hm Hdp Hpip Hrc1 Hrc2. unfold launch_training.
  rewrite (bind_ok _ _ _ _ _ (getitem_ok _ _ _ _ Hm)).
  qsimpl. fold (diffusion_pipe_dir nv). rewrite Hdp. qsimpl.
  erewrite bind_ok by (apply os_chdir_quiet; exact Hdp). qsimpl.
  erewrite bind_ok by (apply subprocess_run_quiet; [exact Hpip | exact Hrc1]).
  erewrite bind_ok by (apply subprocess_run_quiet; [exact Hpip | exact Hrc2]).
  qsimpl. unfold launch_prelude, slow_start_warning.
  destruct (mem key ["qwen"; "z_image_turbo"]); qsimpl;
    (eexists; split;
     [ unfold dispatch, training_env, script_path, quiet;
       rewrite <- !app_assoc; reflexivity
     | repeat split ]).
Qed.

(** The training command can be started: the script is found and [bash]
    is installed, or the entry trains inline and [deepspeed] is installed. *)
Definition training_ready (nv : string) (model : Model) (o : OS) : Prop :=
  match truthy (training_script model) with
  | Some script =>
      is_some (fs o (script_seen nv script)) = true /\ installed o "bash" = true
  | None => installed o "deepspeed" = true
  end.

Definition completed : list event :=
  [EPrint ""; EPrint "[bold green]✓ Training completed![/bold green]"].

(** C5.  [launch_training] reaches the training command: the setup directory
    is there, the two upgrades return, the command can be started.  Then
    the command is run and waited for.  When it returns, with whatever exit
    code [rc], zero or not, [launch_training] prints the completion banner
    and returns normally: neither the result nor the banner depends on
    [rc].  When it does not return, neither does [launch_training], and no
    banner is printed. *)
Theorem launch_training_completes nv key model w rc1 rc2 :
  MODELS nv !! key = Some model ->
  interrupt w = None ->
  fs (os w) (diffusion_pipe_dir nv) = Some Dir ->
  installed (os w) "pip" = true ->
  run_exit (os w) pip_transformers = Some rc1 ->
  run_exit (os w) pip_peft = Some rc2 ->
  training_ready nv model (os w) ->
  exists pre,
    existsb is_training pre = false /\
    match run_exit (os w) (training_command nv model) with
    | Some rc =>
        result (launch_training nv key) w = Ok tt /\
        events (launch_training nv key) w =
        pre ++
        [ERun (training_command nv model) (Some (training_env (os w))) (Some rc)] ++
        completed
    | None =>
        result (launch_training nv key) w = Hangs /\
        events (launch_training nv key) w =
        pre ++
        [ERun (training_command nv model) (Some (training_env (os w))) None]
    end.
Proof.
  intros Hm Hi Hdp Hpip Hrc1 Hrc2 Hready.
  destruct w as [o i tr]. cbn [os interrupt] in *. subst i.
  destruct (launch_to_dispatch nv key model o tr rc1 rc2 Hm Hdp Hpip Hrc1 Hrc2)
    as (o1 & Hrun & Hfs & Hinst & Hrc).
  unfold training_ready in *.
  assert (Hquiet : forall evs,
            existsb is_training (launch_prelude nv key model rc1 rc2 ++ evs) =
            existsb is_training evs).
  { intros evs. rewrite existsb_app. unfold launch_prelude, slow_start_warning.
    destruct (mem key ["qwen"; "z_image_turbo"]); reflexivity. }
  assert (Hall : exists mid,
            existsb is_training mid = false /\
            match run_exit o (training_command nv model) with
            | Some rc =>
                launch_training nv key (quiet o tr) =
                (Ok tt,
                 quiet o1 (tr ++ (launch_prelude nv key model rc1 rc2 ++ mid) ++
                           [ERun (training_command nv model) (Some (training_env o))
                              (Some rc)] ++ completed))
            | None =>
                launch_training nv key (quiet o tr) =
                (Hangs,
                 quiet o1 (tr ++ (launch_prelude nv key model rc1 rc2 ++ mid) ++
                           [ERun (training_command nv model) (Some (training_env o))
                              None]))
            end).
  { rewrite Hrun. unfold dispatch, training_command.
    destruct (truthy (training_script model)) as [script |].
    - destruct Hready as [Hex Hbash]. exists [EExists (script_path nv script) true].
      split; [reflexivity |].
      rewrite bind_assoc. qsimpl. rewrite Hfs. fold (script_seen nv script).
      rewrite Hex. cbn match. unfold script_command in *. rewrite bind_assoc.
      rewrite <- Hrc, <- Hinst in *.
      destruct (run_exit o1 ["bash"; script_path nv script]) as [rc |] eqn:Hexit.
      + erewrite bind_ok by (apply subprocess_run_quiet; [exact Hbash | exact Hexit]).
        qsimpl. unfold quiet, completed. rewrite <- !app_assoc. reflexivity.
      + erewrite bind_hangs by (apply subprocess_run_hangs; [exact Hbash | exact Hexit]).
        unfold quiet. rewrite <- !app_assoc. reflexivity.
    - exists []. split; [reflexivity |].
      unfold inline_command in *. rewrite bind_assoc.
      rewrite <- Hrc, <- Hinst in *.
      match goal with
      | |- match run_exit o1 ?c with _ => _ end => destruct (run_exit o1 c) as [rc |] eqn:Hexit
      end.
      + erewrite bind_ok by (apply subprocess_run_quiet; [exact Hready | exact Hexit]).
        qsimpl. unfold quiet, completed. rewrite <- !app_assoc. reflexivity.
      + erewrite bind_hangs by (apply subprocess_run_hangs; [exact Hready | exact Hexit]).
        unfold quiet. rewrite <- !app_assoc. reflexivity. }
  destruct Hall as (mid & Hmid & Hall).
  exists (launch_prelude nv key model rc1 rc2 ++ mid).
  split; [rewrite Hquiet; exact Hmid |].
  destruct (run_exit o (training_command nv model)) as [rc |];
    apply run_quiet in Hall as (Hr & He & _); unfold quiet in *;
    (split; [exact Hr | exact He]).
Qed.

Definition script_missing (nv script : string) : list event :=
  [EExists (script_path nv script) false;
   EPrint ("[red]Training script not found: " +:+ script_path nv script +:+ "[/red]")].

(** C6, as the code has it.  An entry that names a training script which is
    not where [launch_training] looks for it, the scripts directory as seen
    from the diffusion_pipe directory it has changed to: [launch_training]
    ends with [sys.exit(1)] and has run no training command, neither the
    script nor the inline [deepspeed] one.  The two [pip] upgrades were run,
    and have returned, before the script was looked for. *)
Theorem launch_training_missing_script nv key model script w rc1 rc2 :
  MODELS nv !! key = Some model ->
  truthy (training_script model) = Some script ->
  interrupt w = None ->
  fs (os w) (diffusion_pipe_dir nv) = Some Dir ->
  installed (os w) "pip" = true ->
  run_exit (os w) pip_transformers = Some rc1 ->
  run_exit (os w) pip_peft = Some rc2 ->
  is_some (fs (os w) (script_seen nv script)) = false ->
  result (launch_training nv key) w = Exc (SystemExit 1) /\
  exit_code (result (launch_training nv key) w) = Some 1 /\
  events (launch_training nv key) w =
  launch_prelude nv key model rc1 rc2 ++ script_missing nv script /\
  commands_run (events (launch_training nv key) w) = [pip_transformers; pip_peft] /\
  existsb is_training (events (launch_training nv key) w) = false.
Proof.
  intros Hm Hscript Hi Hdp Hpip Hrc1 Hrc2 Hmissing.
  destruct w as [o i tr]. cbn [os interrupt] in *. subst i.
  destruct (launch_to_dispatch nv key model o tr rc1 rc2 Hm Hdp Hpip Hrc1 Hrc2)
    as (o1 & Hrun & Hfs & _).
  assert (Hall : launch_training nv key (quiet o tr) =
            (Exc (SystemExit 1),
             quiet o1 (tr ++ launch_prelude nv key model rc1 rc2 ++
                       script_missing nv script))).
  { rewrite Hrun. unfold dispatch. rewrite Hscript, bind_assoc. qsimpl.
    rewrite Hfs. fold (script_seen nv script). rewrite Hmissing. cbn match.
    rewrite bind_assoc. qsimpl. unfold quiet, script_missing.
    rewrite <- !app_assoc. reflexivity. }
  apply run_quiet in Hall as (Hr & He & _). unfold quiet in *.
  rewrite Hr, He. repeat split.
  all: unfold commands_run, launch_prelude, slow_start_warning;
    destruct (mem key ["qwen"; "z_image_turbo"]); reflexivity.
Qed.

(** ** The top level *)

Lemma main_body_extends nv : extends (main_body nv).
Proof. exact (triggers_extends _ _ _ (main_body_gate nv)). Qed.





Lemma main_exits nv w code :
  result (main_body nv) w = Exc (SystemExit code) ->
  result (main nv) w = Exc (SystemExit code) /\
  events (main nv) w = events (main_body nv) w.
Proof.
  intros Hr. unfold result, events, final, main, try_except in *.
  destruct (main_body nv w) as [r w1]. cbn [fst snd] in *. subst r. auto.
Qed.






(** ** The credential *)

Definition token_request : list event :=
  [EPrint "";
   EPrint "[yellow]Hugging Face token required for this model[/yellow]";
   EPrint "[dim]Get your token from: https://huggingface.co/settings/tokens[/dim]";
   EPrint ""].

Definition token_prompt (line : string) : event :=
  EPrompt "Enter your Hugging Face token" (Some line).

Definition token_refused : list event :=
  [EPrint "[red]Token cannot be empty. Exiting.[/red]"].

(** The credential found in the environment counts as set. *)
Definition preset_token (o : OS) : option string :=
  match environ o !! "HUGGING_FACE_TOKEN" with
  | Some t => if ((t =? "") || (t =? "token_here"))%string then None else Some t
  | None => None
  end.

(** What [get_api_token] does when the environment has no usable token. *)
Definition ask_for_token : M (option string) :=
  console_print "" ;;
  console_print "[yellow]Hugging Face token required for this model[/yellow]" ;;
  console_print "[dim]Get your token from: https://huggingface.co/settings/tokens[/dim]" ;;
  console_print "" ;;
  token <- Prompt_ask_password "Enter your Hugging Face token" ;;
  (if (token =? "")%string
   then console_print "[red]Token cannot be empty. Exiting.[/red]" ;;
        sys_exit 1
   else ret tt) ;;
  os_environ_set "HUGGING_FACE_TOKEN" token ;;
  console_print "[green]Token set successfully[/green]" ;;
  ret (Some token).

Lemma get_api_token_eq nv key :
  get_api_token nv key =
  (model <- getitem (MODELS nv) key ;;
   if negb (requires_token model) then ret None
   else
     token <- os_environ_get "HUGGING_FACE_TOKEN" ;;
     match truthy token with
     | Some t =>
         if negb (t =? "token_here")%string
         then console_print "[green]Hugging Face token already set[/green]" ;;
              ret (Some t)
         else ask_for_token
     | None => ask_for_token
     end).
Proof. reflexivity. Qed.

Lemma preset_token_Some o t :
  preset_token o = Some t ->
  truthy (environ o !! "HUGGING_FACE_TOKEN") = Some t /\
  (t =? "token_here")%string = false.
Proof.
  unfold preset_token. destruct (environ o !! "HUGGING_FACE_TOKEN") as [t' |]; [| discriminate].
  destruct (t' =? "")%string eqn:He; [discriminate |].
  destruct (t' =? "token_here")%string eqn:Hp; [discriminate |].
  cbn [orb]. intros [= ->]. split; [| exact Hp].
  destruct t; [discriminate | reflexivity].
Qed.

Lemma preset_token_None o :
  preset_token o = None ->
  truthy (environ o !! "HUGGING_FACE_TOKEN") = None \/
  truthy (environ o !! "HUGGING_FACE_TOKEN") = Some "token_here".
Proof.
  unfold preset_token. destruct (environ o !! "HUGGING_FACE_TOKEN") as [t |]; [| now left].
  destruct (t =? "")%string eqn:He.
  - apply String.eqb_eq in He as ->. now left.
  - destruct (t =? "token_here")%string eqn:Hp; [| discriminate].
    apply String.eqb_eq in Hp as ->. now right.
Qed.

Lemma ask_for_token_quiet o tr line rest :
  stdin o = line :: rest ->
  ask_for_token (quiet o tr) =
  if (strip line =? "")%string
  then (Exc (SystemExit 1),
        quiet (set_stdin rest o)
          (tr ++ token_request ++ [token_prompt (strip line)] ++ token_refused))
  else (Ok (Some (strip line)),
        quiet (set_environ (<["HUGGING_FACE_TOKEN" := strip line]> (environ o))
                 (set_stdin rest o))
              (tr ++ token_request ++ [token_prompt (strip line)] ++
               [ESetenv "HUGGING_FACE_TOKEN" (strip line);
                EPrint "[green]Token set successfully[/green]"])).
Proof.
  intros Hin. unfold ask_for_token. qsimpl.
  erewrite bind_ok by (apply Prompt_ask_password_quiet; exact Hin).
  destruct (strip line =? "")%string.
  - rewrite bind_assoc. qsimpl. unfold quiet, token_request, token_prompt, token_refused.
    rewrite <- !app_assoc. reflexivity.
  - qsimpl. unfold quiet, token_request, token_prompt.
    rewrite <- !app_assoc. reflexivity.
Qed.

Lemma get_api_token_preset nv key model o tr t :
  MODELS nv !! key = Some model -> requires_token model = true ->
  preset_token o = Some t ->
  get_api_token nv key (quiet o tr) =
  (Ok (Some t), quiet o (tr ++ [EPrint "[green]Hugging Face token already set[/green]"])).
Proof.
  intros Hm Hreq Hpre. apply preset_token_Some in Hpre as [Ht Hp].
  rewrite get_api_token_eq.
  rewrite (bind_ok _ _ _ _ _ (getitem_ok _ _ _ _ Hm)). rewrite Hreq. cbn [negb].
  unfold bind at 1, os_environ_get at 1, read at 1. cbn [quiet os].
  rewrite Ht, Hp. qsimpl. reflexivity.
Qed.

Lemma get_api_token_ask nv key model o tr :
  MODELS nv !! key = Some model -> requires_token model = true ->
  preset_token o = None ->
  get_api_token nv key (quiet o tr) = ask_for_token (quiet o tr).
Proof.
  intros Hm Hreq Hpre. rewrite get_api_token_eq.
  rewrite (bind_ok _ _ _ _ _ (getitem_ok _ _ _ _ Hm)). rewrite Hreq. cbn [negb].
  unfold bind at 1, os_environ_get at 1, read at 1. cbn [quiet os].
  destruct (preset_token_None o Hpre) as [-> | ->]; reflexivity.
Qed.

(** The session after [get_api_token]. *)
Definition session_after_token (nv model_key : string) (model : Model)
    (token : option string) : M unit :=
  caption_mode <- get_caption_mode ;;
  validate_dataset nv caption_mode ;;
  console_panel
    ("[bold]Configuration Summary[/bold]" +:+ nl +:+ nl +:+
     "Model: " +:+ name model +:+ nl +:+
     "Type: " +:+ type model +:+ nl +:+
     "Caption Mode: " +:+ caption_mode +:+ nl +:+
     "Config: " +:+ toml model) ;;
  console_print "" ;;
  start <- Confirm_ask "Start training with this configuration?" true ;;
  (if negb start then
     console_print "[yellow]Cancelled by user[/yellow]" ;;
     sys_exit 0
   else ret tt) ;;
  ok <- download_model nv model_key token ;;
  (if negb ok then
     console_print "[red]Download failed, cannot continue[/red]" ;;
     sys_exit 1
   else ret tt) ;;
  launch_training nv model_key.

Definition menu_choices : list string := ["1"; "2"; "3"; "4"; "5"; "6"; "7"].

Definition welcome_events : list event :=
  [EClear;
   EPanel ("[bold cyan]Diffusion Pipe Helper - Interactive Training[/bold cyan]" +:+ nl +:+
           "[dim]A Python version with Rich UI[/dim]");
   EPrint ""].

Definition menu_events (choice : string) : list event :=
  [ETable "Select Model to Train"
     [["1"; "Flux"; "Image"];
      ["2"; "SDXL"; "Image"];
      ["3"; "Wan 1.3B"; "Video"];
      ["4"; "Wan 14B Text-To-Video"; "Video"];
      ["5"; "Wan 14B Image-To-Video"; "Video"];
      ["6"; "Qwen Image"; "Image"];
      ["7"; "Z Image Turbo"; "Image"]];
   EPrint "";
   EPrompt "Enter your choice" (Some choice)].

Definition selected_events (model : Model) : list event :=
  [EPrint ""; EPrint ("[green]✓ Selected: " +:+ name model +:+ "[/green]")].

Lemma main_to_token nv o tr choice rest key model :
  read_choice menu_choices "1" (stdin o) = (Some choice, rest) ->
  model_map !! choice = Some key ->
  MODELS nv !! key = Some model ->
  main_body nv (quiet o tr) =
  (token <- get_api_token nv key ;; session_after_token nv key model token)
    (quiet (set_stdin rest o)
       (tr ++ welcome_events ++ menu_events choice ++ selected_events model)).
Proof.
  intros Hc Hk Hm. unfold main_body, show_welcome, show_menu.
  repeat first [rewrite bind_assoc | progress qsimpl].
  erewrite bind_ok by (apply Prompt_ask_quiet; exact Hc).
  rewrite (bind_ok _ _ _ _ _ (getitem_ok _ _ _ _ Hk)).
  rewrite (bind_ok _ _ _ _ _ (getitem_ok _ _ _ _ Hm)).
  qsimpl. unfold quiet, welcome_events, menu_events, selected_events, session_after_token.
  rewrite <- !app_assoc. reflexivity.
Qed.

(** Something of [download_model] has happened. *)
Definition is_download_event (e : event) : bool :=
  match e with
  | EMakedirs _ _ | EOpen _ _ | EClose _ | EPopen _ _ | EPoll _ | EKill => true
  | _ => false
  end.

(** C8.  For an entry that requires a token: the value of
    [HUGGING_FACE_TOKEN] is taken exactly when it is set, not empty and not
    [token_here], and then nothing is asked; otherwise the user is asked
    for the token, and what they type is taken stripped of the blanks
    around it; an answer with nothing else on it ends [get_api_token] with
    [sys.exit(1)].  In a session this gives exit code 1 with nothing of
    the download done. *)
Theorem get_api_token_credential nv key model w :
  MODELS nv !! key = Some model ->
  requires_token model = true ->
  interrupt w = None ->
  (forall t,
     preset_token (os w) = Some t <->
     environ (os w) !! "HUGGING_FACE_TOKEN" = Some t /\ t <> "" /\ t <> "token_here") /\
  (forall t,
     preset_token (os w) = Some t ->
     result (get_api_token nv key) w = Ok (Some t) /\
     events (get_api_token nv key) w =
     [EPrint "[green]Hugging Face token already set[/green]"]) /\
  (forall line rest,
     preset_token (os w) = None ->
     stdin (os w) = line :: rest ->
     (exists more,
        events (get_api_token nv key) w =
        token_request ++ token_prompt (strip line) :: more) /\
     (strip line = "" ->
      result (get_api_token nv key) w = Exc (SystemExit 1) /\
      events (get_api_token nv key) w =
      token_request ++ [token_prompt ""] ++ token_refused) /\
     (strip line <> "" -> result (get_api_token nv key) w = Ok (Some (strip line)))) /\
  (forall choice line rest,
     preset_token (os w) = None ->
     read_choice menu_choices "1" (stdin (os w)) = (Some choice, line :: rest) ->
     strip line = "" ->
     model_map !! choice = Some key ->
     exit_code (result (main nv) w) = Some 1 /\
     events (main nv) w =
     welcome_events ++ menu_events choice ++ selected_events model ++
     token_request ++ [token_prompt ""] ++ token_refused /\
     existsb is_download_event (events (main nv) w) = false).
Proof.
  intros Hm Hreq Hi. destruct w as [o i tr]. cbn [os interrupt] in *. subst i.
  split; [| split; [| split]].
  - intros t. unfold preset_token.
    destruct (environ o !! "HUGGING_FACE_TOKEN") as [t' |].
    + destruct (String.eqb_spec t' ""), (String.eqb_spec t' "token_here"); cbn [orb];
        split; try discriminate; try (intros [[= ->] [? ?]]; congruence).
      intros [= ->]. auto.
    + split; [discriminate | intros [[=] _]].
  - intros t Hpre.
    pose proof (get_api_token_preset nv key model o tr t Hm Hreq Hpre) as Hall.
    apply run_quiet in Hall as (Hr & He & _). auto.
  - intros line rest Hpre Hin.
    pose proof (get_api_token_ask nv key model o tr Hm Hreq Hpre) as Hask.
    rewrite (ask_for_token_quiet o tr line rest Hin) in Hask.
    destruct (String.eqb_spec (strip line) "") as [Heq | Hne].
    + apply run_quiet in Hask as (Hr & He & _). unfold quiet in *.
      rewrite He, Heq. split; [| split; [auto | congruence]].
      eexists. reflexivity.
    + apply run_quiet in Hask as (Hr & He & _). unfold quiet in *.
      rewrite He. split; [| split; [congruence | auto]].
      eexists. reflexivity.
  - intros choice line rest Hpre Hc Hblank Hk.
    assert (Hbody : main_body nv (quiet o tr) =
              (Exc (SystemExit 1),
               quiet (set_stdin rest o)
                 (tr ++ welcome_events ++ menu_events choice ++ selected_events model ++
                  token_request ++ [token_prompt ""] ++ token_refused))).
    { rewrite (main_to_token nv o tr choice (line :: rest) key model Hc Hk Hm).
      erewrite bind_exc.
      2:{ rewrite (get_api_token_ask nv key model (set_stdin (line :: rest) o) _ Hm Hreq Hpre).
          rewrite (ask_for_token_quiet (set_stdin (line :: rest) o) _ line rest eq_refl).
          rewrite Hblank. reflexivity. }
      unfold quiet. rewrite <- !app_assoc. reflexivity. }
    apply run_quiet in Hbody as (Hr & He & _). unfold quiet in *.
    destruct (main_exits nv _ 1 Hr) as [Hr' He']. rewrite Hr', He', He.
    repeat split.
Qed.

(** ** The dataset validator *)

(** *** Matching by extension *)














(** *** [validate_dataset], part by part *)






Definition validation_banner : list event :=
  [EPrint ""; EPanel "[bold cyan]Dataset Validation[/bold cyan]"; EPrint ""].




Definition not_a_directory (p : string) : exn :=
  os_error "NotADirectoryError" "[Errno 20] Not a directory" p.

(** The caption mode asks for the image directory, or for the video
    directory. *)
Definition wants_images (mode : string) : bool := mem mode ["images"; "both"].







(** A plain file where a dataset directory should be: [os.path.exists]
    answers yes, [os.listdir] raises. *)
Definition listing_refused (dir : string) : list event :=
  [EExists dir true; EListdir dir false].

Lemma validate_dataset_image_file nv mode o tr :
  wants_images mode = true ->
  fs o (image_dir nv) = Some File ->
  validate_dataset nv mode (quiet o tr) =
  (Exc (not_a_directory (image_dir nv)),
   quiet o (tr ++ validation_banner ++ listing_refused (image_dir nv))).
Proof.
  intros Hmode Hfile. unfold wants_images in Hmode.
  unfold validate_dataset. qsimpl. rewrite Hmode.
  rewrite !bind_assoc. unfold bind at 1, os_path_exists at 1.
  cbn [syscall perform quiet interrupt os trace]. rewrite Hfile. cbn [is_some negb].
  rewrite bind_assoc. unfold bind at 1, os_listdir at 1.
  cbn [syscall quiet interrupt]. unfold perform. cbn [os trace]. rewrite Hfile.
  unfold quiet, validation_banner, listing_refused, not_a_directory.
  rewrite <- !app_assoc. reflexivity.
Qed.


















Definition caption_modes : list string := ["images"; "videos"; "both"; "skip"].




(** ** The logs directory *)

Definition logs_dir (nv : string) : string := nv +:+ "/logs".





Lemma poll_loop_keeps_fs fuel (P : OS -> Prop) : forall elapsed,
  (forall o p, P o -> P (set_proc p o)) ->
  (forall o t, P o -> P (set_now t o)) ->
  keeps P (poll_loop fuel elapsed).
Proof.
  intros elapsed Hproc Hnow. revert elapsed.
  induction fuel as [| fuel IH]; intros elapsed; cbn [poll_loop].
  - apply keeps_out_of_fuel.
  - unfold process_poll, time_sleep, progress_update, console_print, process_kill.
    apply keeps_bind.
    { apply keeps_syscall. intros o Ho. destruct (proc o); cbn [snd]; auto. }
    intros [rc |]; [apply keeps_ret |].
    apply keeps_bind; [apply keeps_syscall; cbn [snd]; auto |]. intros _.
    apply keeps_bind; [apply keeps_syscall; cbn [snd]; auto |]. intros _.
    destruct (elapsed + 3 >=? timeout); [| apply IH].
    apply keeps_bind; [apply keeps_syscall; cbn [snd]; auto |]. intros _.
    apply keeps_bind; [| intros; apply keeps_ret].
    apply keeps_syscall. intros o Ho. destruct (proc o); cbn [snd]; auto.
Qed.


(** *** What a session creates, and when *)


























(** ** Concrete sessions *)

Definition fs_of (dirs files : list string) : string -> option FileKind :=
  fun p => if mem p dirs then Some Dir
           else if mem p files then Some File
           else None.

(** A volume after [setup.sh]: the checkout, the training script of Flux and
    of SDXL, the logs directory, three images, no video directory. *)
Definition volume : string -> option FileKind :=
  fs_of ["/"; "/workspace"; "/workspace/logs"; "/workspace/image_dataset_here";
         "/workspace/diffusion-pipe-working-folder";
         "/workspace/diffusion-pipe-working-folder/diffusion_pipe";
         "/workspace/diffusion-pipe-working-folder/training_scripts"]
        ["/workspace/diffusion-pipe-working-folder/training_scripts/start_flux_training.sh";
         "/workspace/diffusion-pipe-working-folder/training_scripts/start_sdxl_training.sh"].

Definition machine (files : string -> option FileKind) (lines : list string)
    (exit : option (Z * Z)) : OS :=
  {| fs := files;
     listing := fun p =>
       if (p =? "/workspace/image_dataset_here")%string
       then ["A.JPG"; "b.jpeg"; "notes.txt"; "c.Png"]
       else [];
     environ := ∅;
     installed := fun _ => true;
     stdin := lines;
     fetch_exit := exit;
     run_exit := fun _ => Some 1;
     now := 0;
     proc := None;
     cwd := "/" |}.

(** The fetch never exits. *)
Definition stalled : World := quiet (machine volume [] None) [].

(** The fetch fails after 40 seconds with code 2. *)
Definition failing : World := quiet (machine volume [] (Some (40, 2))) [].

(** The SDXL weights are there and the user types [y]. *)
Definition downloaded : World :=
  quiet (machine (fs_of ["/workspace"; "/workspace/models"; "/workspace/logs"]
                        ["/workspace/models/sdXL_v10VAEFix.safetensors"])
                 ["y"] (Some (5, 0))) [].

(** No logs directory. *)
Definition no_logs_volume : string -> option FileKind :=
  fs_of ["/"; "/workspace";
         "/workspace/diffusion-pipe-working-folder";
         "/workspace/diffusion-pipe-working-folder/diffusion_pipe"] [].

Definition unlogged : World := quiet (machine no_logs_volume [] (Some (5, 0))) [].

(** The entry of the registry under [key]. *)
Definition no_model : Model :=
  {| name := ""; type := ""; hf_repo := ""; hf_files := None; local_dir := "";
     toml := ""; training_script := None; requires_token := false;
     model_file := None; special_download := None |}.

Definition entry (nv key : string) : Model := default no_model (MODELS nv !! key).

Lemma entry_flux : MODELS "/workspace" !! "flux" = Some (entry "/workspace" "flux").
Proof. vm_compute. reflexivity. Qed.

Lemma entry_sdxl : MODELS "/workspace" !! "sdxl" = Some (entry "/workspace" "sdxl").
Proof. vm_compute. reflexivity. Qed.

Lemma download_model_timeout_witness :
  result (download_model "/workspace" "flux" None) stalled = Ok false.
Proof.
  assert (H1 : makedirs_ok (fs (os stalled)) (local_dir (entry "/workspace" "flux")) = true)
    by (vm_compute; reflexivity).
  assert (H2 : proceeds (entry "/workspace" "flux") (os stalled))
    by (left; vm_compute; reflexivity).
  assert (H3 : fs (os stalled) ("/workspace" +:+ "/logs") = Some Dir)
    by (vm_compute; reflexivity).
  assert (H4 : is_dir (fs (os stalled) (log_file "/workspace")) = false)
    by (vm_compute; reflexivity).
  exact (proj1 (download_model_timeout "/workspace" "flux" _ None stalled
                  entry_flux eq_refl H1 H2 H3 H4 eq_refl eq_refl)).
Defined.

Lemma download_model_exit_witness :
  result (download_model "/workspace" "flux" None) failing = Ok false.
Proof.
  assert (H1 : makedirs_ok (fs (os failing)) (local_dir (entry "/workspace" "flux")) = true)
    by (vm_compute; reflexivity).
  assert (H2 : proceeds (entry "/workspace" "flux") (os failing))
    by (left; vm_compute; reflexivity).
  assert (H3 : fs (os failing) ("/workspace" +:+ "/logs") = Some Dir)
    by (vm_compute; reflexivity).
  assert (H4 : is_dir (fs (os failing) (log_file "/workspace")) = false)
    by (vm_compute; reflexivity).
  assert (H5 : (2 : Z) <> 0) by discriminate.
  exact (proj1 (download_model_exit "/workspace" "flux" _ None failing 40 2
                  entry_flux eq_refl H1 H2 H3 H4 eq_refl eq_refl) H5).
Defined.

(** The SDXL weights are there; the user sends a line of blanks, which is
    no answer, and then [Y] with blanks around it. *)
Definition hesitant : World :=
  quiet (machine (fs_of ["/workspace"; "/workspace/models"; "/workspace/logs"]
                        ["/workspace/models/sdXL_v10VAEFix.safetensors"])
                 [" "; " Y "] (Some (5, 0))) [].

Lemma download_model_skip_witness :
  result (download_model "/workspace" "sdxl" None) hesitant = Ok true.
Proof.
  assert (H1 : makedirs_ok (fs (os hesitant)) (local_dir (entry "/workspace" "sdxl")) = true)
    by (vm_compute; reflexivity).
  assert (H2 : truthy (model_file (entry "/workspace" "sdxl")) =
               Some "sdXL_v10VAEFix.safetensors")
    by (vm_compute; reflexivity).
  assert (H3 : is_some (fs (os hesitant)
                 (os_path_join (local_dir (entry "/workspace" "sdxl"))
                    "sdXL_v10VAEFix.safetensors")) = true)
    by (vm_compute; reflexivity).
  assert (H4 : read_confirm true (stdin (os hesitant)) = (Some true, []))
    by (vm_compute; reflexivity).
  exact (proj1 (proj2 (download_model_skip "/workspace" "sdxl" _
                         "sdXL_v10VAEFix.safetensors" None hesitant
                         entry_sdxl eq_refl H1 H2 H3) [] H4)).
Defined.

(** A fresh volume and a fetch that succeeds after 5 seconds. *)
Definition fresh : World := quiet (machine volume [] (Some (5, 0))) [].





(** The training script of Flux never returns. *)
Definition endless : World :=
  quiet
    {| fs := volume; listing := fun _ => []; environ := ∅;
       installed := fun _ => true; stdin := []; fetch_exit := None;
       run_exit := fun cmd =>
         match cmd with
         | "bash" :: _ => None
         | _ => Some 0
         end;
       now := 0; proc := None; cwd := "/" |} [].

Lemma launch_training_completes_witness :
  result (launch_training "/workspace" "flux") fresh = Ok tt /\
  result (launch_training "/workspace" "flux") endless = Hangs.
Proof.
  assert (H1 : fs (os fresh) (diffusion_pipe_dir "/workspace") = Some Dir)
    by (vm_compute; reflexivity).
  assert (H2 : training_ready "/workspace" (entry "/workspace" "flux") (os fresh))
    by (split; vm_compute; reflexivity).
  assert (H3 : training_ready "/workspace" (entry "/workspace" "flux") (os endless))
    by (split; vm_compute; reflexivity).
  split.
  - destruct (launch_training_completes "/workspace" "flux" _ fresh 1 1
                entry_flux eq_refl H1 eq_refl eq_refl eq_refl H2) as (pre & _ & H).
    exact (proj1 H).
  - destruct (launch_training_completes "/workspace" "flux" _ endless 0 0
                entry_flux eq_refl H1 eq_refl eq_refl eq_refl H3) as (pre & _ & H).
    exact (proj1 H).
Defined.

(** [NETWORK_VOLUME] is relative, and the training script of Flux is in the
    scripts directory, seen from where the session starts. *)
Definition relative : World :=
  quiet (machine (fs_of ["vol"; "vol/diffusion-pipe-working-folder";
                         "vol/diffusion-pipe-working-folder/diffusion_pipe";
                         "vol/diffusion-pipe-working-folder/training_scripts"]
                        ["vol/diffusion-pipe-working-folder/training_scripts/start_flux_training.sh"])
                 [] None) [].

Lemma entry_flux_relative : MODELS "vol" !! "flux" = Some (entry "vol" "flux").
Proof. vm_compute. reflexivity. Qed.

Lemma launch_training_missing_script_witness :
  result (launch_training "/workspace" "flux") unlogged = Exc (SystemExit 1) /\
  (is_some (fs (os relative) (script_path "vol" "start_flux_training.sh")) = true /\
   result (launch_training "vol" "flux") relative = Exc (SystemExit 1)).
Proof.
  assert (H1 : truthy (training_script (entry "/workspace" "flux")) =
               Some "start_flux_training.sh")
    by (vm_compute; reflexivity).
  assert (H2 : fs (os unlogged) (diffusion_pipe_dir "/workspace") = Some Dir)
    by (vm_compute; reflexivity).
  assert (H3 : is_some (fs (os unlogged)
                 (script_seen "/workspace" "start_flux_training.sh")) = false)
    by (vm_compute; reflexivity).
  assert (H4 : truthy (training_script (entry "vol" "flux")) =
               Some "start_flux_training.sh")
    by (vm_compute; reflexivity).
  assert (H5 : fs (os relative) (diffusion_pipe_dir "vol") = Some Dir)
    by (vm_compute; reflexivity).
  assert (H6 : is_some (fs (os relative)
                 (script_seen "vol" "start_flux_training.sh")) = false)
    by (vm_compute; reflexivity).
  split; [| split].
  - exact (proj1 (launch_training_missing_script "/workspace" "flux" _
                    "start_flux_training.sh" unlogged 1 1
                    entry_flux H1 eq_refl H2 eq_refl eq_refl eq_refl H3)).
  - vm_compute. reflexivity.
  - exact (proj1 (launch_training_missing_script "vol" "flux" _
                    "start_flux_training.sh" relative 1 1
                    entry_flux_relative H4 eq_refl H5 eq_refl eq_refl eq_refl H6)).
Defined.

(** C6 as stated fails: by the time the script is found missing, two
    commands have been run. *)
Lemma launch_training_missing_script_has_run_pip :
  result (launch_training "/workspace" "flux") unlogged = Exc (SystemExit 1) /\
  commands_run (events (launch_training "/workspace" "flux") unlogged) =
  [pip_transformers; pip_peft] /\
  commands_run (events (launch_training "/workspace" "flux") unlogged) <> [].
Proof. vm_compute. repeat split. discriminate. Qed.


(** Ctrl-C when five primitives have completed. *)
Definition interrupted : World :=
  {| os := machine volume ["2"; "4"; "y"] None; interrupt := Some 5%nat; trace := [] |}.





(** Flux, and a line of blanks at the token prompt. *)
Definition tokenless : World := quiet (machine volume ["1"; "   "] None) [].

Lemma get_api_token_credential_witness :
  exit_code (result (main "/workspace") tokenless) = Some 1 /\
  existsb is_download_event (events (main "/workspace") tokenless) = false.
Proof.
  assert (H1 : preset_token (os tokenless) = None) by (vm_compute; reflexivity).
  assert (H2 : read_choice menu_choices "1" (stdin (os tokenless)) = (Some "1", ["   "]))
    by (vm_compute; reflexivity).
  assert (H3 : model_map !! "1" = Some "flux") by (vm_compute; reflexivity).
  assert (H4 : strip "   " = "") by (vm_compute; reflexivity).
  destruct (proj2 (proj2 (proj2
              (get_api_token_credential "/workspace" "flux" _ tokenless
                 entry_flux eq_refl eq_refl)))
              "1" "   " [] H1 H2 H4 H3) as (Hc & _ & Hd).
  split; [exact Hc | exact Hd].
Defined.


(** A plain file stands where the image dataset should be. *)
Definition misplaced : World :=
  quiet (machine (fs_of ["/"; "/workspace"] ["/workspace/image_dataset_here"]) [] None) [].



(** *** The scenarios of the specification, run *)

Definition count (P : event -> bool) (evs : list event) : nat :=
  length (List.filter P evs).

(** Scenario A: SDXL, no captioning, the weights already there, the download
    skipped, training through the script; its exit code 1 changes nothing. *)
Definition scenario_a : World :=
  quiet (machine (fun p => if (p =? "/workspace/models/sdXL_v10VAEFix.safetensors")%string
                           then Some File else volume p)
                 ["2"; "4"; "y"; "y"] None) [].

(** The two NCCL variables in the environment of each [bash] run. *)
Definition nccl_flags (evs : list event) : list (option string * option string) :=
  flat_map (fun e => match e with
                     | ERun ("bash" :: _) (Some env) _ =>
                         [(env !! "NCCL_P2P_DISABLE", env !! "NCCL_IB_DISABLE")]
                     | _ => []
                     end) evs.

Example scenario_a_runs :
  exit_code (result script scenario_a) = Some 0 /\
  count is_popen (events script scenario_a) = 0%nat /\
  commands_run (events script scenario_a) =
  [pip_transformers; pip_peft;
   ["bash"; "/workspace/diffusion-pipe-working-folder/training_scripts/start_sdxl_training.sh"]] /\
  nccl_flags (events script scenario_a) = [(Some "1", Some "1")].
Proof. vm_compute. repeat split. Qed.

(** Scenario C: captions for both, no video directory, three images, and
    the user does not continue. *)
Definition scenario_c : World := quiet (machine volume ["2"; "3"; "n"] None) [].

Example scenario_c_runs :
  exit_code (result script scenario_c) = Some 0 /\
  In (EPrint "[green]✓ Found 3 images[/green]") (events script scenario_c) /\
  In (EPrint "[yellow]⚠ Video dataset folder not found: /workspace/video_dataset_here[/yellow]")
     (events script scenario_c) /\
  In (EConfirm "Continue anyway?" (Some false)) (events script scenario_c) /\
  count is_download_event (events script scenario_c) = 0%nat.
Proof.
  split; [vm_compute; reflexivity |].
  split; [vm_compute; repeat first [left; reflexivity | right] |].
  split; [vm_compute; repeat first [left; reflexivity | right] |].
  split; [vm_compute; repeat first [left; reflexivity | right] |].
  vm_compute. reflexivity.
Qed.

(** A session whose download fails, interrupted at each of its primitives
    in turn: exit code 0 every time, and 1 when left alone. *)
Definition failing_session (i : option nat) : World :=
  {| os := machine volume ["2"; "4"; "y"] (Some (40, 2)); interrupt := i; trace := [] |}.

Definition is_primitive (e : event) : bool :=
  match e with EClose _ | EProgressStop => false | _ => true end.

Example interrupt_anywhere :
  exit_code (result script (failing_session None)) = Some 1 /\
  count is_primitive (events (main_body "/workspace") (failing_session None)) = 78%nat /\
  forallb (fun n => match exit_code (result script (failing_session (Some n))) with
                    | Some 0 => true
                    | _ => false
                    end) (seq 0 78) = true.
Proof. vm_compute. repeat split. Qed.

(** * Further properties of the script *)

(** ** How a run ends *)

(** Every value [m] returns is in [ok], every exception it raises in [bad]. *)
Definition ends {A} (ok : A -> Prop) (bad : exn -> Prop) (m : M A) : Prop :=
  forall w, match result m w with
            | Ok a => ok a
            | Exc e => bad e
            | OutOfFuel | Hangs => True
            end.

Definition any {A} (a : A) : Prop := True.

Section Ends.

Context (bad : exn -> Prop).

Lemma ends_ret {A} (ok : A -> Prop) a : ok a -> ends ok bad (ret a).
Proof. intros H w. exact H. Qed.

Lemma ends_raise {A} (ok : A -> Prop) e : bad e -> ends ok bad (raise e).
Proof. intros H w. exact H. Qed.

Lemma ends_out_of_fuel {A} (ok : A -> Prop) : ends ok bad out_of_fuel.
Proof. intros w. exact I. Qed.

Lemma ends_read {A} (ok : A -> Prop) (f : OS -> A) :
  (forall o, ok (f o)) -> ends ok bad (read f).
Proof. intros H w. apply H. Qed.

Lemma ends_getitem {V} (ok : V -> Prop) (d : gmap string V) k :
  (forall v, d !! k = Some v -> ok v) -> (d !! k = None -> bad (key_error k)) ->
  ends ok bad (getitem d k).
Proof.
  intros Hv Hk w. unfold result, getitem. destruct (d !! k) as [v |]; cbn; auto.
Qed.

Lemma ends_bind {A B} (okA : A -> Prop) (okB : B -> Prop) (m : M A) (f : A -> M B) :
  ends okA bad m -> (forall a, okA a -> ends okB bad (f a)) -> ends okB bad (bind m f).
Proof.
  intros Hm Hf w. specialize (Hm w). unfold result, bind in *.
  destruct (m w) as [[a | e | |] w1]; cbn [fst] in *.
  - exact (Hf a Hm w1).
  - exact Hm.
  - exact I.
  - exact I.
Qed.

Lemma ends_syscall {A} (ok : A -> Prop) (op : OS -> event * Result A * OS) :
  (forall o, match snd (fst (op o)) with
             | Ok a => ok a
             | Exc e => bad e
             | OutOfFuel | Hangs => True
             end) ->
  bad KeyboardInterrupt -> ends ok bad (syscall op).
Proof.
  intros Hop Hint w. unfold result, syscall, perform. specialize (Hop (os w)).
  destruct (interrupt w) as [[| n] |]; cbn [fst]; try assumption;
    destruct (op (os w)) as [[e r] o]; exact Hop.
Qed.

Lemma ends_with_cleanup {A} (ok : A -> Prop) (m : M A) e :
  ends ok bad m -> ends ok bad (with_cleanup m e).
Proof.
  intros Hm w. specialize (Hm w). unfold result, with_cleanup in *.
  destruct (m w) as [r w1]. destruct r; exact Hm.
Qed.

Lemma ends_for_each {A} (l : list A) (body : A -> M unit) :
  (forall x, ends any bad (body x)) -> ends any bad (for_each l body).
Proof.
  intros H. induction l as [| x l IH]; cbn.
  - now apply ends_ret.
  - apply (ends_bind any); auto.
Qed.

End Ends.

(** Walking through a function for [ends], the values in between left
    open. *)
Ltac innermost_match :=
  match goal with
  | |- context [match ?x with _ => _ end] =>
      lazymatch x with
      | context [match _ with _ => _ end] => fail
      | _ => destruct x eqn:?
      end
  end.

Ltac ends_leaf :=
  cbn; intros; repeat (innermost_match; cbn);
  unfold any, no_process, not_found, os_error, eof_error, eof_silent, key_error;
  cbn; auto; fail.

Ltac ends_step :=
  lazymatch goal with
  | |- ends _ _ (Confirm_ask _ _) => unfold Confirm_ask
  | |- ends _ _ (bind _ _) => apply (ends_bind _ any); [| intros ? _]
  | |- ends _ _ (ret _) => apply ends_ret; first [exact I | reflexivity]
  | |- ends _ _ (sys_exit _) => apply ends_raise; ends_leaf
  | |- ends _ _ (raise _) => apply ends_raise; ends_leaf
  | |- ends _ _ out_of_fuel => apply ends_out_of_fuel
  | |- ends _ _ (read _) => apply ends_read; intros; exact I
  | |- ends _ _ (getitem _ _) => apply ends_getitem; [intros; exact I | intros; ends_leaf]
  | |- ends _ _ (syscall _) => apply ends_syscall; [ends_leaf | ends_leaf]
  | |- ends _ _ (with_cleanup _ _) => apply ends_with_cleanup
  | |- ends _ _ (for_each _ _) => apply ends_for_each
  | |- ends _ _ (match ?x with _ => _ end) => destruct x
  end.

Ltac ends_walk := open_prims; repeat (cbn beta iota zeta; intros; ends_step).

(** *** The two menus *)

Lemma read_choice_in choices default : forall lines a rest,
  read_choice choices default lines = (Some a, rest) ->
  a = default \/ In a choices.
Proof.
  induction lines as [| l lines IH]; intros a rest H; cbn in H; [discriminate |].
  destruct (l =? "")%string; [injection H as <- _; now left |].
  destruct (mem (strip l) choices) eqn:Hm; [| eauto].
  injection H as <- _. right. now apply mem_true.
Qed.

(** A line that is not empty and strips to none of the choices is refused:
    the prompt asks again. *)
Lemma read_choice_again choices default line rest :
  line <> "" -> mem (strip line) choices = false ->
  read_choice choices default (line :: rest) = read_choice choices default rest.
Proof.
  intros Hne Hm. cbn [read_choice]. apply String.eqb_neq in Hne.
  now rewrite Hne, Hm.
Qed.

(** What the prompt of a menu can raise. *)
Definition interrupt_or_eof (e : exn) : Prop :=
  e = KeyboardInterrupt \/ e = eof_error.

Lemma Prompt_ask_ends prompt choices default :
  ends (fun a => a = default \/ In a choices) interrupt_or_eof
       (Prompt_ask prompt choices default).
Proof.
  unfold Prompt_ask. apply ends_syscall; [| now left].
  intros o. destruct (read_choice choices default (stdin o)) as [[a |] rest] eqn:H; cbn.
  - eapply read_choice_in; eauto.
  - now right.
Qed.

Lemma console_ends {A} (ok : A -> Prop) (m : M unit) (f : unit -> M A) :
  ends any interrupt_or_eof m ->
  ends ok interrupt_or_eof (f tt) ->
  ends ok interrupt_or_eof (bind m f).
Proof. intros Hm Hf. apply (ends_bind _ any); [exact Hm | intros [] _; exact Hf]. Qed.

Lemma print_ends s : ends any interrupt_or_eof (console_print s).
Proof. apply ends_syscall; [intros o; exact I | now left]. Qed.

Lemma panel_ends s : ends any interrupt_or_eof (console_panel s).
Proof. apply ends_syscall; [intros o; exact I | now left]. Qed.

Lemma table_ends t rows : ends any interrupt_or_eof (console_table t rows).
Proof. apply ends_syscall; [intros o; exact I | now left]. Qed.

Definition registered_key (nv key : string) : Prop :=
  exists model, MODELS nv !! key = Some model.

Lemma show_menu_ends nv : ends (registered_key nv) interrupt_or_eof show_menu.
Proof.
  unfold show_menu.
  apply console_ends; [apply table_ends |].
  apply console_ends; [apply print_ends |].
  eapply ends_bind; [apply Prompt_ask_ends |].
  intros choice Hc.
  assert (Hin : In choice menu_choices) by (destruct Hc as [-> | Hc]; [now left | exact Hc]).
  clear Hc. cbn in Hin.
  apply ends_getitem.
  - intros key Hkey.
    repeat (destruct Hin as [<- | Hin];
            [vm_compute in Hkey; injection Hkey as <-; eexists; reflexivity |]).
    contradiction.
  - intros Hnone.
    repeat (destruct Hin as [<- | Hin]; [vm_compute in Hnone; discriminate |]).
    contradiction.
Qed.

Lemma show_menu_fueled : fueled show_menu.
Proof. unfold show_menu. walk. Qed.

Lemma show_menu_unblocked : unblocked show_menu.
Proof. unfold show_menu. walk. Qed.

Lemma show_menu_quiet o tr choice rest key :
  read_choice menu_choices "1" (stdin o) = (Some choice, rest) ->
  model_map !! choice = Some key ->
  show_menu (quiet o tr) = (Ok key, quiet (set_stdin rest o) (tr ++ menu_events choice)).
Proof.
  intros Hc Hk. unfold show_menu. qsimpl.
  erewrite bind_ok by (apply Prompt_ask_quiet; exact Hc).
  rewrite (getitem_ok _ _ _ _ Hk). unfold quiet, menu_events.
  rewrite <- !app_assoc. reflexivity.
Qed.

(** X1.  The menu and the registry agree.  Whatever the user types and
    whenever an interrupt arrives, [show_menu] returns a key of [MODELS], or
    ends with [KeyboardInterrupt] or, when the input is exhausted, with
    [EOFError]; it never raises [KeyError], and neither does the lookup
    [MODELS[model_key]] that [main] makes next.  Every entry of the registry
    has a number that selects it, and an empty line selects Flux.  A line
    is read stripped of the blanks around it; one that is not empty and is
    then none of the seven numbers, a line of blanks for one, is asked
    again. *)
Theorem show_menu_selects_registered nv :
  (forall w, match result show_menu w with
             | Ok key => exists model, MODELS nv !! key = Some model
             | Exc e => e = KeyboardInterrupt \/ e = eof_error
             | OutOfFuel | Hangs => False
             end) /\
  (forall key model,
     MODELS nv !! key = Some model ->
     exists choice,
       In choice menu_choices /\
       forall o tr rest,
         stdin o = choice :: rest ->
         show_menu (quiet o tr) =
         (Ok key, quiet (set_stdin rest o) (tr ++ menu_events choice))) /\
  (forall o tr rest,
     stdin o = "" :: rest -> result show_menu (quiet o tr) = Ok "flux") /\
  (forall line rest,
     line <> "" -> mem (strip line) menu_choices = false ->
     read_choice menu_choices "1" (line :: rest) = read_choice menu_choices "1" rest) /\
  (forall o tr choice rest key,
     read_choice menu_choices "1" (stdin o) = (Some choice, rest) ->
     model_map !! choice = Some key ->
     show_menu (quiet o tr) =
     (Ok key, quiet (set_stdin rest o) (tr ++ menu_events choice))).
Proof.
  split; [| split; [| split; [| split]]];
    [| | | intros line rest; apply read_choice_again
         | intros o tr choice rest key; apply show_menu_quiet].
  - intros w. pose proof (show_menu_ends nv w) as H.
    pose proof (show_menu_fueled w) as Hf.
    pose proof (show_menu_unblocked w) as Hu.
    destruct (result show_menu w); [exact H | exact H | contradiction | contradiction].
  - intros key model Hm. apply MODELS_inv in Hm. cbn in Hm.
    repeat (destruct Hm as [Hm | Hm];
            [ injection Hm as <- _;
              match goal with
              | |- context [Ok "flux"] => exists "1"
              | |- context [Ok "sdxl"] => exists "2"
              | |- context [Ok "wan13"] => exists "3"
              | |- context [Ok "wan14b_t2v"] => exists "4"
              | |- context [Ok "wan14b_i2v"] => exists "5"
              | |- context [Ok "qwen"] => exists "6"
              | |- context [Ok "z_image_turbo"] => exists "7"
              end;
              (split; [cbn; tauto |]);
              intros o tr rest Hin; apply show_menu_quiet;
              [rewrite Hin; reflexivity | reflexivity]
            |]).
    contradiction.
  - intros o tr rest Hin.
    assert (H : show_menu (quiet o tr) =
                (Ok "flux", quiet (set_stdin rest o) (tr ++ menu_events "1")))
      by (apply show_menu_quiet; [rewrite Hin; reflexivity | reflexivity]).
    unfold result. now rewrite H.
Qed.

(** *** The caption menu *)

Definition mode_choices : list string := ["1"; "2"; "3"; "4"].

Definition caption_events (choice : string) : list event :=
  [EPrint "";
   EPanel ("[bold]Dataset Captioning[/bold]" +:+ nl +:+ nl +:+
           "Do you want to auto-caption your dataset?");
   EPrint "";
   ETable ""
     [["1"; "Caption images only"];
      ["2"; "Caption videos only"];
      ["3"; "Caption both images and videos"];
      ["4"; "Skip captioning"]];
   EPrint "";
   EPrompt "Enter your choice" (Some choice)].

Lemma get_caption_mode_ends :
  ends (fun mode => In mode caption_modes) interrupt_or_eof get_caption_mode.
Proof.
  unfold get_caption_mode.
  apply console_ends; [apply print_ends |].
  apply console_ends; [apply panel_ends |].
  apply console_ends; [apply print_ends |].
  apply console_ends; [apply table_ends |].
  apply console_ends; [apply print_ends |].
  eapply ends_bind; [apply Prompt_ask_ends |].
  intros choice Hc.
  assert (Hin : In choice mode_choices) by (destruct Hc as [-> | Hc]; [cbn; tauto | exact Hc]).
  clear Hc. cbn in Hin.
  apply ends_getitem.
  - intros mode Hmode.
    repeat (destruct Hin as [<- | Hin];
            [vm_compute in Hmode; injection Hmode as <-; cbn; tauto |]).
    contradiction.
  - intros Hnone.
    repeat (destruct Hin as [<- | Hin]; [vm_compute in Hnone; discriminate |]).
    contradiction.
Qed.

Lemma get_caption_mode_fueled : fueled get_caption_mode.
Proof. unfold get_caption_mode. walk. Qed.

Lemma get_caption_mode_unblocked : unblocked get_caption_mode.
Proof. unfold get_caption_mode. walk. Qed.

Lemma get_caption_mode_quiet o tr choice rest mode :
  read_choice mode_choices "4" (stdin o) = (Some choice, rest) ->
  mode_map !! choice = Some mode ->
  get_caption_mode (quiet o tr) =
  (Ok mode, quiet (set_stdin rest o) (tr ++ caption_events choice)).
Proof.
  intros Hc Hk. unfold get_caption_mode. qsimpl.
  erewrite bind_ok by (apply Prompt_ask_quiet; exact Hc).
  rewrite (getitem_ok _ _ _ _ Hk). unfold quiet, caption_events.
  rewrite <- !app_assoc. reflexivity.
Qed.

(** X2.  [get_caption_mode] returns one of the four modes that
    [validate_dataset] tells apart, or ends with [KeyboardInterrupt] or
    [EOFError]; it never raises [KeyError].  Each mode can be chosen, and
    an empty line means [skip].  A line is read stripped of the blanks
    around it; one that is not empty and is then none of the four numbers
    is asked again. *)
Theorem get_caption_mode_returns_mode :
  (forall w, match result get_caption_mode w with
             | Ok mode => In mode caption_modes
             | Exc e => e = KeyboardInterrupt \/ e = eof_error
             | OutOfFuel | Hangs => False
             end) /\
  (forall mode,
     In mode caption_modes ->
     exists choice,
       forall o tr rest,
         stdin o = choice :: rest ->
         get_caption_mode (quiet o tr) =
         (Ok mode, quiet (set_stdin rest o) (tr ++ caption_events choice))) /\
  (forall o tr rest,
     stdin o = "" :: rest -> result get_caption_mode (quiet o tr) = Ok "skip") /\
  (forall line rest,
     line <> "" -> mem (strip line) mode_choices = false ->
     read_choice mode_choices "4" (line :: rest) = read_choice mode_choices "4" rest) /\
  (forall o tr choice rest mode,
     read_choice mode_choices "4" (stdin o) = (Some choice, rest) ->
     mode_map !! choice = Some mode ->
     get_caption_mode (quiet o tr) =
     (Ok mode, quiet (set_stdin rest o) (tr ++ caption_events choice))).
Proof.
  split; [| split; [| split; [| split]]];
    [| | | intros line rest; apply read_choice_again
         | intros o tr choice rest mode; apply get_caption_mode_quiet].
  - intros w. pose proof (get_caption_mode_ends w) as H.
    pose proof (get_caption_mode_fueled w) as Hf.
    pose proof (get_caption_mode_unblocked w) as Hu.
    destruct (result get_caption_mode w); [exact H | exact H | contradiction | contradiction].
  - intros mode Hm. cbn in Hm.
    repeat (destruct Hm as [<- | Hm];
            [ match goal with
              | |- context [Ok "images"] => exists "1"
              | |- context [Ok "videos"] => exists "2"
              | |- context [Ok "both"] => exists "3"
              | |- context [Ok "skip"] => exists "4"
              end;
              intros o tr rest Hin; apply get_caption_mode_quiet;
              [rewrite Hin; reflexivity | reflexivity]
            |]).
    contradiction.
  - intros o tr rest Hin.
    assert (H : get_caption_mode (quiet o tr) =
                (Ok "skip", quiet (set_stdin rest o) (tr ++ caption_events "4")))
      by (apply get_caption_mode_quiet; [rewrite Hin; reflexivity | reflexivity]).
    unfold result. now rewrite H.
Qed.

(** *** The exit status of a session *)





(** *** Waiting for a command *)




















(** *** What the validation leaves as it was *)

Definition exits_0 (e : exn) : Prop :=
  match e with
  | SystemExit c => c = 0
  | _ => True
  end.

Lemma validate_dataset_ends nv mode :
  ends (fun b => b = true) exits_0 (validate_dataset nv mode).
Proof. unfold validate_dataset. ends_walk. Qed.

Lemma validate_dataset_fueled nv mode : fueled (validate_dataset nv mode).
Proof. unfold validate_dataset. walk. Qed.

Lemma validate_dataset_unblocked nv mode : unblocked (validate_dataset nv mode).
Proof. unfold validate_dataset. walk. Qed.

(** Everything but the unread input. *)
Definition but_stdin (o : OS) : OS := set_stdin [] o.

Lemma validate_dataset_reads_only nv mode o0 :
  keeps (fun o => but_stdin o = but_stdin o0) (validate_dataset nv mode).
Proof. unfold validate_dataset, but_stdin. walk. Qed.

(** X4.  [validate_dataset] never returns [False]: it returns [True], or
    ends the process with [sys.exit(0)] and no other code, or with an
    exception.  It changes nothing: the file system, the environment, the
    working directory and the clock are after it what they were before. *)
Theorem validate_dataset_true_or_exit nv mode w :
  match result (validate_dataset nv mode) w with
  | Ok b => b = true
  | Exc (SystemExit c) => c = 0
  | Exc _ => True
  | OutOfFuel | Hangs => False
  end /\
  fs (os (final (validate_dataset nv mode) w)) = fs (os w) /\
  environ (os (final (validate_dataset nv mode) w)) = environ (os w) /\
  cwd (os (final (validate_dataset nv mode) w)) = cwd (os w) /\
  now (os (final (validate_dataset nv mode) w)) = now (os w) /\
  proc (os (final (validate_dataset nv mode) w)) = proc (os w).
Proof.
  split.
  - pose proof (validate_dataset_ends nv mode w) as H.
    pose proof (validate_dataset_fueled nv mode w) as Hf.
    pose proof (validate_dataset_unblocked nv mode w) as Hu.
    destruct (result (validate_dataset nv mode) w) as [b | [c | | cls msg] | |];
      first [exact H | exact I | contradiction].
  - pose proof (validate_dataset_reads_only nv mode (os w) w eq_refl) as H.
    unfold but_stdin in H.
    repeat split.
    + exact (f_equal fs H).
    + exact (f_equal environ H).
    + exact (f_equal cwd H).
    + exact (f_equal now H).
    + exact (f_equal proc H).
Qed.

(** ** Budgets *)

(** What the events of a run add up to, each counted with its weight. *)
Fixpoint spent (weight : event -> Z) (evs : list event) : Z :=
  match evs with
  | [] => 0
  | e :: rest => weight e + spent weight rest
  end.

Lemma spent_app weight e1 e2 :
  spent weight (e1 ++ e2) = spent weight e1 + spent weight e2.
Proof. induction e1 as [| e e1 IH]; cbn [spent app]; lia. Qed.

Definition indicator (P : event -> bool) (e : event) : Z := if P e then 1 else 0.

Lemma spent_indicator P evs : spent (indicator P) evs = Z.of_nat (count P evs).
Proof.
  unfold count. induction evs as [| e evs IH]; [reflexivity |].
  cbn [spent List.filter]. unfold indicator at 1. destruct (P e); cbn [length]; lia.
Qed.

Section Paced.

Context (weight : event -> Z) (last : event -> bool).

(** An event that counts, or that may only come last. *)
Definition heavy (e : event) : bool := negb (weight e =? 0) || last e.

Definition weighs (e : event) : bool := negb (weight e =? 0).

(** The run spends at most [b]; when an event in [last] happens, it has
    spent [b] exactly. *)
Definition paced {A} (b : Z) (m : M A) : Prop :=
  forall w, exists evs,
    trace (final m w) = trace w ++ evs /\
    spent weight evs <= b /\
    (existsb last evs = true -> spent weight evs = b).

Lemma weightless evs : existsb weighs evs = false -> spent weight evs = 0.
Proof.
  induction evs as [| e evs IH]; [reflexivity |]. cbn [existsb spent].
  intros H. apply orb_false_iff in H as [He H]. unfold weighs in He.
  apply negb_false_iff, Z.eqb_eq in He. rewrite He, (IH H). reflexivity.
Qed.

Lemma light evs :
  existsb heavy evs = false -> spent weight evs = 0 /\ existsb last evs = false.
Proof.
  induction evs as [| e evs IH]; [split; reflexivity |]. cbn [existsb spent].
  intros H. apply orb_false_iff in H as [He H]. unfold heavy in He.
  apply orb_false_iff in He as [Hw Hl].
  apply negb_false_iff, Z.eqb_eq in Hw. destruct (IH H) as [-> ->].
  rewrite Hw, Hl. split; reflexivity.
Qed.

Lemma light_run {A} (m : M A) w :
  triggers heavy nothing m ->
  exists evs, trace (final m w) = trace w ++ evs /\
              spent weight evs = 0 /\ existsb last evs = false.
Proof.
  intros Hm. pose proof (triggers_none _ m w Hm) as Hno.
  destruct (Hm w) as (evs & He & _). rewrite (events_final _ _ _ He) in Hno.
  exists evs. split; [exact He | now apply light].
Qed.

Lemma paced_light {A} b (m : M A) : 0 <= b -> triggers heavy nothing m -> paced b m.
Proof.
  intros Hb Hm w. destruct (light_run m w Hm) as (evs & He & Hs & Hl).
  exists evs. split; [exact He |]. split; [lia | congruence].
Qed.

Lemma paced_still {A} (m : M A) : triggers weighs nothing m -> paced 0 m.
Proof.
  intros Hm w. pose proof (triggers_none _ m w Hm) as Hno.
  destruct (Hm w) as (evs & He & _). rewrite (events_final _ _ _ He) in Hno.
  exists evs. split; [exact He |]. rewrite (weightless _ Hno). split; [lia | reflexivity].
Qed.

Lemma paced_bind_l {A B} b (m : M A) (f : A -> M B) :
  triggers heavy nothing m -> (forall a, paced b (f a)) -> 0 <= b -> paced b (bind m f).
Proof.
  intros Hm Hf Hb w. destruct (light_run m w Hm) as (e1 & He1 & Hs1 & Hl1).
  unfold final, bind in *. destruct (m w) as [[a | x | |] w1]; cbn [snd] in *.
  - destruct (Hf a w1) as (e2 & He2 & Hs2 & Hl2). unfold final in He2.
    exists (e1 ++ e2). rewrite He2, He1, app_assoc. split; [reflexivity |].
    rewrite spent_app, existsb_app, Hs1, Hl1. cbn [orb]. split; [lia |].
    intros H. rewrite (Hl2 H). lia.
  - exists e1. split; [exact He1 |]. split; [lia | congruence].
  - exists e1. split; [exact He1 |]. split; [lia | congruence].
  - exists e1. split; [exact He1 |]. split; [lia | congruence].
Qed.

Lemma paced_bind_r {A B} b (m : M A) (f : A -> M B) :
  paced b m -> (forall a, triggers heavy nothing (f a)) -> paced b (bind m f).
Proof.
  intros Hm Hf w. destruct (Hm w) as (e1 & He1 & Hs1 & Hl1).
  unfold final, bind in *. destruct (m w) as [[a | x | |] w1]; cbn [snd] in *.
  - destruct (light_run (f a) w1 (Hf a)) as (e2 & He2 & Hs2 & Hl2). unfold final in He2.
    exists (e1 ++ e2). rewrite He2, He1, app_assoc. split; [reflexivity |].
    rewrite spent_app, existsb_app, Hs2, Hl2, orb_false_r. split; [lia |].
    intros H. rewrite (Hl1 H). lia.
  - exists e1. auto.
  - exists e1. auto.
  - exists e1. auto.
Qed.

Lemma paced_with_cleanup {A} b (m : M A) e :
  heavy e = false -> paced b m -> paced b (with_cleanup m e).
Proof.
  intros He Hm w. destruct (Hm w) as (e1 & He1 & Hs1 & Hl1).
  unfold heavy in He. apply orb_false_iff in He as [Hw Hl].
  apply negb_false_iff, Z.eqb_eq in Hw.
  unfold final, with_cleanup in *. destruct (m w) as [r w1]. cbn [snd trace] in *.
  destruct r; cbn [snd trace]; [exists (e1 ++ [e]) .. | exists e1; auto];
    (rewrite He1, app_assoc; split; [reflexivity |]);
    rewrite spent_app, existsb_app; cbn [spent existsb]; rewrite Hw, Hl, !orb_false_r;
    (split; [lia |]); intros H; rewrite (Hl1 H); lia.
Qed.

(** A primitive whose event weighs [s], and then the rest. *)
Lemma paced_step {A B} s b (op : OS -> event * Result A * OS) (f : A -> M B) :
  (forall o, weight (fst (fst (op o))) = s /\ last (fst (fst (op o))) = false) ->
  heavy EInterrupt = false -> 0 <= s -> 0 <= b ->
  (forall a, paced b (f a)) ->
  paced (s + b) (bind (syscall op) f).
Proof.
  intros Hop Hint Hs Hb Hf w. unfold heavy in Hint.
  apply orb_false_iff in Hint as [Hw Hl]. apply negb_false_iff, Z.eqb_eq in Hw.
  specialize (Hop (os w)). unfold final, bind, syscall, perform.
  assert (Hrun : forall i, exists evs,
            trace (snd (match (let '(e, r, o) := op (os w) in
                               (r, {| os := o; interrupt := i; trace := trace w ++ [e] |}))
                        with
                        | (Ok a, w') => f a w'
                        | (Exc e, w') => (Exc e, w')
                        | (OutOfFuel, w') => (OutOfFuel, w')
                        | (Hangs, w') => (Hangs, w')
                        end)) = trace w ++ evs /\
            spent weight evs <= s + b /\
            (existsb last evs = true -> spent weight evs = s + b)).
  { intros i. destruct (op (os w)) as [[e r] o]. cbn [fst] in Hop.
    destruct Hop as [Hwe Hle]. destruct r as [a | x | |]; cbn [snd trace].
    - match goal with |- context [f a ?w1] => destruct (Hf a w1) as (e2 & He2 & Hs2 & Hl2) end.
      unfold final in He2. exists (e :: e2). rewrite He2. cbn [trace].
      rewrite <- app_assoc. split; [reflexivity |]. cbn [spent existsb].
      rewrite Hwe, Hle. cbn [orb]. split; [lia |]. intros H. rewrite (Hl2 H). reflexivity.
    - exists [e]. split; [reflexivity |]. cbn [spent existsb]. rewrite Hwe, Hle.
      split; [lia | discriminate].
    - exists [e]. split; [reflexivity |]. cbn [spent existsb]. rewrite Hwe, Hle.
      split; [lia | discriminate].
    - exists [e]. split; [reflexivity |]. cbn [spent existsb]. rewrite Hwe, Hle.
      split; [lia | discriminate]. }
  destruct (interrupt w) as [[| n] |]; [| apply Hrun | apply Hrun].
  exists [EInterrupt]. cbn [snd trace]. split; [reflexivity |].
  cbn [spent existsb]. rewrite Hw, Hl. split; [lia | discriminate].
Qed.

Lemma paced_syscall {A} s (op : OS -> event * Result A * OS) :
  (forall o, weight (fst (fst (op o))) = s /\ last (fst (fst (op o))) = false) ->
  heavy EInterrupt = false -> 0 <= s ->
  paced s (syscall op).
Proof.
  intros Hop Hint Hs w.
  destruct (paced_step s 0 op ret Hop Hint Hs (Z.le_refl 0)
              (fun a => paced_light 0 (ret a) (Z.le_refl 0) (triggers_ret _ _ a)) w)
    as (evs & He & Hb).
  exists evs. rewrite Z.add_0_r in Hb. split; [| exact Hb].
  rewrite <- He. unfold final, bind, ret.
  destruct (syscall op w) as [[a | x | |] w1]; reflexivity.
Qed.

Lemma paced_try_except {A} b (m h1 : M A) (h2 : string -> M A) :
  paced b m -> triggers heavy nothing h1 -> (forall msg, triggers heavy nothing (h2 msg)) ->
  paced b (try_except m h1 h2).
Proof.
  intros Hm H1 H2 w. destruct (Hm w) as (e1 & He1 & Hs1 & Hl1).
  assert (Hh : forall h : M A, triggers heavy nothing h ->
            exists evs, trace (snd (h (snd (m w)))) = trace w ++ evs /\
                        spent weight evs <= b /\
                        (existsb last evs = true -> spent weight evs = b)).
  { intros h Hh. destruct (light_run h (final m w) Hh) as (e2 & He2 & Hs2 & Hl2).
    unfold final in *. exists (e1 ++ e2). rewrite He2, He1, app_assoc.
    split; [reflexivity |].
    rewrite spent_app, existsb_app, Hs2, Hl2, orb_false_r. split; [lia |].
    intros H. rewrite (Hl1 H). lia. }
  unfold final, try_except in *.
  destruct (m w) as [[a | [c | | cls msg] | |] w1]; cbn [snd] in *;
    first [ exists e1; split; [exact He1 | split; assumption]
          | apply Hh; auto ].
Qed.

End Paced.

(** *** One fetch, one training command *)

(** The loop emits nothing but polls, sleeps, progress updates, the
    timeout line and the kill. *)
Lemma poll_loop_without (T : event -> bool) fuel : forall elapsed,
  T EInterrupt = false ->
  (forall st, T (EPoll st) = false) ->
  (forall s, T (ESleep s) = false) ->
  T EProgressUpdate = false ->
  (forall s, T (EPrint s) = false) ->
  T EKill = false ->
  triggers T nothing (poll_loop fuel elapsed).
Proof.
  intros elapsed Hi Hp Hs Hu Hpr Hk. revert elapsed.
  induction fuel as [| fuel IH]; intros elapsed; cbn [poll_loop].
  - apply triggers_out_of_fuel.
  - unfold process_poll, time_sleep, progress_update, console_print, process_kill.
    apply triggers_bind.
    { apply triggers_syscall; [| congruence]. intros o. destruct (proc o); cbn; congruence. }
    intros [rc |]; [apply triggers_ret |].
    apply triggers_bind; [apply triggers_syscall; cbn; intros; congruence |]. intros _.
    apply triggers_bind; [apply triggers_syscall; cbn; intros; congruence |]. intros _.
    destruct (elapsed + 3 >=? timeout); [| apply IH].
    apply triggers_bind; [apply triggers_syscall; cbn; intros; congruence |]. intros _.
    apply triggers_bind; [| intros; apply triggers_ret].
    apply triggers_syscall; [| congruence]. intros o. destruct (proc o); cbn; congruence.
Qed.

Lemma download_model_one_fetch nv key token :
  paced (indicator is_popen) no_event 1 (download_model nv key token).
Proof.
  unfold download_model, download_model_fuel.
  repeat first [ apply paced_bind_l; [solve [walk] | intros | lia]
               | match goal with |- paced _ _ _ (match ?x with _ => _ end) => destruct x end ].
  - apply paced_light; [lia | walk].
  - apply paced_bind_r.
    + unfold with_open_w. apply paced_bind_l; [walk | intros | lia].
      apply paced_with_cleanup; [reflexivity |].
      unfold subprocess_Popen. apply paced_syscall; [| reflexivity | lia].
      intros o. repeat case_match; split; reflexivity.
    + intros _. walk. apply poll_loop_without; reflexivity.
Qed.

Ltac pace :=
  repeat first
    [ lazymatch goal with |- paced _ _ _ (bind _ _) => idtac end;
      apply paced_bind_l;
      [ first [ solve [walk]
              | solve [unfold download_model, download_model_fuel; walk;
                       apply poll_loop_without; reflexivity] ]
      | intros | first [lia | unfold timeout; lia] ]
    | match goal with
      | |- paced _ _ _ (match ?x with _ => _ end) => destruct x
      end ].

Lemma main_one_fetch nv : paced (indicator is_popen) no_event 1 (main nv).
Proof.
  unfold main, on_keyboard_interrupt, on_exception.
  apply paced_try_except; [| walk | intros msg; walk].
  unfold main_body, show_welcome, show_menu, get_api_token, get_caption_mode,
    validate_dataset.
  pace; try (apply paced_light; [lia | solve [walk]]).
  all: apply paced_bind_r; [apply download_model_one_fetch |].
  all: intros ok; unfold launch_training; walk.
Qed.

Lemma launch_training_one_command nv key :
  paced (indicator is_training) no_event 1 (launch_training nv key).
Proof.
  unfold launch_training. pace; try (apply paced_light; [lia | solve [walk]]).
  all: apply paced_bind_r; [| intros; walk].
  all: pace; try (apply paced_light; [lia | solve [walk]]).
  all: apply paced_bind_r; [| intros; walk].
  all: unfold subprocess_run; apply paced_syscall; [| reflexivity | lia].
  all: intros o; repeat case_match; split; reflexivity.
Qed.

Lemma main_one_command nv : paced (indicator is_training) no_event 1 (main nv).
Proof.
  unfold main, on_keyboard_interrupt, on_exception.
  apply paced_try_except; [| walk | intros msg; walk].
  unfold main_body, show_welcome, show_menu, get_api_token, get_caption_mode,
    validate_dataset.
  pace; try (apply paced_light; [lia | solve [walk]]).
  all: apply launch_training_one_command.
Qed.

Lemma paced_count {A} P (m : M A) w :
  paced (indicator P) no_event 1 m -> (count P (events m w) <= 1)%nat.
Proof.
  intros Hm. destruct (Hm w) as (evs & He & Hs & _).
  rewrite (events_final _ _ _ He). rewrite spent_indicator in Hs. lia.
Qed.

(** X5.  Nothing is retried.  In every run of a session, whatever fails and
    whenever an interrupt arrives, at most one fetch process is spawned and
    at most one training command is run; one call of [download_model] spawns
    at most one process. *)
Theorem session_spawns_once nv w :
  (count is_popen (events (main nv) w) <= 1)%nat /\
  (count is_training (events (main nv) w) <= 1)%nat /\
  (forall key token w',
     (count is_popen (events (download_model nv key token) w') <= 1)%nat).
Proof.
  split; [| split].
  - apply paced_count, main_one_fetch.
  - apply paced_count, main_one_command.
  - intros key token w'. apply paced_count, download_model_one_fetch.
Qed.

(** *** The ceiling on the wait *)

Definition sleep_seconds (e : event) : Z :=
  match e with ESleep s => s | _ => 0 end.

Definition is_kill (e : event) : bool :=
  match e with EKill => true | _ => false end.

(** With [3 * n] seconds left under the ceiling the loop sleeps no longer,
    and it kills the fetch only when it has slept them all. *)
Lemma poll_loop_paced fuel : forall elapsed n,
  timeout - elapsed = 3 * n -> 0 < n ->
  paced sleep_seconds is_kill (3 * n) (poll_loop fuel elapsed).
Proof.
  induction fuel as [| fuel IH]; intros elapsed n Hn Hpos; cbn [poll_loop].
  - apply paced_light; [lia | apply triggers_out_of_fuel].
  - apply paced_bind_l; [walk | | lia].
    intros [rc |]; [apply paced_light; [lia | apply triggers_ret] |].
    replace (3 * n) with (3 + 3 * (n - 1)) by lia.
    unfold time_sleep. apply paced_step; [| reflexivity | lia | lia |].
    { intros o. split; reflexivity. }
    intros _. apply paced_bind_l; [walk | | lia]. intros _.
    destruct (Z.geb_spec (elapsed + 3) timeout) as [Hge | Hlt].
    + replace (3 * (n - 1)) with 0 by lia. apply paced_still. walk.
    + apply IH; lia.
Qed.

Lemma download_model_paced nv key token :
  paced sleep_seconds is_kill timeout (download_model nv key token).
Proof.
  unfold download_model, download_model_fuel.
  pace; try (apply paced_light; [unfold timeout; lia | solve [walk]]).
  all: apply paced_bind_r; [| intros; walk].
  all: unfold with_progress; apply paced_bind_l; [walk | intros | unfold timeout; lia].
  all: apply paced_with_cleanup; [reflexivity |].
  all: change timeout with (3 * 3600); apply poll_loop_paced; unfold timeout; lia.
Qed.


(** X6.  The ceiling holds in every run.  Whatever the fetch does and
    whenever an interrupt arrives, [download_model] sleeps 10800 seconds at
    most, all of them in the polling loop; and it kills the fetch process
    only when it has slept them all, never earlier. *)
Theorem download_model_ceiling nv key token w :
  spent sleep_seconds (events (download_model nv key token) w) <= 10800 /\
  (existsb is_kill (events (download_model nv key token) w) = false \/
   spent sleep_seconds (events (download_model nv key token) w) = 10800).
Proof.
  destruct (download_model_paced nv key token w) as (evs & He & Hs & Hk).
  rewrite (events_final _ _ _ He). split; [exact Hs |].
  destruct (existsb is_kill evs); [right; now apply Hk | now left].
Qed.

(** ** Where a successful download comes from *)

(** The two events after which [download_model] may return [True]: the
    user keeps the model that is there, or [poll] finds exit code 0. *)
Definition download_succeeded (e : event) : bool :=
  match e with
  | EConfirm prompt (Some true) => (prompt =? "Skip download?")%string
  | EPoll (Some 0) => true
  | _ => false
  end.

(** [m] returns [True] only after an event in [G]. *)
Definition vouched (G : event -> bool) (m : M bool) : Prop :=
  forall w, result m w = Ok true -> existsb G (events m w) = true.

Lemma bind_returns {A B} (m : M A) (f : A -> M B) w b :
  extends m -> (forall a, extends (f a)) ->
  result (bind m f) w = Ok b ->
  exists a,
    result m w = Ok a /\
    result (f a) (final m w) = Ok b /\
    events (bind m f) w = events m w ++ events (f a) (final m w).
Proof.
  intros Hm Hf Hr. pose proof (events_bind m f w Hm Hf) as He.
  unfold result, final, bind in *.
  destruct (m w) as [[a | x | |] w1]; cbn [fst snd] in *; try discriminate.
  exists a. auto.
Qed.

Lemma vouched_bind {A} G (m : M A) (f : A -> M bool) :
  extends m -> (forall a, extends (f a)) -> (forall a, vouched G (f a)) ->
  vouched G (bind m f).
Proof.
  intros Hm Hf Hv w Hr.
  destruct (bind_returns m f w true Hm Hf Hr) as (a & _ & Hra & ->).
  rewrite existsb_app, (Hv a _ Hra). apply orb_true_r.
Qed.

Lemma skip_check_accepts model : vouched download_succeeded (skip_check model).
Proof.
  intros w. unfold skip_check. destruct (truthy (model_file model)) as [file |];
    [| discriminate].
  unfold result, events, final, bind, os_path_exists, console_print, Confirm_ask,
    syscall, perform.
  destruct (interrupt w) as [[| [| [| [| n]]]] |]; cbn; try discriminate;
    (destruct (is_some (fs (os w) (os_path_join (local_dir model) file)));
     cbn; try discriminate);
    try (destruct (read_confirm true (stdin (os w))) as [[[|] |] rest];
         cbn; try discriminate);
    intros _; rewrite <- ?app_assoc, drop_app_length; cbn;
    rewrite ?orb_true_r; reflexivity.
Qed.

(** What the loop has seen when it ends. *)
Definition seen (r : Result (option bool)) (evs : list event) (o : OS) : Prop :=
  match r with
  | Ok None =>
      exists rc p, proc o = Some p /\ returncode p = Some rc /\ In (EPoll (Some rc)) evs
  | Ok (Some b) => b = false
  | _ => True
  end.

Lemma seen_later r e1 e2 o : seen r e2 o -> seen r (e1 ++ e2) o.
Proof.
  destruct r as [[b |] | x | |]; cbn; auto.
  intros (rc & p & Hp & Hrc & Hin). exists rc, p. rewrite in_app_iff. auto.
Qed.

Lemma seen_earlier r e1 e2 o : seen r e1 o -> seen r (e1 ++ e2) o.
Proof.
  destruct r as [[b |] | x | |]; cbn; auto.
  intros (rc & p & Hp & Hrc & Hin). exists rc, p. rewrite in_app_iff. auto.
Qed.

Lemma poll_loop_seen fuel : forall elapsed w,
  exists evs,
    trace (final (poll_loop fuel elapsed) w) = trace w ++ evs /\
    seen (result (poll_loop fuel elapsed) w) evs (os (final (poll_loop fuel elapsed) w)).
Proof.
  induction fuel as [| fuel IH]; intros elapsed w.
  - exists []. cbn. rewrite app_nil_r. split; [reflexivity | exact I].
  - cbn [poll_loop].
    unfold result, final, bind, process_poll, time_sleep, progress_update,
      console_print, process_kill, syscall, perform.
    destruct (interrupt w) as [[| [| [| [| [| n]]]]] |]; cbn [interrupt os trace fst snd];
      try (exists [EInterrupt]; split; [reflexivity | exact I]);
      (destruct (proc (os w)) as [p |] eqn:Hp; cbn [interrupt os trace fst snd];
       [| exists [EPoll None]; split; [reflexivity | exact I]]);
      (destruct (exit_status_at (os w) p) as [rc |] eqn:Hst; cbn [interrupt os trace fst snd ret];
       [ exists [EPoll (Some rc)]; split; [reflexivity |];
         exists rc; eexists; split; [reflexivity |]; split; [reflexivity | now left] |]);
      try (eexists; split; [rewrite <- ?app_assoc; reflexivity | exact I]);
      (destruct (elapsed + 3 >=? timeout); cbn [interrupt os trace fst snd ret proc set_now set_proc];
       try rewrite Hp; cbn [interrupt os trace fst snd ret];
       try (eexists; split; [rewrite <- ?app_assoc; reflexivity | first [exact I | reflexivity]]));
      match goal with
      | |- context [poll_loop fuel ?e ?w1] =>
          destruct (IH e w1) as (evs & He & Hs); unfold result, final in He, Hs;
          destruct (poll_loop fuel e w1) as [r w2]; cbn [fst snd trace] in *;
          exists ([EPoll None; ESleep 3; EProgressUpdate] ++ evs);
          split; [rewrite He, <- !app_assoc; reflexivity | now apply seen_later]
      end.
Qed.

Lemma with_progress_seen fuel elapsed w :
  exists evs,
    trace (final (with_progress (poll_loop fuel elapsed)) w) = trace w ++ evs /\
    seen (result (with_progress (poll_loop fuel elapsed)) w) evs
         (os (final (with_progress (poll_loop fuel elapsed)) w)).
Proof.
  unfold with_progress, result, final, bind, with_cleanup, progress_start, syscall, perform.
  destruct (interrupt w) as [[| n] |]; cbn [interrupt os trace fst snd];
    try (exists [EInterrupt]; split; [reflexivity | exact I]);
    match goal with
    | |- context [poll_loop fuel elapsed ?w1] =>
        destruct (poll_loop_seen fuel elapsed w1) as (evs & He & Hs);
        unfold result, final in He, Hs;
        destruct (poll_loop fuel elapsed w1) as [r w2]; cbn [fst snd trace os] in *;
        destruct r; cbn [fst snd trace os];
        [ exists ([EProgressStart] ++ evs ++ [EProgressStop]) ..
        | exists ([EProgressStart] ++ evs) ];
        (split; [ rewrite He, <- !app_assoc; reflexivity
                | first [now apply seen_later, seen_earlier | exact I] ])
    end.
Qed.

Lemma after_loop_true nv w :
  result (after_loop nv None) w = Ok true ->
  exists p, proc (os w) = Some p /\ returncode p = Some 0.
Proof.
  unfold after_loop, result, bind, process_returncode, read, console_print, syscall, perform.
  cbn [fst]. destruct (proc (os w)) as [p |]; cbn.
  - destruct (returncode p) as [[| c | c] |] eqn:Hrc; cbn;
      destruct (interrupt w) as [[| [| n]] |]; cbn; try discriminate; eauto.
  - destruct (interrupt w) as [[| [| n]] |]; cbn; discriminate.
Qed.

Lemma after_loop_extends nv returned : extends (after_loop nv returned).
Proof. unfold extends, after_loop. walk. Qed.

Lemma with_progress_extends fuel elapsed : extends (with_progress (poll_loop fuel elapsed)).
Proof. unfold extends. walk. apply poll_loop_extends. Qed.

Lemma fetch_vouched nv fuel model token :
  vouched download_succeeded (fetch nv fuel model token).
Proof.
  unfold fetch.
  do 4 (apply vouched_bind;
        [ unfold extends; walk
        | intros; unfold extends, after_loop; walk; apply poll_loop_extends
        | intros _ ]).
  intros w Hr.
  destruct (bind_returns (with_progress (poll_loop fuel 0))
              (fun returned => after_loop nv returned) w true
              (with_progress_extends fuel 0) (after_loop_extends nv) Hr)
    as (returned & Hret & Hafter & ->).
  destruct (with_progress_seen fuel 0 w) as (evs & He & Hs).
  rewrite (events_final _ _ _ He), Hret in *.
  destruct returned as [b |]; cbn [seen] in Hs.
  - subst b. discriminate.
  - destruct Hs as (rc & p & Hp & Hrc & Hin).
    destruct (after_loop_true nv _ Hafter) as (p' & Hp' & Hrc').
    assert (rc = 0) by congruence. subst rc.
    rewrite existsb_app. apply orb_true_iff. left.
    apply existsb_exists. exists (EPoll (Some 0)). split; [exact Hin | reflexivity].
Qed.

Lemma skip_check_extends model : extends (skip_check model).
Proof. unfold extends, skip_check. walk. Qed.

Lemma download_model_vouched nv key token :
  vouched download_succeeded (download_model nv key token).
Proof.
  unfold download_model. rewrite download_model_fuel_eq.
  do 5 (apply vouched_bind;
        [ unfold extends; walk
        | intros; unfold extends; walk;
          first [apply skip_check_extends | apply fetch_extends]
        | intros ]).
  intros w Hr.
  assert (Hrest : forall skipped : bool,
            extends (if skipped then ret true else fetch nv (Z.to_nat timeout) a token)).
  { intros [|]; [apply triggers_ret | apply fetch_extends]. }
  destruct (bind_returns _ _ w true (skip_check_extends a) Hrest Hr)
    as (skipped & Hsk & Hafter & ->).
  rewrite existsb_app. apply orb_true_iff. destruct skipped.
  - left. now apply skip_check_accepts.
  - right. now apply fetch_vouched.
Qed.

(** X7.  [download_model] returns [True] for two reasons only.  In every
    run that returns [True], the user has accepted "Skip download?" or a
    [poll] has found the fetch process ended with exit code 0; no
    interrupt, failure or timeout leads to [True]. *)
Theorem download_model_true_only_after_success nv key token w :
  result (download_model nv key token) w = Ok true ->
  In (EConfirm "Skip download?" (Some true)) (events (download_model nv key token) w) \/
  In (EPoll (Some 0)) (events (download_model nv key token) w).
Proof.
  intros Hr. apply download_model_vouched in Hr.
  apply existsb_exists in Hr as (e & Hin & He).
  destruct e as [| | | | | | prompt [[|] |] | | | | | | | [[| c | c] |] | | | | | | | | |];
    try discriminate.
  - cbn in He. apply String.eqb_eq in He. subst. now left.
  - now right.
Qed.

(** *** Commands run only after the download *)

Definition is_run (e : event) : bool :=
  match e with ERun _ _ _ => true | _ => false end.

Lemma precedes_app P Q e1 e2 :
  precedes P Q e1 -> existsb Q e2 = false -> precedes P Q (e1 ++ e2).
Proof.
  intros H1 H2 pre e post Heq HQ.
  apply app_eq_app in Heq as (l & [[-> Hl] | [-> Hl]]).
  - destruct l as [| x l].
    + cbn in Hl. subst e2. cbn in H2. rewrite HQ in H2. discriminate.
    + injection Hl as <- ->. eapply H1; [reflexivity | exact HQ].
  - subst e2. rewrite existsb_app in H2. cbn in H2. rewrite HQ, orb_true_r in H2.
    discriminate.
Qed.

(** [m] emits nothing in [Q]; when it returns, an event in [P] has
    happened or the rest emits nothing in [Q]. *)
Lemma precedes_bind_branch {A B} P Q (m : M A) (f : A -> M B) w :
  triggers Q nothing m -> (forall a, extends (f a)) ->
  (forall a, result m w = Ok a ->
     existsb P (events m w) = true \/ existsb Q (events (f a) (final m w)) = false) ->
  precedes P Q (events (bind m f) w).
Proof.
  intros Hm Hf Hp pre e post Heq HQ.
  rewrite (events_bind m f w (triggers_extends _ _ _ Hm) Hf) in Heq.
  apply (split_after Q) in Heq as (pre2 & -> & Heq);
    [| now apply triggers_none | exact HQ].
  rewrite existsb_app. apply orb_true_iff. left.
  destruct (result m w) as [a | x | |].
  - destruct (Hp a eq_refl) as [H | H]; [exact H |].
    rewrite Heq, existsb_app in H. cbn in H. rewrite HQ, orb_true_r in H. discriminate.
  - destruct pre2; discriminate.
  - destruct pre2; discriminate.
  - destruct pre2; discriminate.
Qed.

Lemma download_model_runs_nothing nv key token :
  triggers is_run nothing (download_model nv key token).
Proof.
  unfold download_model, download_model_fuel. walk.
  apply poll_loop_without; reflexivity.
Qed.

Lemma launch_training_extends nv key : extends (launch_training nv key).
Proof. unfold extends, launch_training. walk. Qed.

Lemma download_model_extends nv key token : extends (download_model nv key token).
Proof. exact (triggers_extends _ _ _ (download_model_runs_nothing nv key token)). Qed.

Lemma failed_download_runs_nothing {A} s (k : unit -> M A) w :
  existsb is_run (events (bind (console_print s ;; sys_exit 1) k) w) = false.
Proof.
  unfold events, final, bind, console_print, sys_exit, raise, syscall, perform.
  destruct (interrupt w) as [[| n] |]; cbn; rewrite drop_app_length; reflexivity.
Qed.

Lemma main_body_order nv : forall w,
  precedes download_succeeded is_run (events (main_body nv) w).
Proof.
  unfold main_body, show_welcome, show_menu, get_api_token, get_caption_mode,
    validate_dataset.
  do 12 (intros ?; apply precedes_bind_pass;
         [ solve [walk]
         | intros; unfold extends; walk; intros;
           first [apply download_model_extends | apply launch_training_extends]
         | intros ? ]).
  intros wd. apply precedes_bind_branch.
  - apply download_model_runs_nothing.
  - intros ok. unfold extends. walk; intros; apply launch_training_extends.
  - intros [|] Hr.
    + left. now apply download_model_vouched.
    + right. cbn [negb]. apply failed_download_runs_nothing.
Qed.

(** X8.  No command before the weights are there.  In every run of a
    session, each command the script runs, the two [pip] upgrades and the
    training command, comes after the user has accepted "Skip download?" or
    after a [poll] that found the fetch ended with exit code 0. *)
Theorem main_runs_after_download nv w :
  precedes download_succeeded is_run (events (main nv) w).
Proof.
  unfold main.
  rewrite try_except_events;
    [| apply main_body_extends
     | unfold extends, on_keyboard_interrupt; walk
     | intros msg; unfold extends, on_exception; walk ].
  apply precedes_app; [apply main_body_order |].
  destruct (result (main_body nv) w) as [a | [c | | cls msg] | |]; try reflexivity;
    apply triggers_none; unfold on_keyboard_interrupt, on_exception; walk.
Qed.

(** ** A volume that was not set up *)

Definition launch_banner (model : Model) : list event :=
  [EPrint "";
   EPanel ("[bold green]Starting Training: " +:+ name model +:+ "[/bold green]" +:+ nl +:+
           "[dim]Configuration: " +:+ toml model +:+ "[/dim]");
   EPrint ""].

Definition setup_missing (nv : string) : list event :=
  [EExists (diffusion_pipe_dir nv) false;
   EPrint ("[red]Error: " +:+ diffusion_pipe_dir nv +:+ " not found![/red]");
   EPrint "[yellow]Run setup.sh first![/yellow]"].

Definition is_found (path : string) (e : event) : bool :=
  match e with
  | EExists p true => (p =? path)%string
  | _ => false
  end.

Definition is_run_or_chdir (e : event) : bool :=
  match e with
  | ERun _ _ _ | EChdir _ _ => true
  | _ => false
  end.

Lemma no_setup_does_nothing {A} s1 s2 (k : unit -> M A) w :
  existsb is_run_or_chdir
    (events (bind (console_print s1 ;; console_print s2 ;; sys_exit 1) k) w) = false.
Proof.
  unfold events, final, bind, console_print, sys_exit, raise, syscall, perform.
  destruct (interrupt w) as [[| [| n]] |]; cbn;
    rewrite <- ?app_assoc, drop_app_length; reflexivity.
Qed.

Lemma launch_training_order nv key : forall w,
  precedes (is_found (diffusion_pipe_dir nv)) is_run_or_chdir
           (events (launch_training nv key) w).
Proof.
  unfold launch_training. fold (diffusion_pipe_dir nv).
  do 4 (intros ?; apply precedes_bind_pass;
        [ solve [walk] | intros; unfold extends; walk | intros ? ]).
  intros wd. apply precedes_bind_branch.
  - walk.
  - intros found. unfold extends. walk.
  - intros found Hr.
    unfold result, events, final, os_path_exists, syscall, perform in *.
    destruct found.
    + left. destruct (interrupt wd) as [[| n] |]; cbn in *; try discriminate;
        injection Hr as Hr; rewrite Hr, drop_app_length; cbn;
        now rewrite String.eqb_refl.
    + right. cbn [negb]. apply no_setup_does_nothing.
Qed.

(** X9.  Without the checkout nothing is started.  When the directory
    [diffusion_pipe] is not under the working folder, [launch_training]
    says so, tells the user to run [setup.sh] and ends with [sys.exit(1)]:
    no directory is changed to and no command is run, not even the [pip]
    upgrades, and the state of the machine is what it was.  In every run,
    the change of directory and each command come after the directory was
    found. *)
Theorem launch_training_without_setup nv key model w :
  MODELS nv !! key = Some model ->
  interrupt w = None ->
  is_some (fs (os w) (diffusion_pipe_dir nv)) = false ->
  result (launch_training nv key) w = Exc (SystemExit 1) /\
  events (launch_training nv key) w = launch_banner model ++ setup_missing nv /\
  commands_run (events (launch_training nv key) w) = [] /\
  os (final (launch_training nv key) w) = os w /\
  (forall w', precedes (is_found (diffusion_pipe_dir nv)) is_run_or_chdir
                       (events (launch_training nv key) w')).
Proof.
  intros Hm Hi Hdp. destruct w as [o i tr]. cbn [os interrupt] in *. subst i.
  assert (Hall : launch_training nv key (quiet o tr) =
                 (Exc (SystemExit 1), quiet o (tr ++ launch_banner model ++ setup_missing nv))).
  { unfold launch_training.
    rewrite (bind_ok _ _ _ _ _ (getitem_ok _ _ _ _ Hm)).
    qsimpl. fold (diffusion_pipe_dir nv). rewrite Hdp. qsimpl.
    unfold quiet, launch_banner, setup_missing. rewrite <- !app_assoc. reflexivity. }
  apply run_quiet in Hall as (Hr & He & Hf). unfold quiet in *.
  rewrite Hr, He, Hf. repeat split. apply launch_training_order.
Qed.

(** ** The token, once typed *)

(** X10.  A token typed at the prompt is kept for the session.  For an
    entry that requires a token and an environment without a usable one,
    the line typed is stripped of the blanks around it, and what is left,
    if anything is, is taken as the token: it is returned and stored under
    [HUGGING_FACE_TOKEN], and one line of input is consumed.  A second
    call then finds it and asks nothing, unless it was the placeholder
    [token_here], which is accepted when typed although it is refused when
    found in the environment. *)
Theorem get_api_token_remembers nv key model o tr line rest :
  MODELS nv !! key = Some model ->
  requires_token model = true ->
  preset_token o = None ->
  stdin o = line :: rest ->
  strip line <> "" ->
  result (get_api_token nv key) (quiet o tr) = Ok (Some (strip line)) /\
  environ (os (final (get_api_token nv key) (quiet o tr))) =
    <["HUGGING_FACE_TOKEN" := strip line]> (environ o) /\
  stdin (os (final (get_api_token nv key) (quiet o tr))) = rest /\
  (strip line <> "token_here" ->
   result (get_api_token nv key) (final (get_api_token nv key) (quiet o tr)) =
     Ok (Some (strip line)) /\
   events (get_api_token nv key) (final (get_api_token nv key) (quiet o tr)) =
     [EPrint "[green]Hugging Face token already set[/green]"]) /\
  (strip line = "token_here" ->
   preset_token (os (final (get_api_token nv key) (quiet o tr))) = None).
Proof.
  intros Hm Hreq Hpre Hin Hne.
  set (token := strip line) in *.
  assert (Hall : get_api_token nv key (quiet o tr) =
            (Ok (Some token),
             quiet (set_environ (<["HUGGING_FACE_TOKEN" := token]> (environ o))
                                (set_stdin rest o))
                   (tr ++ token_request ++ [token_prompt token] ++
                    [ESetenv "HUGGING_FACE_TOKEN" token;
                     EPrint "[green]Token set successfully[/green]"]))).
  { rewrite (get_api_token_ask nv key model o tr Hm Hreq Hpre).
    rewrite (ask_for_token_quiet o tr line rest Hin). fold token.
    apply String.eqb_neq in Hne. now rewrite Hne. }
  apply run_quiet in Hall as (Hr & _ & Hf). rewrite Hr, Hf.
  split; [reflexivity |]. split; [reflexivity |]. split; [reflexivity |]. split.
  - intros Hph.
    match goal with
    | |- context [result _ (quiet ?o1 ?t1)] =>
        assert (Hset : preset_token o1 = Some token)
    end.
    { unfold preset_token. cbn [environ set_environ]. rewrite lookup_insert_eq.
      apply String.eqb_neq in Hne, Hph. now rewrite Hne, Hph. }
    pose proof (get_api_token_preset nv key model _
                  (tr ++ token_request ++ [token_prompt token] ++
                   [ESetenv "HUGGING_FACE_TOKEN" token;
                    EPrint "[green]Token set successfully[/green]"])
                  token Hm Hreq Hset) as Hagain.
    apply run_quiet in Hagain as (Hr2 & He2 & _). now rewrite Hr2, He2.
  - intros Heq. unfold preset_token. cbn [os quiet environ set_environ].
    rewrite lookup_insert_eq, Heq. reflexivity.
Qed.

(** X11.  Only Flux asks for a token.  For an entry that does not require
    one, [get_api_token] returns [None] and is not seen: no event, no line
    of input read, the environment not looked at, and a pending interrupt
    not delivered.  In the registry every entry but [flux] is such an
    entry.  A key that is not registered raises [KeyError]. *)
Theorem get_api_token_not_required nv :
  (forall key model w,
     MODELS nv !! key = Some model -> requires_token model = false ->
     get_api_token nv key w = (Ok None, w)) /\
  (forall key model,
     MODELS nv !! key = Some model -> key <> "flux" -> requires_token model = false) /\
  (forall key w,
     MODELS nv !! key = None -> get_api_token nv key w = (Exc (key_error key), w)).
Proof.
  split; [| split].
  - intros key model w Hm Hreq. rewrite get_api_token_eq.
    rewrite (bind_ok _ _ _ _ _ (getitem_ok _ _ _ _ Hm)). now rewrite Hreq.
  - intros key model Hm Hne. apply MODELS_inv in Hm. cbn in Hm.
    repeat (destruct Hm as [Hm | Hm]; [injection Hm as <- <- |]);
      try contradiction; reflexivity.
  - intros key w Hm. rewrite get_api_token_eq. unfold bind, getitem. now rewrite Hm.
Qed.

(** ** What the script writes *)







(** ** The environment *)

Lemma poll_loop_keeps_environ fuel e : forall elapsed,
  keeps (fun o => environ o = e) (poll_loop fuel elapsed).
Proof. intros elapsed. apply poll_loop_keeps_fs; intros; assumption. Qed.

Lemma download_model_keeps_environ nv key token e :
  keeps (fun o => environ o = e) (download_model nv key token).
Proof.
  unfold download_model, download_model_fuel. walk. apply poll_loop_keeps_environ.
Qed.

Lemma launch_training_keeps_environ nv key e :
  keeps (fun o => environ o = e) (launch_training nv key).
Proof. unfold launch_training. walk. Qed.

Lemma main_keeps_variable nv k v :
  k <> "HUGGING_FACE_TOKEN" -> keeps (fun o => environ o !! k = v) (main nv).
Proof.
  intros Hk. unfold main, on_keyboard_interrupt, on_exception.
  apply keeps_try_except; [| walk | intros msg; walk].
  open_script. walk; try (apply poll_loop_keeps_fs; intros; assumption).
  all: apply keeps_syscall; intros o Ho; cbn [snd environ set_environ].
  all: rewrite lookup_insert_ne; [exact Ho | congruence].
Qed.

(** *** The environment of the training command *)

(** Every command the run starts with an environment of its own is handed
    [env], and the run leaves [os.environ] as it is, [E]. *)
Definition hands {A} (E env : gmap string string) (m : M A) : Prop :=
  forall w, environ (os w) = E ->
    exists evs,
      trace (final m w) = trace w ++ evs /\
      environ (os (final m w)) = E /\
      forall cmd given rc, In (ERun cmd (Some given) rc) evs -> given = env.

Section Hands.

Context (E env : gmap string string).

Lemma hands_steady {A} (m : M A) : (forall w, final m w = w) -> hands E env m.
Proof.
  intros H w Hw. exists []. rewrite H, app_nil_r.
  split; [reflexivity | split; [exact Hw | contradiction]].
Qed.

Lemma hands_ret {A} (a : A) : hands E env (ret a).
Proof. now apply hands_steady. Qed.

Lemma hands_raise {A} e : hands E env (@raise A e).
Proof. now apply hands_steady. Qed.

Lemma hands_read {A} (f : OS -> A) : hands E env (read f).
Proof. now apply hands_steady. Qed.

Lemma hands_getitem {V} (d : gmap string V) k : hands E env (getitem d k).
Proof.
  apply hands_steady. intros w. unfold final, getitem. now destruct (d !! k).
Qed.

Lemma hands_bind {A B} (m : M A) (f : A -> M B) :
  hands E env m -> (forall a, hands E env (f a)) -> hands E env (bind m f).
Proof.
  intros Hm Hf w Hw. destruct (Hm w Hw) as (e1 & Ht1 & Hx1 & Hr1).
  unfold final, bind in *.
  destruct (m w) as [[a | x | |] w1] eqn:Em; cbn [fst snd] in *; eauto.
  destruct (Hf a w1 Hx1) as (e2 & Ht2 & Hx2 & Hr2). unfold final in *.
  exists (e1 ++ e2). rewrite Ht2, Ht1, app_assoc.
  split; [reflexivity | split; [exact Hx2 |]].
  intros cmd given rc Hin. apply in_app_iff in Hin as [Hin | Hin]; eauto.
Qed.

(** [env = os.environ.copy()]: the rest runs with the environment as it
    is. *)
Lemma hands_copy {B} (f : gmap string string -> M B) :
  hands E env (f E) -> hands E env (bind (read environ) f).
Proof.
  intros Hf w Hw. unfold final, bind, read. cbn [fst snd]. rewrite Hw.
  exact (Hf w Hw).
Qed.

Lemma hands_syscall {A} (op : OS -> event * Result A * OS) :
  (forall o, environ o = E ->
     environ (snd (op o)) = E /\
     forall cmd given rc, fst (fst (op o)) = ERun cmd (Some given) rc -> given = env) ->
  hands E env (syscall op).
Proof.
  intros Hop w Hw. unfold final, syscall, perform.
  destruct (Hop (os w) Hw) as [Hx Hr].
  destruct (interrupt w) as [[| n] |]; cbn [snd os trace].
  - exists [EInterrupt]. split; [reflexivity | split; [exact Hw |]].
    intros cmd given rc [Hin | []]. discriminate.
  - destruct (op (os w)) as [[e r] o]. cbn [fst snd os trace] in *. exists [e].
    split; [reflexivity | split; [exact Hx |]].
    intros cmd given rc [Hin | []]. eauto.
  - destruct (op (os w)) as [[e r] o]. cbn [fst snd os trace] in *. exists [e].
    split; [reflexivity | split; [exact Hx |]].
    intros cmd given rc [Hin | []]. eauto.
Qed.

End Hands.

Ltac hands_leaf :=
  intros; cbn; repeat (case_match; cbn);
  (split; [assumption |]); intros; congruence.

Ltac hands_step :=
  lazymatch goal with
  | |- hands _ _ (bind (read environ) _) => apply hands_copy
  | |- hands _ _ (bind _ _) => apply hands_bind
  | |- hands _ _ (ret _) => apply hands_ret
  | |- hands _ _ (sys_exit _) => apply hands_raise
  | |- hands _ _ (raise _) => apply hands_raise
  | |- hands _ _ (read _) => apply hands_read
  | |- hands _ _ (getitem _ _) => apply hands_getitem
  | |- hands _ _ (syscall _) => apply hands_syscall; hands_leaf
  | |- hands _ _ (match ?x with _ => _ end) => destruct x
  end.

Ltac hands_walk := open_prims; repeat (cbn beta iota zeta; intros; hands_step).

(** The two flags added to a copy of the environment. *)
Definition with_flags (E : gmap string string) : gmap string string :=
  <["NCCL_IB_DISABLE" := "1"]> (<["NCCL_P2P_DISABLE" := "1"]> E).

Lemma launch_training_hands nv key E :
  hands E (with_flags E) (launch_training nv key).
Proof. unfold launch_training, with_flags. hands_walk. Qed.

(** X13.  The environment of the script itself.  A session changes no
    variable of [os.environ] other than [HUGGING_FACE_TOKEN];
    [download_model] and [launch_training] change none at all: the two NCCL
    flags are set in the copy handed to the training command only.  In
    every run of [launch_training], a command started with an environment
    of its own is handed the environment of the script with the two flags
    set to 1 and nothing else changed. *)
Theorem environ_untouched nv w :
  (forall k, k <> "HUGGING_FACE_TOKEN" ->
     environ (os (final (main nv) w)) !! k = environ (os w) !! k) /\
  (forall key token,
     environ (os (final (download_model nv key token) w)) = environ (os w)) /\
  (forall key, environ (os (final (launch_training nv key) w)) = environ (os w)) /\
  (forall key cmd env rc,
     In (ERun cmd (Some env) rc) (events (launch_training nv key) w) ->
     env = training_env (os w) /\
     env !! "NCCL_P2P_DISABLE" = Some "1" /\
     env !! "NCCL_IB_DISABLE" = Some "1" /\
     forall k, k <> "NCCL_P2P_DISABLE" -> k <> "NCCL_IB_DISABLE" ->
               env !! k = environ (os w) !! k).
Proof.
  split; [| split; [| split]].
  - intros k Hk. exact (main_keeps_variable nv k _ Hk w eq_refl).
  - intros key token. exact (download_model_keeps_environ nv key token _ w eq_refl).
  - intros key. exact (launch_training_keeps_environ nv key _ w eq_refl).
  - intros key cmd env rc Hin.
    destruct (launch_training_hands nv key (environ (os w)) w eq_refl)
      as (evs & He & _ & Hgiven).
    rewrite (events_final _ _ _ He) in Hin.
    rewrite (Hgiven _ _ _ Hin). unfold training_env, with_flags.
    split; [reflexivity | split; [| split]].
    + rewrite lookup_insert_ne by discriminate. apply lookup_insert_eq.
    + apply lookup_insert_eq.
    + intros k H1 H2. rewrite !lookup_insert_ne by congruence. reflexivity.
Qed.

(** ** After an interrupt *)

(** What comes after the first event in [T]. *)
Fixpoint after (T : event -> bool) (evs : list event) : list event :=
  match evs with
  | [] => []
  | e :: rest => if T e then rest else after T rest
  end.


Lemma after_none T evs : existsb T evs = false -> after T evs = [].
Proof.
  induction evs as [| e evs IH]; [reflexivity |]. cbn [after existsb].
  destruct (T e); [discriminate | exact IH].
Qed.

Section Halts.

Context (T C : event -> bool).












End Halts.











(** ** Failures that no branch of the script handles *)

(** X15.  A plain file where the image dataset should be.  [os.path.exists]
    answers yes, so no "folder not found" issue is recorded and
    [os.listdir] is called: it raises [NotADirectoryError], which
    [validate_dataset] does not catch.  Nothing is asked and the video
    dataset is not looked at. *)
Theorem validate_dataset_not_a_directory nv mode w :
  mem mode ["images"; "both"] = true ->
  interrupt w = None ->
  fs (os w) (image_dir nv) = Some File ->
  result (validate_dataset nv mode) w = Exc (not_a_directory (image_dir nv)) /\
  events (validate_dataset nv mode) w =
    validation_banner ++
    [EExists (image_dir nv) true; EListdir (image_dir nv) false] /\
  os (final (validate_dataset nv mode) w) = os w.
Proof.
  intros Hmode Hi Hfile. destruct w as [o i tr]. cbn [os interrupt] in *. subst i.
  pose proof (validate_dataset_image_file nv mode o tr Hmode Hfile) as Hall.
  apply run_quiet in Hall as (Hr & He & Hf). unfold quiet in *.
  rewrite Hr, He, Hf. repeat split.
Qed.

(** *** The hub client is not installed *)

Definition spawn_failed (nv : string) (model : Model) (token : option string)
    : list event :=
  [EOpen (log_file nv) true; EPopen (download_command model token) false;
   EClose (log_file nv)].

Lemma fetch_client_missing nv fuel model token o tr :
  fs o (nv +:+ "/logs") = Some Dir ->
  is_dir (fs o (log_file nv)) = false ->
  installed o "huggingface-cli" = false ->
  fetch nv fuel model token (quiet o tr) =
  (Exc (not_found "huggingface-cli"),
   quiet (after_open (log_file nv) o)
         (tr ++ fetch_banner nv ++ spawn_failed nv model token)).
Proof.
  intros Hlogs Hlog Hcli. unfold fetch.
  unfold bind at 1, console_print at 1. cbn [syscall perform quiet interrupt os trace].
  unfold bind at 1, console_print at 1. cbn [syscall perform quiet interrupt os trace].
  unfold bind at 1, console_print at 1. cbn [syscall perform quiet interrupt os trace].
  unfold with_open_w.
  destruct (download_command_head model token) as (args & Hcmd).
  pose proof (open_w_quiet (log_file nv) o) as Hopen.
  rewrite os_path_dirname_log_file in Hopen.
  unfold bind at 1. unfold bind at 1.
  unfold quiet in Hopen. rewrite (Hopen _ Hlogs Hlog).
  unfold with_cleanup, subprocess_Popen, syscall, perform.
  cbn [os interrupt trace]. rewrite Hcmd.
  cbn [installed after_open set_fs]. rewrite Hcli. cbn [os interrupt trace].
  unfold quiet, fetch_banner, spawn_failed.
  rewrite Hcmd, <- !app_assoc. reflexivity.
Qed.

(** X16.  A download that goes ahead on a machine without
    [huggingface-cli]: [subprocess.Popen] raises [FileNotFoundError], which
    [download_model] does not catch.  By then the log file has been created
    (or emptied) and it is closed on the way out; no process exists and
    nothing is polled. *)
Theorem download_model_client_missing nv key model token w :
  MODELS nv !! key = Some model ->
  interrupt w = None ->
  makedirs_ok (fs (os w)) (local_dir model) = true ->
  proceeds model (os w) ->
  fs (os w) (logs_dir nv) = Some Dir ->
  is_dir (fs (os w) (log_file nv)) = false ->
  installed (os w) "huggingface-cli" = false ->
  result (download_model nv key token) w = Exc (not_found "huggingface-cli") /\
  (exists pre,
     events (download_model nv key token) w = pre ++ spawn_failed nv model token /\
     existsb is_popen pre = false) /\
  fs (os (final (download_model nv key token) w)) (log_file nv) = Some File /\
  proc (os (final (download_model nv key token) w)) = proc (os w).
Proof.
  intros Hm Hi Hmk Hgo Hlogs Hlog Hcli.
  destruct w as [o i tr]. cbn [os interrupt] in *. subst i.
  pose proof (MODELS_registered _ _ _ Hm) as Hreg.
  assert (Hall : exists rest evs,
            existsb is_popen evs = false /\
            download_model nv key token (quiet o tr) =
            (Exc (not_found "huggingface-cli"),
             quiet (after_open (log_file nv)
                      (set_stdin rest (after_makedirs (local_dir model) o)))
               (tr ++ (download_banner model ++ evs ++ fetch_banner nv) ++
                spawn_failed nv model token))).
  { unfold download_model.
    rewrite (download_prelude _ _ _ _ _ _ _ Hm Hmk).
    destruct (skip_check_proceeds nv model o (tr ++ download_banner model) Hreg Hgo)
      as (evs & rest & Hsk & Hnp).
    rewrite (bind_ok _ _ _ _ _ Hsk). cbn match.
    rewrite fetch_client_missing.
    - exists rest, evs. split; [exact Hnp |]. unfold quiet.
      rewrite <- !app_assoc. reflexivity.
    - cbn [fs set_stdin after_makedirs set_fs]. fold (logs_dir nv).
      unfold logs_dir in *. rewrite (reg_logs_apart _ _ Hreg). exact Hlogs.
    - cbn [fs set_stdin after_makedirs set_fs].
      rewrite (reg_log_file_apart _ _ Hreg). exact Hlog.
    - exact Hcli. }
  destruct Hall as (rest & evs & Hnp & Hall).
  apply run_quiet in Hall as (Hr & He & Hf). unfold quiet in *.
  rewrite Hr, He, Hf. split; [reflexivity |]. split; [| split].
  - eexists. split; [reflexivity |]. rewrite !existsb_app, Hnp. reflexivity.
  - cbn [os fs after_open set_fs]. now rewrite String.eqb_refl.
  - reflexivity.
Qed.

(** ** The further properties, on concrete machines *)

Lemma show_menu_selects_registered_witness :
  (exists choice,
     In choice menu_choices /\
     forall o tr rest,
       stdin o = choice :: rest ->
       show_menu (quiet o tr) =
       (Ok "sdxl", quiet (set_stdin rest o) (tr ++ menu_events choice))) /\
  result show_menu (quiet (machine volume [""] None) []) = Ok "flux" /\
  result show_menu (quiet (machine volume ["  "; "8"; " 2 "] None) []) = Ok "sdxl".
Proof.
  assert (H1 : read_choice menu_choices "1"
                 (stdin (machine volume ["  "; "8"; " 2 "] None)) = (Some "2", []))
    by (vm_compute; reflexivity).
  assert (H2 : model_map !! "2" = Some "sdxl") by (vm_compute; reflexivity).
  split; [| split].
  - exact (proj1 (proj2 (show_menu_selects_registered "/workspace"))
             "sdxl" (entry "/workspace" "sdxl") entry_sdxl).
  - exact (proj1 (proj2 (proj2 (show_menu_selects_registered "/workspace")))
             (machine volume [""] None) [] [] eq_refl).
  - exact (f_equal fst
             (proj2 (proj2 (proj2 (proj2 (show_menu_selects_registered "/workspace"))))
                (machine volume ["  "; "8"; " 2 "] None) [] "2" [] "sdxl" H1 H2)).
Defined.

Lemma get_caption_mode_returns_mode_witness :
  (exists choice,
     forall o tr rest,
       stdin o = choice :: rest ->
       get_caption_mode (quiet o tr) =
       (Ok "both", quiet (set_stdin rest o) (tr ++ caption_events choice))) /\
  result get_caption_mode (quiet (machine volume [""] None) []) = Ok "skip" /\
  result get_caption_mode (quiet (machine volume [" "; "both"; "3 "] None) []) = Ok "both".
Proof.
  assert (H : In "both" caption_modes) by (right; right; left; reflexivity).
  assert (H1 : read_choice mode_choices "4"
                 (stdin (machine volume [" "; "both"; "3 "] None)) = (Some "3", []))
    by (vm_compute; reflexivity).
  assert (H2 : mode_map !! "3" = Some "both") by (vm_compute; reflexivity).
  split; [| split].
  - exact (proj1 (proj2 get_caption_mode_returns_mode) "both" H).
  - exact (proj1 (proj2 (proj2 get_caption_mode_returns_mode))
             (machine volume [""] None) [] [] eq_refl).
  - exact (f_equal fst
             (proj2 (proj2 (proj2 (proj2 get_caption_mode_returns_mode)))
                (machine volume [" "; "both"; "3 "] None) [] "3" [] "both" H1 H2)).
Defined.

Lemma download_model_true_only_after_success_witness :
  In (EConfirm "Skip download?" (Some true))
     (events (download_model "/workspace" "sdxl" None) downloaded) \/
  In (EPoll (Some 0)) (events (download_model "/workspace" "sdxl" None) downloaded).
Proof.
  assert (H : result (download_model "/workspace" "sdxl" None) downloaded = Ok true)
    by (vm_compute; reflexivity).
  exact (download_model_true_only_after_success "/workspace" "sdxl" None downloaded H).
Defined.

Lemma launch_training_without_setup_witness :
  result (launch_training "/workspace" "sdxl") downloaded = Exc (SystemExit 1).
Proof.
  assert (H : is_some (fs (os downloaded) (diffusion_pipe_dir "/workspace")) = false)
    by (vm_compute; reflexivity).
  exact (proj1 (launch_training_without_setup "/workspace" "sdxl"
                  (entry "/workspace" "sdxl") downloaded entry_sdxl eq_refl H)).
Defined.

Lemma get_api_token_remembers_witness :
  result (get_api_token "/workspace" "flux")
         (quiet (machine volume ["  hf_secret "] None) []) = Ok (Some "hf_secret").
Proof.
  assert (H1 : requires_token (entry "/workspace" "flux") = true)
    by (vm_compute; reflexivity).
  assert (H2 : preset_token (machine volume ["  hf_secret "] None) = None)
    by (vm_compute; reflexivity).
  assert (H3 : strip "  hf_secret " <> "") by (vm_compute; discriminate).
  exact (proj1 (get_api_token_remembers "/workspace" "flux" (entry "/workspace" "flux")
                  (machine volume ["  hf_secret "] None) [] "  hf_secret " []
                  entry_flux H1 H2 eq_refl H3)).
Defined.

Lemma get_api_token_not_required_witness :
  get_api_token "/workspace" "sdxl" interrupted = (Ok None, interrupted) /\
  requires_token (entry "/workspace" "sdxl") = false /\
  get_api_token "/workspace" "sd3" fresh = (Exc (key_error "sd3"), fresh).
Proof.
  assert (H1 : requires_token (entry "/workspace" "sdxl") = false)
    by (vm_compute; reflexivity).
  assert (H2 : "sdxl" <> "flux") by discriminate.
  assert (H3 : MODELS "/workspace" !! "sd3" = None) by (vm_compute; reflexivity).
  split; [| split].
  - exact (proj1 (get_api_token_not_required "/workspace")
             "sdxl" (entry "/workspace" "sdxl") interrupted entry_sdxl H1).
  - exact (proj1 (proj2 (get_api_token_not_required "/workspace"))
             "sdxl" (entry "/workspace" "sdxl") entry_sdxl H2).
  - exact (proj2 (proj2 (get_api_token_not_required "/workspace")) "sd3" fresh H3).
Defined.


Definition flux_script : list string :=
  ["bash"; "/workspace/diffusion-pipe-working-folder/training_scripts/start_flux_training.sh"].

Lemma environ_untouched_witness :
  environ (os (final (main "/workspace") tokenless)) !! "PATH" =
  environ (os tokenless) !! "PATH" /\
  In (ERun flux_script (Some (training_env (os fresh))) (Some 1))
     (events (launch_training "/workspace" "flux") fresh) /\
  training_env (os fresh) !! "NCCL_P2P_DISABLE" = Some "1" /\
  training_env (os fresh) !! "NCCL_IB_DISABLE" = Some "1".
Proof.
  assert (H : "PATH" <> "HUGGING_FACE_TOKEN") by discriminate.
  assert (Hin : In (ERun flux_script (Some (training_env (os fresh))) (Some 1))
                   (events (launch_training "/workspace" "flux") fresh))
    by (vm_compute; repeat first [left; reflexivity | right]).
  split; [| split; [exact Hin |]].
  - exact (proj1 (environ_untouched "/workspace" tokenless) "PATH" H).
  - destruct (proj2 (proj2 (proj2 (environ_untouched "/workspace" fresh)))
                "flux" _ _ _ Hin) as (_ & H1 & H2 & _).
    split; [exact H1 | exact H2].
Defined.

Lemma validate_dataset_not_a_directory_witness :
  result (validate_dataset "/workspace" "images") misplaced =
  Exc (not_a_directory "/workspace/image_dataset_here").
Proof.
  assert (H1 : mem "images" ["images"; "both"] = true) by reflexivity.
  assert (H2 : fs (os misplaced) (image_dir "/workspace") = Some File)
    by (vm_compute; reflexivity).
  exact (proj1 (validate_dataset_not_a_directory "/workspace" "images" misplaced
                  H1 eq_refl H2)).
Defined.

(** The volume of [fresh], on a machine where only [huggingface-cli] is
    missing. *)
Definition clientless : World :=
  quiet {| fs := volume;
           listing := fun _ => [];
           environ := ∅;
           installed := fun prog => negb (prog =? "huggingface-cli")%string;
           stdin := [];
           fetch_exit := Some (5, 0);
           run_exit := fun _ => Some 0;
           now := 0;
           proc := None;
           cwd := "/" |} [].

Lemma download_model_client_missing_witness :
  result (download_model "/workspace" "sdxl" None) clientless =
  Exc (not_found "huggingface-cli").
Proof.
  assert (H1 : makedirs_ok (fs (os clientless)) (local_dir (entry "/workspace" "sdxl")) = true)
    by (vm_compute; reflexivity).
  assert (H2 : proceeds (entry "/workspace" "sdxl") (os clientless))
    by (left; vm_compute; reflexivity).
  assert (H3 : fs (os clientless) (logs_dir "/workspace") = Some Dir)
    by (vm_compute; reflexivity).
  assert (H4 : is_dir (fs (os clientless) (log_file "/workspace")) = false)
    by (vm_compute; reflexivity).
  assert (H5 : installed (os clientless) "huggingface-cli" = false)
    by (vm_compute; reflexivity).
  exact (proj1 (download_model_client_missing "/workspace" "sdxl"
                  (entry "/workspace" "sdxl") None clientless
                  entry_sdxl eq_refl H1 H2 H3 H4 H5)).
Defined.

(** The first command of scenario A comes 35 events into the session, after
    the user has accepted "Skip download?". *)
Lemma main_runs_after_download_witness :
  existsb download_succeeded (firstn 35 (events (main "/workspace") scenario_a)) = true.
Proof.
  assert (H : events (main "/workspace") scenario_a =
              firstn 35 (events (main "/workspace") scenario_a) ++
              ERun pip_transformers None (Some 1) ::
              skipn 36 (events (main "/workspace") scenario_a))
    by (vm_compute; reflexivity).
  exact (main_runs_after_download "/workspace" scenario_a
           (firstn 35 (events (main "/workspace") scenario_a))
           (ERun pip_transformers None (Some 1))
           (skipn 36 (events (main "/workspace") scenario_a)) H eq_refl).
Defined.
